(* ===== verification/_CoqProject ===== *)
-Q . S2P
Prelude.v
TokenData.v
KnownTokens.v
SteadyStore.v
Dropdown.v
TokenDropdown.v
DepositWithdraw.v
Actions.v
HexString.v
Utf8Int32.v
AddressInput.v
Collectibles.v
OrderHistory.v
SteadyApp.v
AppMachine.v
