(* ===== verification/Prelude.v ===== *)
(** * A verification library for the steady deposit/withdraw front-end

    The repository is a fork of the 0x launch kit front-end: a React/Redux
    application whose "steady" part lets a user pick a token, obtain a
    deposit address for it and withdraw it to an external address.  The
    program has no algorithmic core; what it has is a token registry that
    answers lookups and can fail, a Redux slice updated by actions, UI
    components that are small state machines, a hex encoder used for
    signing, and handlers that call a wallet and an HTTP service.  This
    library models each of them as Rocq definitions translated from the
    TypeScript sources under [src/src] and proves what makes them correct,
    and also where they are not.

    ** Files, in dependency order (see [_CoqProject])

    - [Prelude] (this file): JavaScript values the other files share: the
      exceptions of a [throw] ([exn]) and a computation that may throw
      ([result], with the notation [x <- c ;; k] of the scope [ui_scope]);
      ASCII [toLowerCase] / [toUpperCase]; the theme colours and cursors
      the styled components choose between; the hint databases [ui] and
      [ui_rw]; the tactics [inv_result] and [zlia]; lemmas on [find], on
      case folding and on strings built by concatenation.
    - [TokenData]: [src/src/util/token_steady_data.ts]: the configuration
      records [TokenSteadyData] and the [Token] they are mapped to
      ([mapTokensSteadyDataToTokenByNetworkId],
      [getWethTokenFromTokensSteadyDataByNetworkId]).
    - [KnownTokens]: [src/src/util/known_tokens.ts]: the class [KnownTokens]
      as a record and its constructor (which may throw), the lookups
      [getTokenBySymbol], [getTokenByAddress], [getTokenByAssetData],
      [isKnownAddress], [isValidFillEvent], and the lazily created
      singletons [getKnownTokens] / [getKnownSteadyTokens] as explicit
      state passing.  The 0x asset-data codec the class calls is an
      interface (the class [AssetDataCodec]) whose laws the lookups are
      proved against.
    - [SteadyStore]: [src/src/store/steady/reducers.ts] and the action
      creators of [src/src/store/steady/actions.ts]: the slice state, the
      tagged union of actions, the reducer, the initial state taken from the
      registry, and an inductive reachability relation with its invariant.
    - [Dropdown]: [src/src/components/common/dropdown.tsx]: the open/closed
      state machine with its mount lifecycle, as a step function and an
      inductive step relation, and the specification's two-state machine
      ([spec_step]) it refines under the abstraction [abs].
    - [TokenDropdown] also models the row style [TRStyled];
      [DepositWithdraw] the tab style [TabButton] and the [Label] colour.
    - [TokenDropdown]: [src/src/components/steady/common/token_dropdown.tsx]:
      selection of a row, composed from the dropdown and the store as the
      sequence of handlers a browser click runs.
    - [DepositWithdraw]: [src/src/components/steady/exchange/deposit_withdraw.tsx]:
      the panel's local state, its render as a view record (taking what
      [getKnownTokens()] returns or throws), and [submit] as the list of
      wallet effects it issues; the address validator is an interface
      ([AddressValidator]).
    - [Actions]: the asynchronous thunks of [src/src/store/steady/actions.ts]
      ([signMessage], [fetchDepositAddress], [fetchTokensDepositAddress])
      over an interface [World] for [fetch] and the wallet; a run of a
      thunk is an [Outcome]: the effects in order, the value its promise
      settles to, and the store after it.
    - [HexString]: [src/src/util/hex_string.ts]: [utf8ToHex] with the [utf8]
      package's encoder translated from that package ([ucs2decode],
      [encodeCodePoint] with its 32-bit masks, [checkScalarValue]), the NUL
      stripping and the two-digit hex loop; as references, the Unicode
      standard's UTF-16 pair formula ([utf16encode]) and UTF-8 table
      ([utf8_bytes]), and a hex decoder.
    - [Utf8Int32]: JavaScript's [ToUint32], [ToInt32], [ToUint16] and its
      [&], [|], [>>] on 32-bit integers, and [encodeCodePoint] and
      [utf8.encode] written again with them.
    - [AddressInput]: [src/src/components/common/address_input.tsx]: the
      controlled input with React's order of calls
      ([getDerivedStateFromProps] before every render; the parent's and
      the input's [setState] batched, then a re-render), for any parent
      (the section [Host]) and for the deposit/withdraw panel.
    - [Collectibles]: [src/src/erc721/pages/my_collectibles.tsx]: the
      [reduce] that groups the collectibles in columns of two, over
      JavaScript arrays with holes ([JsArray], [js_get], [js_set]), and
      the connected container, with its selector as a parameter.
    - [OrderHistory]: [src/src/components/steady/exchange/deposit_transaction.tsx]:
      the order card, whose table is a constant placeholder, and
      [orderToRow] with its status label and the colour of [SideTD].
    - [SteadyApp]: [src/src/components/steady/steady_app.tsx] and
      [pages/exchange.tsx]: the app's element tree with its exact route,
      the exchange page's layout, and the [mapStateToProps] /
      [mapDispatchToProps] that connect the panel and the order history to
      the store, composed into one render that may throw (React has no
      error boundary there) and threads the singleton globals.  Route
      matching is the interface [Router].
    - [AppMachine]: the exchange page as a labelled state machine of user
      events: the token dropdown, the panel's tabs, inputs and button
      acting on the shared store and component states ([app_handle], a
      step function labelled with the wallet calls it makes; [app_run],
      its runs; [app_exec], the executable runner), each event possible
      only on what [renderSteadyApp] shows; a click on a tab or on the
      button also reaches the token dropdown's document [mousedown]
      listener ([withClick]).

    ** What the theorems show

    - registry lookups: functional behaviour on every branch, the thrown
      messages, case-insensitive matching on the token list, the
      case-sensitive wETH fallback, the steady registry's empty token list;
    - the constructor: the registry invariant (no wETH in the list, every
      address present and non-empty) and its error path;
    - the singletons: once created, the argument is ignored;
    - the store: each action changes only its field, and the selected token
      stays a registry token in every reachable state (rule induction);
    - the dropdown: closing on an outside click depends on the flag, two
      header clicks cancel; every run refines the specification's
      two-state machine (a simulation proved by induction on the run), so
      only a header click opens it;
    - the token dropdown: a row click dispatches exactly one selection and
      leaves the dropdown closed; every click sequence keeps the store
      reachable; every registry token can be selected (a reachability
      witness built from the page's own steps);
    - the panel: no transfer without a valid address, the address shown is
      the last matching entry (equivalence with a reference definition),
      the signature request is constant; only the hidden tab is clickable
      and the shown one has its side's colour;
    - the thunks: [fetchDepositAddress] always stores the empty address
      list, so the panel connected to the store never shows a deposit
      address; [signMessage] never rejects;
    - the hex encoder: on the UTF-16 encoding of any list of scalar values
      [utf8.encode] returns the standard's UTF-8 bytes of those values,
      and it succeeds exactly on such strings (it throws on lone
      surrogates); [utf8ToHex] is [0x] and two hex digits per byte of the
      encoding with NULs stripped at both ends, which a hex decoder reads
      back; a leading NUL is lost;
    - 32-bit bounds: with JavaScript's 32-bit operators [utf8.encode]
      still writes the standard's UTF-8 bytes of every string of scalar
      values; above [2^32] the operand wraps;
    - the address input: it always shows its [value] prop, so in the panel
      a transfer goes to the address the field shows;
    - the collectibles page: the [reduce] equals a reference grouping
      ([columns], the items [j * k] to [j * k + k - 1] in column [j]),
      proved for every group size by induction on the items added one by
      one; it never throws and leaves no hole;
    - the order history ignores the orders; [orderToRow] labels every
      status but [Fillable] "Filled";
    - the app: it throws exactly when the exchange route is shown with the
      withdraw tab and the trading registry cannot resolve the selected
      steady token; its first render never throws; re-rendering is
      stable once the registry exists; an address stored through the
      panel's [onChangeAddresses] is shown as a QR code;
    - the page's runs: the crash is reachable by three clicks from the
      first page whenever a steady token is missing from the trading
      registry; conversely, when every steady token resolves, no run
      brings the app down (an invariant proved by induction on runs); no
      wallet call is made unless the wallet is [Done] and the button
      enabled; a second click on the button sends the same transfer
      again, because the form is not reset; with an empty steady registry
      the app renders with the panel [null] whatever its state, and the
      page accepts no event at all.

    ** Modelling choices

    - JavaScript strings are Stdlib [string]s; case mapping is modelled on
      ASCII, which is what token symbols and hex addresses use.
    - Configuration values the sources import from files that are not in
      the repository snapshot ([NETWORK_ID],
      [UI_DECIMALS_DISPLAYED_DEFAULT_PRECISION], the token lists, the base
      URL, the wallet) are the fields of classes ([AppConstants],
      [PanelConstants], [ActionConstants], [World]) taken as section
      context, so every theorem holds for every configuration; the files
      end with concrete instances for the witnesses.
    - Logging ([logger.log], [console.log]) is output only and not modelled;
      [logger.error] on a failed fetch is an effect of [Actions].
    - [HexString.encodeCodePoint] uses [Z] for JavaScript's 32-bit [&],
      [|] and [>>]: the code points [ucs2decode] yields are below
      [0x110000 < 2^21], where [Utf8Int32] shows the 32-bit operators
      write the same bytes.  [toHexString] runs [log2 n + 1] rounds of
      fuel, one per bit, at least one per hex digit; for the bytes
      [utf8ToHex] prints, [hexByte_digits] checks the result on all 256
      values.

    ** Not modelled

    Navigation between routes is not an event of [AppMachine] (the page
    has no link that changes it), and what [BigNumberInput] passes to
    [onChange] is any amount (that component is not in the snapshot).
    Styled components whose CSS does not depend on props, imports and
    TypeScript interfaces have no behaviour to model; the components the
    app and the page include from files outside the snapshot (toolbar,
    layout, wallet balance, modals) are opaque elements; the selectors and
    the configuration files the sources import ([util/types.ts],
    [common/constants.ts], the token lists, [store/selectors.ts]) are not
    in the snapshot and enter as interfaces or records; the order, wallet
    and fee thunks that [mapDispatchToProps] also wires are in modules
    that are not in the snapshot. *)

From Stdlib Require Import String Ascii ZArith List Lia.
From stdpp Require Import base list strings option relations.

Declare Scope ui_scope.
Delimit Scope ui_scope with ui.

(** ** Exceptions and computations that may throw *)

(** What a [throw] carries: [new Error(msg)], or the [TypeError] the
    runtime raises on a property access of [undefined]. *)
Inductive exn : Type :=
| JsError (msg : string)
| JsTypeError (msg : string).

Inductive result (A : Type) : Type :=
| Ok (a : A)
| Throw (e : exn).
Arguments Ok {A} a.
Arguments Throw {A} e.

Notation "x <- c ;; k" :=
  (match c with Ok x => k | Throw e => Throw e end)
  (at level 100, c at next level, right associativity) : ui_scope.

Definition is_ok {A} (r : result A) : bool :=
  match r with Ok _ => true | Throw _ => false end.

(** [try { c; return true } catch (e) { return false }] *)
Definition succeeds {A} (r : result A) : bool := is_ok r.

(** ** Theme colours and cursors

    The entries of [theme.componentsTheme] that the styled components
    read, and the CSS keywords they choose between; a style is a record of
    these. *)
Inductive ThemeColor :=
| ThemeGreen | ThemeRed | TextLight | TextColorCommon
| InactiveTabBackgroundColor | CardBorderColor | RowActive | Transparent.

Inductive Cursor := CursorDefault | CursorPointer.

#[export] Instance ThemeColor_eq_dec : EqDecision ThemeColor.
Proof. solve_decision. Defined.

#[export] Instance Cursor_eq_dec : EqDecision Cursor.
Proof. solve_decision. Defined.

(** ** ASCII case mapping *)

Definition ascii_lower (c : ascii) : ascii :=
  let n := N_of_ascii c in
  if ((65 <=? n) && (n <=? 90))%N then ascii_of_N (n + 32) else c.

Definition ascii_upper (c : ascii) : ascii :=
  let n := N_of_ascii c in
  if ((97 <=? n) && (n <=? 122))%N then ascii_of_N (n - 32) else c.

(** [String.prototype.toLowerCase] *)
Fixpoint toLowerCase (s : string) : string :=
  match s with
  | EmptyString => EmptyString
  | String c s' => String (ascii_lower c) (toLowerCase s')
  end.

(** [String.prototype.toUpperCase] *)
Fixpoint toUpperCase (s : string) : string :=
  match s with
  | EmptyString => EmptyString
  | String c s' => String (ascii_upper c) (toUpperCase s')
  end.

(** A string is truthy unless it is empty. *)
Definition str_truthy (s : string) : bool := negb (String.eqb s "").

(** ** Automation *)

Create HintDb ui discriminated.
Create Rewrite HintDb ui_rw.

(** Clear the equations between results: injects [Ok a = Ok b], discards
    [Ok a = Throw e], and substitutes. *)
Ltac inv_result :=
  repeat match goal with
  | H : Ok _ = Ok _ |- _ => injection H as H
  | H : Throw _ = Throw _ |- _ => injection H as H
  | H : Ok _ = Throw _ |- _ => discriminate H
  | H : Throw _ = Ok _ |- _ => discriminate H
  | H : Some _ = Some _ |- _ => injection H as H
  | H : Some _ = None |- _ => discriminate H
  | H : None = Some _ |- _ => discriminate H
  end; subst.

(** Case on the [match] the goal's head computation is blocked on. *)
Ltac case_scrutinee :=
  match goal with
  | |- context [match ?x with _ => _ end] => destruct x eqn:?
  end.

(** Linear arithmetic with [/] and [mod] by constants, which [lia] alone
    does not see through. *)
Ltac zlia := Z.div_mod_to_equations; lia.

(** ** Lemmas on case mapping *)

Section CaseMapping.

Lemma ascii_lower_idem c : ascii_lower (ascii_lower c) = ascii_lower c.
Proof. destruct c as [[] [] [] [] [] [] [] []]; reflexivity. Qed.

Lemma ascii_lower_upper c : ascii_lower (ascii_upper c) = ascii_lower c.
Proof. destruct c as [[] [] [] [] [] [] [] []]; reflexivity. Qed.

Lemma ascii_upper_lower c : ascii_upper (ascii_lower c) = ascii_upper c.
Proof. destruct c as [[] [] [] [] [] [] [] []]; reflexivity. Qed.

Lemma toLowerCase_idem s : toLowerCase (toLowerCase s) = toLowerCase s.
Proof. induction s; simpl; rewrite ?ascii_lower_idem; congruence. Qed.

Lemma toLowerCase_toUpperCase s : toLowerCase (toUpperCase s) = toLowerCase s.
Proof. induction s; simpl; rewrite ?ascii_lower_upper; congruence. Qed.

Lemma toUpperCase_toLowerCase s : toUpperCase (toLowerCase s) = toUpperCase s.
Proof. induction s; simpl; rewrite ?ascii_upper_lower; congruence. Qed.

Lemma toLowerCase_length s : String.length (toLowerCase s) = String.length s.
Proof. induction s; simpl; congruence. Qed.

Lemma toLowerCase_empty s : toLowerCase s = "" <-> s = "".
Proof. destruct s; simpl; split; congruence. Qed.

End CaseMapping.

#[export] Hint Rewrite toLowerCase_idem toLowerCase_toUpperCase
  toUpperCase_toLowerCase : ui_rw.

(** ** Lemmas on [find] ([Array.prototype.find]) *)

Section Find.
Context {A : Type}.
Implicit Types (f g : A -> bool) (l : list A).

(** [find] returns the first element the test accepts. *)
Lemma find_first f l x :
  find f l = Some x <->
  exists l1 l2, l = l1 ++ x :: l2 /\ f x = true /\ Forall (fun y => f y = false) l1.
Proof.
  split.
  - induction l as [|y l IH]; simpl; [discriminate|].
    destruct (f y) eqn:Hy; intros H.
    + inv_result. exists [], l. auto.
    + destruct (IH H) as (l1 & l2 & -> & Hx & Hl1).
      exists (y :: l1), l2. auto.
  - intros (l1 & l2 & -> & Hx & Hl1).
    induction Hl1 as [|y l1 Hy _ IH]; simpl; [by rewrite Hx|by rewrite Hy].
Qed.

Lemma find_None_iff f l : find f l = None <-> Forall (fun y => f y = false) l.
Proof.
  induction l as [|y l IH]; simpl; [split; auto|].
  destruct (f y) eqn:Hy; split; intros H.
  - discriminate.
  - inversion H; congruence.
  - constructor; [done|by apply IH].
  - by apply IH; inversion H.
Qed.

Lemma find_ext_in f g l :
  (forall x, In x l -> f x = g x) -> find f l = find g l.
Proof.
  induction l as [|y l IH]; intros Hfg; simpl; [done|].
  rewrite (Hfg y (or_introl eq_refl)).
  destruct (g y); [done|]. apply IH. intros x Hx. apply Hfg. by right.
Qed.

Lemma find_filter f (p : A -> bool) l :
  find f (List.filter p l) = find (fun x => p x && f x) l.
Proof.
  induction l as [|y l IH]; simpl; [done|].
  destruct (p y); simpl; [|done]. destruct (f y); [done|apply IH].
Qed.

(** On a list where the test accepts at most one element, [find] finds it. *)
Lemma find_unique f l x :
  In x l -> f x = true ->
  (forall y, In y l -> f y = true -> y = x) ->
  find f l = Some x.
Proof.
  intros Hin Hx Huniq. destruct (find f l) as [y|] eqn:Hf.
  - apply find_some in Hf as [Hy Hfy]. f_equal. by apply Huniq.
  - apply (find_none f l Hf) in Hin. congruence.
Qed.

End Find.

#[export] Hint Resolve find_unique find_ext_in : ui.

(** ** [find] with a test that may throw

    [list.find(t => e(t))] where evaluating [e] may throw: the first throw
    aborts the search. *)
Fixpoint find_res {A} (f : A -> result bool) (l : list A) : result (option A) :=
  match l with
  | [] => Ok None
  | x :: l' =>
      match f x with
      | Ok true => Ok (Some x)
      | Ok false => find_res f l'
      | Throw e => Throw e
      end
  end.

Section FindRes.
Context {A : Type}.

(** When the test cannot throw on the list, [find_res] is [find]. *)
Lemma find_res_total (f : A -> result bool) (g : A -> bool) (l : list A) :
  (forall x, In x l -> f x = Ok (g x)) -> find_res f l = Ok (find g l).
Proof.
  induction l as [|y l IH]; intros Hfg; simpl; [done|].
  rewrite (Hfg y (or_introl eq_refl)).
  destruct (g y); [done|]. apply IH. intros x Hx. apply Hfg. by right.
Qed.

End FindRes.

#[export] Hint Resolve find_res_total : ui.

(** Two elements of a list with the same key, when the keys are distinct,
    are the same element. *)
Lemma NoDup_map_eq {A B} (f : A -> B) (l : list A) (x y : A) :
  NoDup (map f l) -> In x l -> In y l -> f x = f y -> x = y.
Proof.
  induction l as [|z l IH]; simpl; [done|].
  intros Hnd Hx Hy Hxy. inversion Hnd as [|? ? Hz Hnd']; subst.
  destruct Hx as [<-|Hx], Hy as [<-|Hy]; try done.
  - destruct Hz. rewrite Hxy. apply list_elem_of_In, in_map, Hy.
  - destruct Hz. rewrite <- Hxy. apply list_elem_of_In, in_map, Hx.
  - by apply IH.
Qed.

(** ** [Array.prototype.map] with the index ([imap]) *)

Section Imap.
Context {A B C : Type}.

(** When the function ignores the index, mapping after [imap] is [map]. *)
Lemma map_imap_indep (f : nat -> A -> B) (h : B -> C) (g : A -> C) (l : list A) :
  (forall i x, h (f i x) = g x) -> map h (imap f l) = map g l.
Proof.
  revert f. induction l as [|x l IH]; intros f Hf; [done|].
  rewrite imap_cons. simpl. rewrite Hf. f_equal. apply IH. intros. apply Hf.
Qed.

Lemma filter_imap_indep (f : nat -> A -> B) (h : B -> bool) (g : A -> bool) (l : list A) :
  (forall i x, h (f i x) = g x) -> length (List.filter h (imap f l)) = length (List.filter g l).
Proof.
  revert f. induction l as [|x l IH]; intros f Hf; [done|].
  rewrite imap_cons. simpl. rewrite Hf.
  destruct (g x); simpl; [f_equal|]; apply IH; intros; apply Hf.
Qed.

End Imap.

Section FilterEq.
Context `{EqDecision A}.

Lemma filter_eq_absent (l : list A) (t : A) :
  ~ In t l -> List.filter (fun x => bool_decide (x = t)) l = [].
Proof.
  induction l as [|x l IH]; simpl; intros Hn; [done|].
  case_bool_decide; [subst; tauto|]. apply IH. tauto.
Qed.

(** An element of a list without duplicates occurs once. *)
Lemma filter_eq_NoDup (l : list A) (t : A) :
  NoDup l -> In t l -> length (List.filter (fun x => bool_decide (x = t)) l) = 1.
Proof.
  induction l as [|x l IH]; intros Hnd Hin; [done|].
  inversion Hnd as [|? ? Hx Hl]; subst. simpl. case_bool_decide.
  - subst. rewrite filter_eq_absent; [done|]. by rewrite <- list_elem_of_In.
  - destruct Hin as [->|Hin]; [done|]. by apply IH.
Qed.

End FilterEq.

(** ** Checking a property on a finite range of integers by computation *)

Lemma Z_range_check (P : Z -> bool) (n : nat) :
  forallb P (map Z.of_nat (seq 0 n)) = true -> forall x, (0 <= x < Z.of_nat n)%Z -> P x = true.
Proof.
  intros Hall x Hx. rewrite forallb_forall in Hall. apply Hall.
  apply in_map_iff. exists (Z.to_nat x). split; [lia|]. apply in_seq. lia.
Qed.

(** ** Lemmas on strings built by concatenation *)

(** stdpp makes [String.append] opaque to [simpl]; its two equations. *)
Lemma string_app_nil_l (a : string) : "" +:+ a = a.
Proof. reflexivity. Qed.

Lemma string_app_cons (x : ascii) (a b : string) : String x a +:+ b = String x (a +:+ b).
Proof. reflexivity. Qed.

Lemma string_app_assoc (a b c : string) : (a +:+ b) +:+ c = a +:+ (b +:+ c).
Proof. induction a as [|x a IH]; [done|by rewrite !string_app_cons, IH]. Qed.

Lemma string_app_nil_r (a : string) : a +:+ "" = a.
Proof. induction a as [|x a IH]; [done|by rewrite string_app_cons, IH]. Qed.

(** A loop [acc += f(x)] over a list is the concatenation of the pieces. *)
Lemma fold_left_string_app {A} (f : A -> string) (l : list A) (acc : string) :
  fold_left (fun s x => s +:+ f x) l acc = acc +:+ fold_right (fun x s => f x +:+ s) "" l.
Proof.
  revert acc. induction l as [|x l IH]; intros acc; simpl.
  - by rewrite string_app_nil_r.
  - by rewrite IH, string_app_assoc.
Qed.

(** [List.map] is stdpp's [fmap] on lists. *)
Lemma list_map_fmap {A B} (f : A -> B) (l : list A) : map f l = f <$> l.
Proof. induction l as [|x l IH]; simpl; [done|by rewrite IH]. Qed.

Lemma last_rev {A} (l : list A) : last (rev l) = head l.
Proof. destruct l as [|x l]; simpl; [done|apply last_snoc]. Qed.

#[export] Hint Rewrite string_app_nil_l string_app_cons string_app_assoc string_app_nil_r : ui_rw.
