(* ===== verification/TokenData.v ===== *)
(** * Token configuration records and their mapping to tokens

    Models [src/src/util/token_steady_data.ts] and the record
    [TokenSteadyData] of [src/src/common/tokens_steady_data.ts]: a
    configuration entry carries one address per network (a JavaScript object
    keyed by network id, here a [gmap Z string]); the entries whose address
    on the configured network is truthy are mapped to [Token]s, and the wETH
    entry is looked up by its exact symbol.  The configuration constants
    ([NETWORK_ID], the default display precision, the token lists) come from
    files outside the snapshot and are the fields of the class
    [AppConstants]. *)

From Stdlib Require Import String ZArith List.
From stdpp Require Import base list strings gmap.
From S2P Require Import Prelude.

Open Scope ui_scope.

(** [Token] of [util/types.ts].  The address is [undefined] when the
    configuration has none for the network, hence an [option]. *)
Record Token := {
  address : option string;
  symbol : string;
  decimals : Z;
  name : string;
  primaryColor : string;
  icon : option string;
  displayDecimals : Z;
}.

#[export] Instance Token_eq_dec : EqDecision Token.
Proof. solve_decision. Defined.

Module SteadyData.
(** [TokenSteadyData] of [common/tokens_steady_data.ts]. *)
Record TokenSteadyData := {
  addresses : gmap Z string;
  symbol : string;
  decimals : Z;
  name : string;
  primaryColor : string;
  icon : option string;
  displayDecimals : option Z;
}.
End SteadyData.
Export SteadyData (TokenSteadyData).

(** The trading registry's [TokenMetaData] has the same fields. *)
Definition TokenMetaData := TokenSteadyData.

(** The configuration: [common/constants.ts] and [Config.getConfig()]. *)
Class AppConstants := {
  NETWORK_ID : Z;
  UI_DECIMALS_DISPLAYED_DEFAULT_PRECISION : Z;
  KNOWN_TOKENS_META_DATA : list TokenMetaData;
  KNOWN_TOKENS_STEADY_DATA : list TokenSteadyData;
}.

Section Mapping.
Context `{AppConstants}.

(** [x.displayDecimals || UI_DECIMALS_DISPLAYED_DEFAULT_PRECISION]: both
    [undefined] and [0] are falsy. *)
Definition displayDecimalsOrDefault (o : option Z) : Z :=
  match o with
  | Some n => if Z.eqb n 0 then UI_DECIMALS_DISPLAYED_DEFAULT_PRECISION else n
  | None => UI_DECIMALS_DISPLAYED_DEFAULT_PRECISION
  end.

(** The object literal both functions of the file build. *)
Definition tokenOfSteadyData (d : TokenSteadyData) : Token := {|
  address := SteadyData.addresses d !! NETWORK_ID;
  symbol := SteadyData.symbol d;
  decimals := SteadyData.decimals d;
  name := SteadyData.name d;
  primaryColor := SteadyData.primaryColor d;
  icon := SteadyData.icon d;
  displayDecimals := displayDecimalsOrDefault (SteadyData.displayDecimals d);
|}.

(** [.filter(d => d.addresses[NETWORK_ID])]: the address is truthy. *)
Definition hasNetworkAddress (d : TokenSteadyData) : bool :=
  match SteadyData.addresses d !! NETWORK_ID with
  | Some a => str_truthy a
  | None => false
  end.

Definition mapTokensSteadyDataToTokenByNetworkId (l : list TokenSteadyData) : list Token :=
  map tokenOfSteadyData (List.filter hasNetworkAddress l).

Definition getWethTokenFromTokensSteadyDataByNetworkId (l : list TokenSteadyData)
  : result Token :=
  match find (fun d => String.eqb (SteadyData.symbol d) "weth") l with
  | Some d => Ok (tokenOfSteadyData d)
  | None => Throw (JsError "WETH Token MetaData not found")
  end.

(** [util/token_meta_data.ts] is not in the snapshot; in the launch kit it
    is the same code over [TokenMetaData]. *)
Definition mapTokensMetaDataToTokenByNetworkId (l : list TokenMetaData) : list Token :=
  mapTokensSteadyDataToTokenByNetworkId l.

Definition getWethTokenFromTokensMetaDataByNetworkId (l : list TokenMetaData)
  : result Token :=
  getWethTokenFromTokensSteadyDataByNetworkId l.

End Mapping.

(** ** A concrete configuration, for evaluating the definitions

    Mainnet addresses; the wETH address is in its checksummed (mixed-case)
    form, the [usdt] entry has an upper-case symbol and the [dai] entry a
    display precision of [0]. *)
Definition demo_weth : TokenSteadyData := {|
  SteadyData.addresses := {[ 1%Z := "0xC02aaA39b223FE8D0A0e5C4F27eAD9083C756Cc2" ]};
  SteadyData.symbol := "weth"; SteadyData.decimals := 18%Z; SteadyData.name := "Wrapped Ether";
  SteadyData.primaryColor := "#3333ff"; SteadyData.icon := None;
  SteadyData.displayDecimals := None |}.

Definition demo_dai : TokenSteadyData := {|
  SteadyData.addresses := {[ 1%Z := "0x89d24A6b4CcB1B6fAA2625fE562bDD9a23260359" ]};
  SteadyData.symbol := "dai"; SteadyData.decimals := 18%Z; SteadyData.name := "Dai";
  SteadyData.primaryColor := "#f2b247"; SteadyData.icon := None;
  SteadyData.displayDecimals := Some 0%Z |}.

Definition demo_usdt : TokenSteadyData := {|
  SteadyData.addresses := {[ 1%Z := "0xdAC17F958D2ee523a2206206994597C13D831ec7" ]};
  SteadyData.symbol := "USDT"; SteadyData.decimals := 6%Z; SteadyData.name := "Tether";
  SteadyData.primaryColor := "#26a17b"; SteadyData.icon := None;
  SteadyData.displayDecimals := Some 4%Z |}.

(** An entry with no address on network 1. *)
Definition demo_btc : TokenSteadyData := {|
  SteadyData.addresses := {[ 3%Z := "0x0000000000000000000000000000000000000001" ]};
  SteadyData.symbol := "btc"; SteadyData.decimals := 8%Z; SteadyData.name := "Bitcoin";
  SteadyData.primaryColor := "#f7931a"; SteadyData.icon := None;
  SteadyData.displayDecimals := None |}.

Definition demo_data : list TokenSteadyData := [demo_weth; demo_dai; demo_usdt; demo_btc].

Definition demo_constants : AppConstants := {|
  NETWORK_ID := 1%Z;
  UI_DECIMALS_DISPLAYED_DEFAULT_PRECISION := 2%Z;
  KNOWN_TOKENS_META_DATA := demo_data;
  KNOWN_TOKENS_STEADY_DATA := demo_data;
|}.

(** ** Lemmas *)

Section MappingFacts.
Context `{AppConstants}.

Lemma mapTokens_In (l : list TokenSteadyData) (t : Token) :
  In t (mapTokensSteadyDataToTokenByNetworkId l) <->
  exists d, In d l /\ hasNetworkAddress d = true /\ t = tokenOfSteadyData d.
Proof.
  unfold mapTokensSteadyDataToTokenByNetworkId. rewrite in_map_iff.
  split.
  - intros (d & <- & Hd). apply filter_In in Hd as [Hd Ha]. eauto.
  - intros (d & Hd & Ha & ->). exists d. split; [done|]. by apply filter_In.
Qed.

(** Every mapped token has an address, and it is not the empty string. *)
Lemma mapTokens_address (l : list TokenSteadyData) (t : Token) :
  In t (mapTokensSteadyDataToTokenByNetworkId l) ->
  exists a, address t = Some a /\ a <> "".
Proof.
  intros (d & _ & Ha & ->)%mapTokens_In. unfold hasNetworkAddress in Ha.
  simpl. destruct (SteadyData.addresses d !! NETWORK_ID) as [a|]; [|discriminate].
  exists a. split; [done|]. unfold str_truthy in Ha.
  destruct (String.eqb_spec a ""); [discriminate|done].
Qed.

Lemma getWeth_Ok (l : list TokenSteadyData) (t : Token) :
  getWethTokenFromTokensSteadyDataByNetworkId l = Ok t -> symbol t = "weth".
Proof.
  unfold getWethTokenFromTokensSteadyDataByNetworkId.
  destruct (find _ l) as [d|] eqn:Hf; intros Ht; inv_result.
  apply find_some in Hf as [_ Hs]. by apply String.eqb_eq in Hs.
Qed.

End MappingFacts.

#[export] Hint Resolve mapTokens_address getWeth_Ok : ui.
