(* ===== verification/KnownTokens.v ===== *)
(** * The token registry

    Models [src/src/util/known_tokens.ts]: the class [KnownTokens] is a
    record of its three private fields, its constructor
    [new_KnownTokens] may throw (when the configuration has no wETH entry),
    and each public arrow-function member is a function of the record.
    The process-wide singletons [getKnownTokens] / [getKnownSteadyTokens]
    are modelled with their global variables ([Globals]) passed explicitly.

    [assetDataUtils.decodeERC20AssetData] of [@0x/order-utils] is the
    interface [AssetDataCodec]; [ERC20Codec] is an instance following the
    0x ERC20 asset-data format (proxy id [0xf47261b0], then the token
    address left-padded to 32 bytes), used for concrete runs. *)

From Stdlib Require Import String ZArith List.
From stdpp Require Import base list strings gmap.
From S2P Require Import Prelude TokenData.

Open Scope ui_scope.

(** ** The asset-data codec the registry calls *)

Class AssetDataCodec := {
  (** [decodeERC20AssetData(assetData).tokenAddress], or the error it throws *)
  decodeERC20AssetData : string -> result string;
}.

(** ** The class *)

Record KnownTokens := {
  _tokens : list Token;
  _steadyTokens : list Token;
  _wethToken : Token;
}.

Definition isWeth (token : string) : bool := String.eqb token "weth".
Definition isZrx (token : string) : bool := String.eqb token "zrx".

Section Registry.
Context `{AppConstants} `{AssetDataCodec}.

(** [token => !isWeth(token.symbol)] *)
Definition notWeth (t : Token) : bool := negb (isWeth (symbol t)).

(** [constructor(knownTokensData, isSteady)]: the token list is computed,
    then the wETH token; the latter throws when there is none. *)
Definition new_KnownTokens (knownTokensData : list TokenSteadyData) (isSteady : bool)
  : result KnownTokens :=
  if isSteady then
    let steady := List.filter notWeth (mapTokensSteadyDataToTokenByNetworkId knownTokensData) in
    w <- getWethTokenFromTokensSteadyDataByNetworkId knownTokensData ;;
    Ok {| _tokens := []; _steadyTokens := steady; _wethToken := w |}
  else
    let tokens := List.filter notWeth (mapTokensMetaDataToTokenByNetworkId knownTokensData) in
    w <- getWethTokenFromTokensMetaDataByNetworkId knownTokensData ;;
    Ok {| _tokens := tokens; _steadyTokens := []; _wethToken := w |}.

Definition getWethToken (kt : KnownTokens) : Token := _wethToken kt.
Definition getTokens (kt : KnownTokens) : list Token := _tokens kt.
Definition getSteadyTokens (kt : KnownTokens) : list Token := _steadyTokens kt.

(** [this._steadyTokens[0]]: [undefined] on an empty list. *)
Definition getSteadyDefaultToken (kt : KnownTokens) : option Token :=
  head (_steadyTokens kt).

Definition symbolNotFound (s : string) : string :=
  "Token with symbol " +:+ s +:+ " not found in known tokens".

Definition addressNotFound (a : string) : string :=
  "Token with address " +:+ a +:+ " not found in known tokens".

Definition getTokenBySymbol (kt : KnownTokens) (symbol0 : string) : result Token :=
  let symbolInLowerCaseScore := toLowerCase symbol0 in
  match find (fun t => String.eqb (symbol t) symbolInLowerCaseScore) (_tokens kt) with
  | Some token => Ok token
  | None =>
      if String.eqb symbolInLowerCaseScore "weth" then Ok (getWethToken kt)
      else Throw (JsError (symbolNotFound symbol0))
  end.

(** [t.address.toLowerCase()]: a [TypeError] when the address is
    [undefined]. *)
Definition addressToLowerCase (t : Token) : result string :=
  match address t with
  | Some a => Ok (toLowerCase a)
  | None => Throw (JsTypeError "Cannot read property 'toLowerCase' of undefined")
  end.

Definition getTokenByAddress (kt : KnownTokens) (address0 : string) : result Token :=
  let addressInLowerCase := toLowerCase address0 in
  found <- find_res (fun t => a <- addressToLowerCase t ;; Ok (String.eqb a addressInLowerCase))
                    (_tokens kt) ;;
  let token :=
    match found with
    | Some t => Some t
    | None =>
        if decide (address (_wethToken kt) = Some address0) then Some (_wethToken kt)
        else None
    end in
  match token with
  | Some t => Ok t
  | None => Throw (JsError (addressNotFound address0))
  end.

Definition getTokenByAssetData (kt : KnownTokens) (assetData : string) : result Token :=
  tokenAddress <- decodeERC20AssetData assetData ;;
  getTokenByAddress kt tokenAddress.

Definition isKnownAddress (kt : KnownTokens) (address0 : string) : bool :=
  succeeds (getTokenByAddress kt address0).

Definition isERC20AssetData (assetData : string) : bool :=
  succeeds (decodeERC20AssetData assetData).

(** The two fields of [fillEvent.args] the check reads. *)
Record FillEventArgs := {
  makerAssetData : string;
  takerAssetData : string;
}.

Definition isValidFillEvent (kt : KnownTokens) (args : FillEventArgs) : result bool :=
  if negb (isERC20AssetData (makerAssetData args)) || negb (isERC20AssetData (takerAssetData args))
  then Ok false
  else
    makerAssetAddress <- decodeERC20AssetData (makerAssetData args) ;;
    takerAssetAddress <- decodeERC20AssetData (takerAssetData args) ;;
    if negb (isKnownAddress kt makerAssetAddress) || negb (isKnownAddress kt takerAssetAddress)
    then Ok false
    else Ok true.

(** [getColorBySymbol] searches the raw configuration, not a registry. *)
Definition getColorBySymbol (symbol0 : string) : result string :=
  match find (fun d => String.eqb (SteadyData.symbol d) (toLowerCase symbol0))
             KNOWN_TOKENS_META_DATA with
  | Some d => Ok (SteadyData.primaryColor d)
  | None => Throw (JsError (symbolNotFound symbol0))
  end.

(** ** The singletons

    The module-level variables [knownTokens] and [knownSteadyTokens]; the
    constructor's result is stored only when it returns. *)
Record Globals := {
  knownTokens : option KnownTokens;
  knownSteadyTokens : option KnownTokens;
}.

Definition globals_init : Globals := {| knownTokens := None; knownSteadyTokens := None |}.

Definition getKnownTokens (knownTokensMetadata : list TokenMetaData) (g : Globals)
  : result (KnownTokens * Globals) :=
  match knownTokens g with
  | Some kt => Ok (kt, g)
  | None =>
      kt <- new_KnownTokens knownTokensMetadata false ;;
      Ok (kt, {| knownTokens := Some kt; knownSteadyTokens := knownSteadyTokens g |})
  end.

Definition getKnownSteadyTokens (knownTokensSteadydata : list TokenSteadyData) (g : Globals)
  : result (KnownTokens * Globals) :=
  match knownSteadyTokens g with
  | Some kt => Ok (kt, g)
  | None =>
      kt <- new_KnownTokens knownTokensSteadydata true ;;
      Ok (kt, {| knownTokens := knownTokens g; knownSteadyTokens := Some kt |})
  end.

(** ** The registry invariant

    What the constructor guarantees of the fields: neither list contains a
    token whose symbol is ["weth"], every listed token has a non-empty
    address, the wETH token's symbol is ["weth"], and a registry fills one
    list only. *)
Definition registry_wf (kt : KnownTokens) : Prop :=
  (forall t, In t (_tokens kt ++ _steadyTokens kt) ->
     isWeth (symbol t) = false /\ exists a, address t = Some a /\ a <> "") /\
  symbol (_wethToken kt) = "weth" /\
  (_tokens kt = [] \/ _steadyTokens kt = []).

End Registry.

(** Does a token's address match [q] up to case?  (The test of
    [getTokenByAddress] on a token whose address is defined.) *)
Definition addrMatch (q : string) (t : Token) : bool :=
  match address t with
  | Some a => String.eqb (toLowerCase a) (toLowerCase q)
  | None => false
  end.

(** ** A concrete codec, for evaluating the definitions

    The 0x ERC20 asset data: the 4-byte proxy id [0xf47261b0], then the
    token address left-padded to 32 bytes, as 74 hex characters with the
    [0x] prefix; the decoder returns the address in lower case. *)
Definition ERC20_PROXY_ID : string := "0xf47261b0".
Definition ERC20_ADDRESS_PADDING : string := "000000000000000000000000".

Definition erc20DecodeTokenAddress (assetData : string) : result string :=
  if String.eqb (substring 0 10 assetData) ERC20_PROXY_ID &&
     Nat.eqb (String.length assetData) 74 &&
     String.eqb (substring 10 24 assetData) ERC20_ADDRESS_PADDING
  then Ok ("0x" +:+ toLowerCase (substring 34 40 assetData))
  else Throw (JsError "Invalid ERC20 asset data").

Definition ERC20Codec : AssetDataCodec :=
  {| decodeERC20AssetData := erc20DecodeTokenAddress |}.

(** The registry invariant as a test, for concrete registries. *)
Definition registry_wfb (kt : KnownTokens) : bool :=
  forallb (fun t => notWeth t &&
             match address t with Some a => str_truthy a | None => false end)
          (_tokens kt ++ _steadyTokens kt) &&
  String.eqb (symbol (_wethToken kt)) "weth" &&
  (bool_decide (_tokens kt = []) || bool_decide (_steadyTokens kt = [])).

(** The registries [demo_data] produces on network 1. *)
Definition demo_registry : KnownTokens := {|
  _tokens := [@tokenOfSteadyData demo_constants demo_dai;
              @tokenOfSteadyData demo_constants demo_usdt];
  _steadyTokens := [];
  _wethToken := @tokenOfSteadyData demo_constants demo_weth |}.

Definition demo_steady_registry : KnownTokens := {|
  _tokens := [];
  _steadyTokens := [@tokenOfSteadyData demo_constants demo_dai;
                    @tokenOfSteadyData demo_constants demo_usdt];
  _wethToken := @tokenOfSteadyData demo_constants demo_weth |}.

(** ** Theorems *)

Section RegistryFacts.
Context `{AppConstants} `{AssetDataCodec}.
Implicit Types (kt : KnownTokens) (d : list TokenSteadyData) (t : Token).

(** The fields a successful construction produces. *)
Lemma new_KnownTokens_Ok d (isSteady : bool) kt :
  new_KnownTokens d isSteady = Ok kt ->
  getWethTokenFromTokensSteadyDataByNetworkId d = Ok (_wethToken kt) /\
  (if isSteady
   then _tokens kt = [] /\
        _steadyTokens kt = List.filter notWeth (mapTokensSteadyDataToTokenByNetworkId d)
   else _tokens kt = List.filter notWeth (mapTokensSteadyDataToTokenByNetworkId d) /\
        _steadyTokens kt = []).
Proof.
  unfold new_KnownTokens, getWethTokenFromTokensMetaDataByNetworkId,
    mapTokensMetaDataToTokenByNetworkId.
  destruct isSteady, (getWethTokenFromTokensSteadyDataByNetworkId d);
    intros; inv_result; auto.
Qed.

Lemma filter_notWeth_mapTokens d t :
  In t (List.filter notWeth (mapTokensSteadyDataToTokenByNetworkId d)) ->
  isWeth (symbol t) = false /\ exists a, address t = Some a /\ a <> "".
Proof.
  intros [Hin Hw]%filter_In. split; [by apply negb_true_iff|].
  by eapply mapTokens_address.
Qed.

Lemma registry_wfb_iff kt : registry_wfb kt = true <-> registry_wf kt.
Proof.
  unfold registry_wfb, registry_wf, notWeth.
  rewrite !andb_true_iff, orb_true_iff, !bool_decide_eq_true, forallb_forall, String.eqb_eq, Logic.and_assoc.
  apply and_iff_compat_r. split.
  - intros Hl t Ht. apply Hl in Ht as [Hw%negb_true_iff Ha]%andb_true_iff.
    split; [done|]. destruct (address t) as [a|]; [|discriminate].
    exists a. split; [done|]. unfold str_truthy in Ha.
    by destruct (String.eqb_spec a "").
  - intros Hl t Ht. destruct (Hl t Ht) as [Hw (a & Ha & Hne)].
    rewrite Hw, Ha. unfold str_truthy. by destruct (String.eqb_spec a "").
Qed.

#[export] Instance registry_wf_dec kt : Decision (registry_wf kt).
Proof. destruct (registry_wfb kt) eqn:E; [left|right]; rewrite <- registry_wfb_iff; congruence. Defined.

(** C8: Construction establishes the registry invariant: no listed
    token is wETH, each has a non-empty address, the stored wETH token has
    the symbol ["weth"], and only one of the two lists is filled. *)
Theorem new_KnownTokens_wf d (isSteady : bool) kt :
  new_KnownTokens d isSteady = Ok kt -> registry_wf kt.
Proof.
  intros [Hw Hl]%new_KnownTokens_Ok. split; [|split].
  - intros t. destruct isSteady; destruct Hl as [-> ->];
      rewrite ?app_nil_r; simpl; apply filter_notWeth_mapTokens.
  - by eapply getWeth_Ok.
  - destruct isSteady; destruct Hl as [-> ->]; auto.
Qed.

(** C35: The constructor throws exactly when the configuration has no
    entry whose symbol is exactly ["weth"], and then with the message
    ["WETH Token MetaData not found"]. *)
Theorem new_KnownTokens_throws d (isSteady : bool) (e : exn) :
  new_KnownTokens d isSteady = Throw e <->
  e = JsError "WETH Token MetaData not found" /\
  Forall (fun x => SteadyData.symbol x <> "weth") d.
Proof.
  unfold new_KnownTokens, getWethTokenFromTokensMetaDataByNetworkId,
    getWethTokenFromTokensSteadyDataByNetworkId.
  assert (Hf : find (fun x => String.eqb (SteadyData.symbol x) "weth") d = None <->
               Forall (fun x => SteadyData.symbol x <> "weth") d).
  { rewrite find_None_iff. apply Forall_iff. intros x.
    destruct (String.eqb_spec (SteadyData.symbol x) "weth"); split; congruence. }
  destruct (find _ d) as [x|] eqn:E.
  - split; [by destruct isSteady|]. intros [_ HF%Hf]. congruence.
  - destruct isSteady; split; [intros; inv_result; by split; [|apply Hf]|by intros [-> _]
                              |intros; inv_result; by split; [|apply Hf]|by intros [-> _]].
Qed.

Lemma registry_wf_no_weth kt :
  registry_wf kt -> forall t, In t (_tokens kt) -> symbol t <> "weth".
Proof.
  intros [Hl _] t Ht Hs. destruct (Hl t) as [Hw _]; [by apply in_or_app; left|].
  unfold isWeth in Hw. rewrite Hs in Hw. discriminate.
Qed.

(** C2: A token of the list is found by its symbol written in
    any case, when the stored symbols are distinct. *)
Theorem getTokenBySymbol_registry_token kt t (s : string) :
  NoDup (map symbol (_tokens kt)) -> In t (_tokens kt) ->
  toLowerCase s = symbol t ->
  getTokenBySymbol kt s = Ok t.
Proof.
  intros Hnd Hin Hs. unfold getTokenBySymbol.
  rewrite (find_unique _ _ t Hin); [done| |].
  - rewrite Hs. apply String.eqb_refl.
  - intros y Hy Heq. apply String.eqb_eq in Heq.
    eapply NoDup_map_eq; eauto. congruence.
Qed.

(** Looking up ["weth"] in any case returns the stored wETH
    token, which is not in the list. *)
Theorem getTokenBySymbol_weth kt (s : string) :
  registry_wf kt -> toLowerCase s = "weth" ->
  getTokenBySymbol kt s = Ok (getWethToken kt).
Proof.
  intros Hwf Hs. unfold getTokenBySymbol. rewrite Hs.
  rewrite (proj2 (find_None_iff _ _)); [done|].
  apply List.Forall_forall. intros t Ht.
  apply String.eqb_neq. by apply (registry_wf_no_weth kt Hwf).
Qed.

(** C33: A symbol that matches no listed token and is not wETH
    makes the lookup throw ["Token with symbol S not found in known tokens"]
    with the symbol as given. *)
Theorem getTokenBySymbol_not_found kt (s : string) :
  (forall t, In t (_tokens kt) -> symbol t <> toLowerCase s) ->
  toLowerCase s <> "weth" ->
  getTokenBySymbol kt s = Throw (JsError (symbolNotFound s)).
Proof.
  intros Hnone Hw. unfold getTokenBySymbol.
  rewrite (proj2 (find_None_iff _ _)).
  - by rewrite (proj2 (String.eqb_neq _ _) Hw).
  - apply List.Forall_forall. intros t Ht. apply String.eqb_neq. auto.
Qed.

Lemma getTokenBySymbol_sound kt (s : string) t :
  getTokenBySymbol kt s = Ok t ->
  (In t (_tokens kt) /\ symbol t = toLowerCase s) \/
  (toLowerCase s = "weth" /\ t = getWethToken kt).
Proof.
  unfold getTokenBySymbol. destruct (find _ _) as [y|] eqn:Hf; intros Ht.
  - inv_result. apply find_some in Hf as [Hin Hy]. left.
    split; [done|]. by apply String.eqb_eq.
  - destruct (String.eqb_spec (toLowerCase s) "weth"); inv_result; auto.
Qed.

(** C24: In the steady registry, [getTokenBySymbol] finds nothing
    but wETH: the constructor fills [_steadyTokens] and leaves [_tokens],
    the list the lookup searches, empty. *)
Theorem steady_getTokenBySymbol_only_weth d kt (s : string) t :
  new_KnownTokens d true = Ok kt ->
  getTokenBySymbol kt s = Ok t ->
  t = getWethToken kt /\ toLowerCase s = "weth".
Proof.
  intros [_ [Ht _]]%new_KnownTokens_Ok Hs.
  apply getTokenBySymbol_sound in Hs as [[Hin _]|[? ?]]; [|done].
  rewrite Ht in Hin. destruct Hin.
Qed.

(** With every listed address defined, [getTokenByAddress] is a plain
    search followed by the wETH fallback. *)
Lemma getTokenByAddress_eq kt (q : string) :
  registry_wf kt ->
  getTokenByAddress kt q =
  match find (addrMatch q) (_tokens kt) with
  | Some t => Ok t
  | None =>
      if decide (address (_wethToken kt) = Some q) then Ok (_wethToken kt)
      else Throw (JsError (addressNotFound q))
  end.
Proof.
  intros [Hl _]. unfold getTokenByAddress.
  rewrite (find_res_total _ (addrMatch q)).
  - destruct (find _ _); [done|]. by case_decide.
  - intros t Ht. destruct (Hl t) as [_ (a & Ha & _)]; [by apply in_or_app; left|].
    unfold addressToLowerCase, addrMatch. by rewrite Ha.
Qed.

(** An address of a listed token, written in any case, is
    found, and the token returned has that address up to case. *)
Theorem getTokenByAddress_found kt t (a q : string) :
  registry_wf kt -> In t (_tokens kt) -> address t = Some a ->
  toLowerCase a = toLowerCase q ->
  exists t', getTokenByAddress kt q = Ok t' /\ In t' (_tokens kt) /\ addrMatch q t' = true.
Proof.
  intros Hwf Hin Ha Haq. rewrite getTokenByAddress_eq by done.
  destruct (find (addrMatch q) _) as [t'|] eqn:Hf.
  - apply find_some in Hf. eauto.
  - apply (find_none _ _ Hf) in Hin. unfold addrMatch in Hin.
    rewrite Ha, Haq, String.eqb_refl in Hin. discriminate.
Qed.

(** C3: An address that matches no listed token up to case and is
    not exactly the wETH address makes the lookup throw
    ["Token with address A not found in known tokens"]. *)
Theorem getTokenByAddress_not_found kt (q : string) :
  registry_wf kt ->
  (forall t, In t (_tokens kt) -> addrMatch q t = false) ->
  address (getWethToken kt) <> Some q ->
  getTokenByAddress kt q = Throw (JsError (addressNotFound q)).
Proof.
  intros Hwf Hnone Hw. rewrite getTokenByAddress_eq by done.
  rewrite (proj2 (find_None_iff _ _)); [|by apply List.Forall_forall].
  by case_decide.
Qed.

(** C25: The wETH fallback compares addresses exactly, case
    included: when no listed token matches, the wETH token is returned
    if and only if the query is its address character for character. *)
Theorem getTokenByAddress_weth_exact kt (q : string) :
  registry_wf kt ->
  (forall t, In t (_tokens kt) -> addrMatch q t = false) ->
  getTokenByAddress kt q = Ok (getWethToken kt) <-> address (getWethToken kt) = Some q.
Proof.
  intros Hwf Hnone. rewrite getTokenByAddress_eq by done.
  rewrite (proj2 (find_None_iff _ _)); [|by apply List.Forall_forall].
  unfold getWethToken. case_decide; split; intros; congruence.
Qed.

(** C34: [isValidFillEvent] never throws, and accepts an event exactly
    when both asset datas decode and both decoded addresses are known. *)
Theorem isValidFillEvent_spec kt (ev : FillEventArgs) :
  isValidFillEvent kt ev =
  Ok (match decodeERC20AssetData (makerAssetData ev), decodeERC20AssetData (takerAssetData ev) with
      | Ok m, Ok t => isKnownAddress kt m && isKnownAddress kt t
      | _, _ => false
      end).
Proof.
  unfold isValidFillEvent, isERC20AssetData, succeeds.
  destruct (decodeERC20AssetData (makerAssetData ev)),
    (decodeERC20AssetData (takerAssetData ev)); simpl; [|done..].
  by destruct (isKnownAddress kt _), (isKnownAddress kt _).
Qed.

(** C36: Once [getKnownSteadyTokens] has returned a registry, every
    later call returns that registry and leaves the globals as they are,
    whatever configuration it is passed. *)
Theorem getKnownSteadyTokens_cached d1 d2 (g g' : Globals) kt :
  getKnownSteadyTokens d1 g = Ok (kt, g') ->
  getKnownSteadyTokens d2 g' = Ok (kt, g') /\ knownTokens g' = knownTokens g.
Proof.
  unfold getKnownSteadyTokens. destruct (knownSteadyTokens g) as [k|] eqn:Hk.
  - intros; inv_result. by rewrite Hk.
  - destruct (new_KnownTokens d1 true); intros; inv_result; auto.
Qed.

Lemma getKnownTokens_cached d1 d2 (g g' : Globals) kt :
  getKnownTokens d1 g = Ok (kt, g') ->
  getKnownTokens d2 g' = Ok (kt, g') /\ knownSteadyTokens g' = knownSteadyTokens g.
Proof.
  unfold getKnownTokens. destruct (knownTokens g) as [k|] eqn:Hk.
  - intros; inv_result. by rewrite Hk.
  - destruct (new_KnownTokens d1 false); intros; inv_result; auto.
Qed.

(** A constructor that throws leaves the global undefined, so the next call
    constructs again. *)
Lemma getKnownSteadyTokens_throw d (g : Globals) (e : exn) :
  getKnownSteadyTokens d g = Throw e ->
  knownSteadyTokens g = None /\ new_KnownTokens d true = Throw e.
Proof.
  unfold getKnownSteadyTokens. destruct (knownSteadyTokens g); [discriminate|].
  destruct (new_KnownTokens d true); intros; inv_result; auto.
Qed.

End RegistryFacts.

#[export] Hint Resolve new_KnownTokens_Ok getTokenBySymbol_sound getTokenByAddress_eq : ui.

(** ** Concrete runs on [demo_data] *)

Section Witnesses.
#[local] Existing Instance demo_constants.
#[local] Existing Instance ERC20Codec.

Lemma new_KnownTokens_wf_witness :
  new_KnownTokens demo_data false = Ok demo_registry /\ registry_wf demo_registry.
Proof.
  split; [vm_compute; reflexivity|].
  apply (new_KnownTokens_wf demo_data false). vm_compute. reflexivity.
Defined.

Lemma getTokenBySymbol_registry_token_witness :
  getTokenBySymbol demo_registry "DAI" = Ok (tokenOfSteadyData demo_dai).
Proof.
  apply getTokenBySymbol_registry_token.
  - apply (bool_decide_unpack _). vm_compute. exact I.
  - simpl. left. reflexivity.
  - vm_compute. reflexivity.
Defined.

Lemma getTokenBySymbol_weth_witness :
  getTokenBySymbol demo_registry "WETH" = Ok (tokenOfSteadyData demo_weth).
Proof.
  apply (getTokenBySymbol_weth demo_registry "WETH").
  - apply registry_wfb_iff. vm_compute. reflexivity.
  - vm_compute. reflexivity.
Defined.

(** The stored symbol ["USDT"] is not found under its own name. *)
Lemma getTokenBySymbol_not_found_witness :
  getTokenBySymbol demo_registry "USDT" = Throw (JsError (symbolNotFound "USDT")).
Proof.
  apply getTokenBySymbol_not_found.
  - intros t Ht. simpl in Ht. destruct Ht as [<-|[<-|[]]]; vm_compute; discriminate.
  - vm_compute. discriminate.
Defined.

Lemma steady_getTokenBySymbol_only_weth_witness :
  tokenOfSteadyData demo_weth = getWethToken demo_steady_registry /\ toLowerCase "WETH" = "weth".
Proof.
  apply (steady_getTokenBySymbol_only_weth demo_data demo_steady_registry "WETH").
  - vm_compute. reflexivity.
  - vm_compute. reflexivity.
Defined.

Lemma getTokenByAddress_found_witness :
  exists t', getTokenByAddress demo_registry "0x89d24a6b4ccb1b6faa2625fe562bdd9a23260359" = Ok t' /\
    In t' (_tokens demo_registry) /\
    addrMatch "0x89d24a6b4ccb1b6faa2625fe562bdd9a23260359" t' = true.
Proof.
  apply (getTokenByAddress_found demo_registry (tokenOfSteadyData demo_dai)
           "0x89d24A6b4CcB1B6fAA2625fE562bDD9a23260359").
  - apply registry_wfb_iff. vm_compute. reflexivity.
  - simpl. left. reflexivity.
  - vm_compute. reflexivity.
  - vm_compute. reflexivity.
Defined.

(** The wETH address in lower case is not found. *)
Lemma getTokenByAddress_not_found_witness :
  getTokenByAddress demo_registry "0xc02aaa39b223fe8d0a0e5c4f27ead9083c756cc2" =
  Throw (JsError (addressNotFound "0xc02aaa39b223fe8d0a0e5c4f27ead9083c756cc2")).
Proof.
  apply getTokenByAddress_not_found.
  - apply registry_wfb_iff. vm_compute. reflexivity.
  - intros t Ht. simpl in Ht. destruct Ht as [<-|[<-|[]]]; vm_compute; reflexivity.
  - vm_compute. discriminate.
Defined.

Lemma getTokenByAddress_weth_exact_witness :
  getTokenByAddress demo_registry "0xC02aaA39b223FE8D0A0e5C4F27eAD9083C756Cc2" =
  Ok (getWethToken demo_registry).
Proof.
  apply getTokenByAddress_weth_exact.
  - apply registry_wfb_iff. vm_compute. reflexivity.
  - intros t Ht. simpl in Ht. destruct Ht as [<-|[<-|[]]]; vm_compute; reflexivity.
  - vm_compute. reflexivity.
Defined.

Lemma getKnownSteadyTokens_cached_witness :
  getKnownSteadyTokens [] {| knownTokens := None; knownSteadyTokens := Some demo_steady_registry |} =
  Ok (demo_steady_registry,
      {| knownTokens := None; knownSteadyTokens := Some demo_steady_registry |}) /\
  knownTokens {| knownTokens := None; knownSteadyTokens := Some demo_steady_registry |} =
  knownTokens globals_init.
Proof.
  apply (getKnownSteadyTokens_cached demo_data [] globals_init).
  vm_compute. reflexivity.
Defined.

(** A fill between dai and the wETH token by its checksummed address. *)
Example isValidFillEvent_demo :
  isValidFillEvent demo_registry
    {| makerAssetData := "0xf47261b000000000000000000000000089d24a6b4ccb1b6faa2625fe562bdd9a23260359";
       takerAssetData := "0xf47261b000000000000000000000000089d24a6b4ccb1b6faa2625fe562bdd9a23260359" |}
  = Ok true.
Proof. vm_compute. reflexivity. Qed.

End Witnesses.
