(* ===== verification/SteadyStore.v ===== *)
(** * The steady Redux slice

    Models [src/src/store/steady/reducers.ts] and the two action creators of
    [src/src/store/steady/actions.ts] ([setCurrentToken], [setAddresses]).
    The application's [RootAction] union is an inductive type with one
    constructor per steady action and one for every other action of the
    application, which the reducer passes through.  The initial state reads
    the steady registry's default token.

    Reachable states are those obtained from the initial state by the
    actions the application dispatches: a selection is only ever dispatched
    by the token dropdown, with a token of the steady registry's list
    ([TokenDropdown] proves it of the component).  The invariant is that
    the selected token is one of the registry's tokens, and is undefined
    only when the list is empty. *)

From Stdlib Require Import String ZArith List.
From stdpp Require Import base list strings relations.
From S2P Require Import Prelude TokenData KnownTokens.

Open Scope ui_scope.

Module Addr.
(** [Address] of [util/types.ts]: a deposit address for a coin. *)
Record Address := {
  coinCode : string;
  address : string;
}.
End Addr.
Export Addr (Address).

(** [SteadyState] of [util/types.ts]. *)
Record SteadyState := {
  currentToken : option Token;
  addresses : option (list Address);
}.

(** [RootAction], restricted to what the steady reducer distinguishes. *)
Inductive RootAction :=
| SetCurrentToken (payload : Token)
| SetAddresses (payload : list Address)
| OtherAction (type_ : string).

(** The [type] strings [createAction] gives the two steady actions. *)
Definition actionType (a : RootAction) : string :=
  match a with
  | SetCurrentToken _ => "steady/STEADY_CURRENT_TOKENS_set"
  | SetAddresses _ => "steady/ADDRESSES_set"
  | OtherAction ty => ty
  end.

Definition setCurrentToken (token : Token) : RootAction := SetCurrentToken token.
Definition setAddresses (addresses0 : list Address) : RootAction := SetAddresses addresses0.

(** [initialSteadyState], given the steady registry. *)
Definition initialSteadyState (kt : KnownTokens) : SteadyState := {|
  currentToken := getSteadyDefaultToken kt;
  addresses := None;
|}.

(** [steady(state = initialSteadyState, action)]: Redux passes [undefined]
    on the first call. *)
Definition steady (init : SteadyState) (state : option SteadyState) (action : RootAction)
  : SteadyState :=
  let s := default init state in
  match action with
  | SetCurrentToken t => {| currentToken := Some t; addresses := addresses s |}
  | SetAddresses l => {| currentToken := currentToken s; addresses := Some l |}
  | OtherAction _ => s
  end.

(** The synchronous thunks of [actions.ts], as the actions they dispatch
    (an [async] function runs up to its first [await] at once, and these
    have none). *)
Definition changeCurrentToken (token : Token) : list RootAction := [setCurrentToken token].
Definition changeAddresses (addresses0 : list Address) : list RootAction := [setAddresses addresses0].

(** [fetchTokens]: gets (and may create) the steady registry, returns its
    list and dispatches nothing. *)
Definition fetchTokens `{AppConstants} (g : Globals) : result (list Token * Globals) :=
  r <- getKnownSteadyTokens KNOWN_TOKENS_STEADY_DATA g ;;
  let '(knownTokens, g') := r in
  Ok (getSteadyTokens knownTokens, g').

(** [dispatch] on a defined state ([steady]'s default is not used). *)
Definition dispatch (s : SteadyState) (a : RootAction) : SteadyState := steady s (Some s) a.

Definition dispatch_all (s : SteadyState) (acts : list RootAction) : SteadyState :=
  fold_left dispatch acts s.

(** One dispatch on a defined state. *)
Definition reduce (kt : KnownTokens) (s : SteadyState) (a : RootAction) : SteadyState :=
  steady (initialSteadyState kt) (Some s) a.

(** The actions the application dispatches: selections come from the
    registry's list. *)
Definition dispatchable (kt : KnownTokens) (a : RootAction) : Prop :=
  match a with
  | SetCurrentToken t => In t (getSteadyTokens kt)
  | _ => True
  end.

Definition store_step (kt : KnownTokens) (s s' : SteadyState) : Prop :=
  exists a, dispatchable kt a /\ s' = reduce kt s a.

Definition reachable (kt : KnownTokens) (s : SteadyState) : Prop :=
  rtc (store_step kt) (initialSteadyState kt) s.

(** The selected token is a registry token; it is undefined only when the
    registry has none. *)
Definition token_inv (kt : KnownTokens) (s : SteadyState) : Prop :=
  match currentToken s with
  | Some t => In t (getSteadyTokens kt)
  | None => getSteadyTokens kt = []
  end.

(** ** Theorems *)

Section StoreFacts.
Context `{AppConstants}.

(** Each steady action replaces its own field with its payload
    and leaves the other field as it was; any other action returns the
    state unchanged; the first call starts from the initial state. *)
Theorem steady_reducer_spec (init s : SteadyState) (t : Token) (l : list Address) (ty : string) :
  steady init (Some s) (setCurrentToken t) = {| currentToken := Some t; addresses := addresses s |} /\
  steady init (Some s) (setAddresses l) = {| currentToken := currentToken s; addresses := Some l |} /\
  steady init (Some s) (OtherAction ty) = s /\
  steady init None (OtherAction ty) = init.
Proof. repeat split. Qed.

(** The initial state selects the first configuration entry that
    has an address on the network and is not wETH, and has no deposit
    addresses. *)
Theorem initialSteadyState_first_token (d : list TokenSteadyData) (kt : KnownTokens) :
  new_KnownTokens d true = Ok kt ->
  initialSteadyState kt =
  {| currentToken :=
       tokenOfSteadyData <$> find (fun x => hasNetworkAddress x && notWeth (tokenOfSteadyData x)) d;
     addresses := None |}.
Proof.
  intros [_ [_ Hs]]%new_KnownTokens_Ok. unfold initialSteadyState, getSteadyDefaultToken.
  rewrite Hs. clear Hs. f_equal. unfold mapTokensSteadyDataToTokenByNetworkId.
  induction d as [|x d IH]; simpl; [done|].
  destruct (hasNetworkAddress x); simpl; [|exact IH].
  destruct (notWeth (tokenOfSteadyData x)); [done|exact IH].
Qed.

Lemma token_inv_init (kt : KnownTokens) : token_inv kt (initialSteadyState kt).
Proof.
  unfold token_inv, initialSteadyState, getSteadyDefaultToken, getSteadyTokens. simpl.
  destruct (_steadyTokens kt); simpl; auto.
Qed.

Lemma token_inv_step (kt : KnownTokens) (s s' : SteadyState) :
  token_inv kt s -> store_step kt s s' -> token_inv kt s'.
Proof.
  intros Hinv (a & Ha & ->). destruct a; simpl in *; done.
Qed.

Lemma token_inv_rtc (kt : KnownTokens) (s0 s : SteadyState) :
  rtc (store_step kt) s0 s -> token_inv kt s0 -> token_inv kt s.
Proof. induction 1; eauto using token_inv_step. Qed.

(** C6: In every reachable state the selected token is one of the
    steady registry's tokens, and it is undefined only when the registry
    lists none. *)
Theorem reachable_token_inv (kt : KnownTokens) (s : SteadyState) :
  reachable kt s -> token_inv kt s.
Proof. intros Hr. eapply token_inv_rtc; [exact Hr|apply token_inv_init]. Qed.

Lemma dispatch_reduce (kt : KnownTokens) (s : SteadyState) (a : RootAction) :
  dispatch s a = reduce kt s a.
Proof. by destruct a. Qed.

(** Dispatching actions the application may dispatch keeps a state
    reachable. *)
Lemma reachable_dispatch_all (kt : KnownTokens) (s : SteadyState) (acts : list RootAction) :
  reachable kt s -> Forall (dispatchable kt) acts -> reachable kt (dispatch_all s acts).
Proof.
  unfold dispatch_all. revert s. induction acts as [|a acts IH]; intros s Hr Ha; simpl; [done|].
  inversion Ha; subst. apply IH; [|done].
  eapply rtc_r; [exact Hr|]. exists a. split; [done|]. apply dispatch_reduce.
Qed.

End StoreFacts.

#[export] Hint Resolve reachable_dispatch_all token_inv_rtc : ui.

(** ** Concrete runs *)

Section Witnesses.
#[local] Existing Instance demo_constants.

Lemma initialSteadyState_first_token_witness :
  initialSteadyState demo_steady_registry =
  {| currentToken := Some (tokenOfSteadyData demo_dai); addresses := None |}.
Proof.
  rewrite (initialSteadyState_first_token demo_data); [reflexivity|].
  vm_compute. reflexivity.
Defined.

(** Select [usdt], then record an empty address list. *)
Lemma reachable_token_inv_witness :
  token_inv demo_steady_registry
    {| currentToken := Some (tokenOfSteadyData demo_usdt); addresses := Some [] |}.
Proof.
  apply reachable_token_inv. unfold reachable.
  eapply rtc_l; [exists (setCurrentToken (tokenOfSteadyData demo_usdt)); split;
                 [simpl; auto|reflexivity]|].
  eapply rtc_l; [exists (setAddresses []); split; [exact I|reflexivity]|].
  apply rtc_refl.
Defined.

End Witnesses.
