(* ===== verification/Dropdown.v ===== *)
(** * The dropdown component

    Models [src/src/components/common/dropdown.tsx].  The component's
    state ([isOpen]), its instance field [_wrapperRef] and the document
    [mousedown] listener it registers are the fields of [Dropdown]; each
    handler is a function on that record, and [render] gives the body's
    presence and style.  Browser events are the type [event]; the inductive
    [dd_step] is the transition relation, whose side conditions say when an
    event can happen at all (the body can be clicked only while it is
    rendered, the header only while mounted).

    [shouldCloseDropdownOnClickOutside] defaults to [true], and the code
    reads it both for a click outside and for a click on the body.

    The specification's dropdown is the two-state machine [spec_step]
    (closed, open; a header click opens, selections and permitted outside
    or body clicks close, other events stutter); [abs] maps a state to it
    and [dropdown_refines_spec] lifts every labelled run [dd_run] of the
    component to a run of the machine. *)

From Stdlib Require Import String List.
From stdpp Require Import base list relations.
From S2P Require Import Prelude.

Local Open Scope string_scope.

Inductive DropdownPositions := Center | Left | Right.

#[export] Instance DropdownPositions_eq_dec : EqDecision DropdownPositions.
Proof. solve_decision. Defined.

(** The props the component reads ([body] and [header] are opaque nodes). *)
Record Props := {
  horizontalPosition : option DropdownPositions;
  steadyCustomTop : option bool;
  steadyCustomWidth : option bool;
  steadyCustomZIndex : option bool;
  shouldCloseDropdownOnClickOutside : option bool;
}.

Definition default_props : Props := {|
  horizontalPosition := None; steadyCustomTop := None; steadyCustomWidth := None;
  steadyCustomZIndex := None; shouldCloseDropdownOnClickOutside := None |}.

Record Dropdown := {
  isOpen : bool;
  wrapperRef : bool;   (** [_wrapperRef] holds the mounted node *)
  listening : bool;    (** the [mousedown] listener is on [document] *)
}.

(** [state = { isOpen: false }], before mounting. *)
Definition initial : Dropdown := {| isOpen := false; wrapperRef := false; listening := false |}.

(** [const { shouldCloseDropdownOnClickOutside = true } = this.props] *)
Definition closeFlag (p : Props) : bool := default true (shouldCloseDropdownOnClickOutside p).

Definition closeDropdown (s : Dropdown) : Dropdown :=
  {| isOpen := false; wrapperRef := wrapperRef s; listening := listening s |}.

Definition setWrapperRef (node : bool) (s : Dropdown) : Dropdown :=
  {| isOpen := isOpen s; wrapperRef := node; listening := listening s |}.

Definition componentDidMount (s : Dropdown) : Dropdown :=
  {| isOpen := isOpen s; wrapperRef := wrapperRef s; listening := true |}.

Definition componentWillUnmount (s : Dropdown) : Dropdown :=
  {| isOpen := isOpen s; wrapperRef := wrapperRef s; listening := false |}.

(** [_handleClickOutside(event)]: [inside] is [wrapper.contains(target)]. *)
Definition handleClickOutside (p : Props) (inside : bool) (s : Dropdown) : Dropdown :=
  if wrapperRef s && negb inside then
    if closeFlag p then closeDropdown s else s
  else s.

Definition toggleDropdown (s : Dropdown) : Dropdown :=
  {| isOpen := negb (isOpen s); wrapperRef := wrapperRef s; listening := listening s |}.

Definition closeDropdownBody (p : Props) (s : Dropdown) : Dropdown :=
  if closeFlag p then closeDropdown s else s.

(** The CSS of [DropdownWrapperBody], in the order of its template. *)
Definition bodyStyle (p : Props) : list string :=
  let pos := default Left (horizontalPosition p) in
  [if default false (steadyCustomTop p) then "top: calc(100% - 25px);" else "top: calc(100% + 15px);";
   if default false (steadyCustomWidth p) then "width: 100%;" else "";
   if default false (steadyCustomZIndex p) then "z-index: 13;" else "";
   if decide (pos = Left) then "left: 0;" else "";
   if decide (pos = Center) then "left: 50%; transform: translateX(-50%);" else "";
   if decide (pos = Right) then "right: 0;" else ""].

(** [render]: the body, with its style, is rendered only while open. *)
Definition render (p : Props) (s : Dropdown) : option (list string) :=
  if isOpen s then Some (bodyStyle p) else None.

(** What happens in the page. *)
Inductive event :=
| Mount                       (** commit: ref set, then [componentDidMount] *)
| Unmount                     (** [componentWillUnmount], then ref cleared *)
| HeaderClick                 (** [onClick] of [DropdownWrapperHeader] *)
| BodyClick                   (** [onClick] of [DropdownWrapperBody] *)
| DocumentMouseDown (inside : bool)  (** the [document] listener *)
| CloseDropdown.              (** a parent calls [closeDropdown()] *)

Definition handle (p : Props) (e : event) (s : Dropdown) : Dropdown :=
  match e with
  | Mount => componentDidMount (setWrapperRef true s)
  | Unmount => setWrapperRef false (componentWillUnmount s)
  | HeaderClick => toggleDropdown s
  | BodyClick => closeDropdownBody p s
  | DocumentMouseDown inside => if listening s then handleClickOutside p inside s else s
  | CloseDropdown => closeDropdown s
  end.

(** The transitions that can happen: clicks need the element on the page. *)
Inductive dd_step (p : Props) : Dropdown -> event -> Dropdown -> Prop :=
| step_mount s : wrapperRef s = false -> dd_step p s Mount (handle p Mount s)
| step_unmount s : wrapperRef s = true -> dd_step p s Unmount (handle p Unmount s)
| step_header s : wrapperRef s = true -> dd_step p s HeaderClick (handle p HeaderClick s)
| step_body s : wrapperRef s = true -> isOpen s = true -> dd_step p s BodyClick (handle p BodyClick s)
| step_mousedown s inside : dd_step p s (DocumentMouseDown inside) (handle p (DocumentMouseDown inside) s)
| step_close s : dd_step p s CloseDropdown (handle p CloseDropdown s).

Definition dd_reach (p : Props) (s s' : Dropdown) : Prop :=
  rtc (fun a b => exists e, dd_step p a e b) s s'.

(** The listener is registered exactly while the node is mounted. *)
Definition dd_inv (s : Dropdown) : Prop := listening s = wrapperRef s.

(** An open, mounted dropdown. *)
Definition open_mounted : Dropdown := {| isOpen := true; wrapperRef := true; listening := true |}.

(** A run: the events in order, each a transition of [dd_step]. *)
Inductive dd_run (p : Props) : Dropdown -> list event -> Dropdown -> Prop :=
| dd_run_nil s : dd_run p s [] s
| dd_run_cons s e s' es s'' :
    dd_step p s e s' -> dd_run p s' es s'' -> dd_run p s (e :: es) s''.

(** ** The specification's machine

    Section 4.4 of the spec: two states; [closed -> open] on a header
    click; [open -> closed] on selecting a row (the parent's call of
    [closeDropdown]), on a click outside if enabled, on a click in the
    body if enabled; no other states.  Events that change nothing are
    stuttering steps.  A header click on an open dropdown, which the spec
    does not list, is [SHeaderClose]. *)
Inductive AState := AClosed | AOpen.

Inductive spec_step (outsideEnabled bodyEnabled : bool) : AState -> event -> AState -> Prop :=
| SHeaderOpen : spec_step outsideEnabled bodyEnabled AClosed HeaderClick AOpen
| SHeaderClose : spec_step outsideEnabled bodyEnabled AOpen HeaderClick AClosed
| SSelect : spec_step outsideEnabled bodyEnabled AOpen CloseDropdown AClosed
| SOutside : outsideEnabled = true ->
    spec_step outsideEnabled bodyEnabled AOpen (DocumentMouseDown false) AClosed
| SBody : bodyEnabled = true -> spec_step outsideEnabled bodyEnabled AOpen BodyClick AClosed
| SStutter a e : spec_step outsideEnabled bodyEnabled a e a.

Inductive spec_run (outsideEnabled bodyEnabled : bool) : AState -> list event -> AState -> Prop :=
| spec_run_nil a : spec_run outsideEnabled bodyEnabled a [] a
| spec_run_cons a e a' es a'' :
    spec_step outsideEnabled bodyEnabled a e a' ->
    spec_run outsideEnabled bodyEnabled a' es a'' -> spec_run outsideEnabled bodyEnabled a (e :: es) a''.

(** What the spec sees of the component's state. *)
Definition abs (s : Dropdown) : AState := if isOpen s then AOpen else AClosed.

(** ** Theorems *)

(** C7: On a mounted, open dropdown, a mouse-down outside closes it
    when [shouldCloseDropdownOnClickOutside] is left out or true, and
    leaves it open when it is false; a mouse-down inside never closes it. *)
Theorem click_outside_spec (p : Props) (s : Dropdown) :
  dd_inv s -> wrapperRef s = true -> isOpen s = true ->
  isOpen (handle p (DocumentMouseDown false) s) =
    bool_decide (shouldCloseDropdownOnClickOutside p = Some false) /\
  isOpen (handle p (DocumentMouseDown true) s) = true.
Proof.
  unfold dd_inv. intros Hl Hw Ho. simpl. rewrite Hl, Hw. simpl.
  unfold handleClickOutside, closeFlag. rewrite Hw. simpl.
  destruct (shouldCloseDropdownOnClickOutside p) as [[]|]; simpl; auto.
Qed.

(** Only a header click opens the dropdown. *)
Theorem only_header_opens (p : Props) (s s' : Dropdown) (e : event) :
  dd_step p s e s' -> isOpen s = false -> isOpen s' = true -> e = HeaderClick.
Proof.
  destruct 1; simpl; intros Hc Ho; try done;
    unfold closeDropdownBody, handleClickOutside in *;
    repeat case_match; simpl in *; congruence.
Qed.

(** Two header clicks restore the dropdown. *)
Theorem header_twice (p : Props) (s : Dropdown) :
  handle p HeaderClick (handle p HeaderClick s) = s.
Proof. destruct s as [[] ? ?]; reflexivity. Qed.

(** A click on the body closes the dropdown exactly when
    [shouldCloseDropdownOnClickOutside] is not false: the body-click
    behaviour is governed by the outside-click flag. *)
Theorem body_click_spec (p : Props) (s : Dropdown) :
  isOpen (handle p BodyClick s) =
    isOpen s && bool_decide (shouldCloseDropdownOnClickOutside p = Some false).
Proof.
  simpl. unfold closeDropdownBody, closeFlag.
  destruct (shouldCloseDropdownOnClickOutside p) as [[]|]; simpl; destruct (isOpen s); reflexivity.
Qed.

Lemma dd_inv_step (p : Props) (s s' : Dropdown) (e : event) :
  dd_inv s -> dd_step p s e s' -> dd_inv s'.
Proof.
  unfold dd_inv. intros Hinv Hs. destruct Hs; simpl;
    unfold closeDropdownBody, handleClickOutside, closeDropdown; repeat case_match; simpl; congruence.
Qed.

Lemma dd_inv_reach (p : Props) (s0 s : Dropdown) :
  dd_reach p s0 s -> dd_inv s0 -> dd_inv s.
Proof.
  induction 1 as [|a b c [e Hab] _ IH]; [done|].
  intros Ha. apply IH. by eapply dd_inv_step.
Qed.

(** C37: In every state reachable from the initial one, the document
    listener is registered exactly while the node is mounted; so once the
    dropdown is unmounted, a mouse-down anywhere leaves it unchanged. *)
Theorem dd_reach_inv (p : Props) (s : Dropdown) :
  dd_reach p initial s ->
  dd_inv s /\ (wrapperRef s = false -> forall inside, handle p (DocumentMouseDown inside) s = s).
Proof.
  intros Hr. assert (Hinv : dd_inv s) by (eapply dd_inv_reach; [exact Hr|done]).
  split; [done|]. intros Hw inside. simpl. unfold dd_inv in Hinv.
  by rewrite Hinv, Hw.
Qed.

(** ** Concrete runs *)

Lemma click_outside_spec_witness :
  isOpen (handle default_props (DocumentMouseDown false) open_mounted) =
    bool_decide (shouldCloseDropdownOnClickOutside default_props = Some false) /\
  isOpen (handle default_props (DocumentMouseDown true) open_mounted) = true.
Proof. apply (click_outside_spec default_props open_mounted); reflexivity. Defined.

Lemma only_header_opens_witness : HeaderClick = HeaderClick.
Proof.
  apply (only_header_opens default_props (closeDropdown open_mounted)
           (handle default_props HeaderClick (closeDropdown open_mounted))).
  - apply step_header. reflexivity.
  - reflexivity.
  - reflexivity.
Defined.

(** Mount, open, unmount. *)
Lemma dd_reach_inv_witness :
  dd_inv {| isOpen := true; wrapperRef := false; listening := false |} /\
  (wrapperRef {| isOpen := true; wrapperRef := false; listening := false |} = false ->
   forall inside, handle default_props (DocumentMouseDown inside)
                    {| isOpen := true; wrapperRef := false; listening := false |} =
                  {| isOpen := true; wrapperRef := false; listening := false |}).
Proof.
  apply dd_reach_inv. unfold dd_reach.
  eapply rtc_l; [exists Mount; apply step_mount; reflexivity|].
  eapply rtc_l; [exists HeaderClick; apply step_header; reflexivity|].
  eapply rtc_l; [exists Unmount; apply step_unmount; reflexivity|].
  apply rtc_refl.
Defined.

(** ** The component refines the specification's machine *)

(** C14: Every run of the dropdown is a run of the specification's
    two-state machine, under the abstraction [isOpen], with both the
    outside-click and the body-click option read from
    [shouldCloseDropdownOnClickOutside]; from the initial state the
    machine starts closed. *)
Theorem dropdown_refines_spec (p : Props) (s : Dropdown) (es : list event) (s' : Dropdown) :
  dd_run p s es s' -> spec_run (closeFlag p) (closeFlag p) (abs s) es (abs s') /\
  abs initial = AClosed.
Proof.
  intros Hr. split; [|done].
  induction Hr as [s|s e s1 es s2 Hs _ IH]; [constructor|].
  econstructor; [|exact IH]. unfold abs.
  destruct Hs as [s|s|s|s Hw Ho|s []|s]; simpl;
    unfold closeDropdownBody, handleClickOutside;
    repeat case_match; simpl in *; rewrite ?andb_false_r in *; subst; try congruence;
    first [ apply SStutter | apply SHeaderOpen | apply SHeaderClose | apply SSelect
          | by apply SOutside | by apply SBody ].
Qed.

(** Mount, open, click outside. *)
Lemma dropdown_refines_spec_witness :
  spec_run (closeFlag default_props) (closeFlag default_props) (abs initial)
    [Mount; HeaderClick; DocumentMouseDown false]
    (abs (handle default_props (DocumentMouseDown false)
            (handle default_props HeaderClick (handle default_props Mount initial)))) /\
  abs initial = AClosed.
Proof.
  apply dropdown_refines_spec.
  econstructor; [apply step_mount; reflexivity|].
  econstructor; [apply step_header; reflexivity|].
  econstructor; [apply step_mousedown|]. constructor.
Defined.
