(* ===== verification/TokenDropdown.v ===== *)
(** * The token dropdown

    Models [src/src/components/steady/common/token_dropdown.tsx]: the
    component keeps the steady registry's list in its state, reads the
    selected token from the store ([mapStateToProps]), renders a header and
    one row per token inside a [Dropdown], and on a row click dispatches
    [changeCurrentToken] and closes the dropdown through its ref.

    A [Page] holds what the handlers touch: the store's steady slice, the
    child dropdown and the component's token list.  A browser click runs
    several handlers in a fixed order: the document [mousedown] listener
    first, then the [onClick] handlers from the target up (the row, then
    the dropdown body).  [clickRow] is that sequence; [page_handle] gives
    the three kinds of click; [page_reach] is reachability under them.

    The parent's props reach [Dropdown] through [...restProps]; only
    [shouldCloseDropdownOnClickOutside] is read there, so the panel's
    [shouldCloseDropdownBodyOnClick={false}] has no effect.  The row style
    [TRStyled] is [trStyled]. *)

From Stdlib Require Import String List.
From stdpp Require Import base list strings relations.
From S2P Require Import Prelude TokenData KnownTokens SteadyStore Dropdown.

Local Open Scope string_scope.

Record Page := {
  store : SteadyState;
  dd : Dropdown;
  tokens : list Token;
}.

(** The props [TokenDropdown] gives [MarketsDropdownWrapper]: the three
    steady styles and, from the parent, the outside-click flag. *)
Definition tokenDropdownProps (parentCloseFlag : option bool) : Props := {|
  horizontalPosition := None;
  steadyCustomTop := Some true;
  steadyCustomWidth := Some true;
  steadyCustomZIndex := Some true;
  shouldCloseDropdownOnClickOutside := parentCloseFlag;
|}.

(** The header text: the selected symbol in upper case, or nothing. *)
Definition headerText (pg : Page) : string :=
  match currentToken (store pg) with
  | Some t => toUpperCase (symbol t)
  | None => ""
  end.

Record Row := {
  active : bool;
  label : string;
  key : nat;
}.

(** [_getTokens]: [isActive = currentToken === token]. *)
Definition getTokensRows (pg : Page) : list Row :=
  imap (fun i t => {| active := bool_decide (currentToken (store pg) = Some t);
                      label := toUpperCase (symbol t); key := i |}) (tokens pg).

(** The style of a row, [TRStyled]: the active row has the active
    background and the default cursor, the others are transparent and
    clickable; under the pointer every row takes the active background. *)
Record RowStyle := {
  rowBackground : ThemeColor;
  rowCursor : Cursor;
  rowHoverBackground : ThemeColor;
}.

Definition trStyled (active0 : bool) : RowStyle := {|
  rowBackground := if active0 then RowActive else Transparent;
  rowCursor := if active0 then CursorDefault else CursorPointer;
  rowHoverBackground := RowActive;
|}.

#[export] Instance RowStyle_eq_dec : EqDecision RowStyle.
Proof. solve_decision. Defined.

(** [render]: the header, and the rows while the body is rendered. *)
Definition renderTokenDropdown (p : Props) (pg : Page) : string * option (list Row) :=
  (headerText pg, (fun _ => getTokensRows pg) <$> render p (dd pg)).

(** [_setSelectedToken(token)]: dispatch, then close through the ref,
    which is set while the dropdown is mounted. *)
Definition setSelectedToken (pg : Page) (token : Token) : Page * list RootAction :=
  let acts := changeCurrentToken token in
  ({| store := dispatch_all (store pg) acts;
      dd := if wrapperRef (dd pg) then closeDropdown (dd pg) else dd pg;
      tokens := tokens pg |}, acts).

Definition withDropdown (pg : Page) (d : Dropdown) : Page :=
  {| store := store pg; dd := d; tokens := tokens pg |}.

(** A click on row [i]: mouse-down inside, the row's [onClick], then the
    body's [onClick].  The row exists only while the body is rendered. *)
Definition clickRow (p : Props) (i : nat) (pg : Page) : option (Page * list RootAction) :=
  if isOpen (dd pg) && wrapperRef (dd pg) then
    match tokens pg !! i with
    | Some t =>
        let pg1 := withDropdown pg (handle p (DocumentMouseDown true) (dd pg)) in
        let '(pg2, acts) := setSelectedToken pg1 t in
        Some (withDropdown pg2 (handle p BodyClick (dd pg2)), acts)
    | None => None
    end
  else None.

Inductive page_event :=
| RowClick (i : nat)
| HeaderClicked
| OutsideClick.

Definition page_handle (p : Props) (e : page_event) (pg : Page)
  : option (Page * list RootAction) :=
  match e with
  | RowClick i => clickRow p i pg
  | HeaderClicked =>
      if wrapperRef (dd pg) then
        Some (withDropdown pg (handle p HeaderClick (handle p (DocumentMouseDown true) (dd pg))), [])
      else None
  | OutsideClick => Some (withDropdown pg (handle p (DocumentMouseDown false) (dd pg)), [])
  end.

Definition page_step (p : Props) (pg pg' : Page) : Prop :=
  exists e acts, page_handle p e pg = Some (pg', acts).

(** The page once mounted: the initial store, a mounted closed dropdown
    and the registry's list in the component state. *)
Definition initialPage (kt : KnownTokens) : Page := {|
  store := initialSteadyState kt;
  dd := handle default_props Mount initial;
  tokens := getSteadyTokens kt;
|}.

Definition page_reach (p : Props) (kt : KnownTokens) (pg : Page) : Prop :=
  rtc (page_step p) (initialPage kt) pg.

(** The page on [demo_data]'s steady registry, closed and open. *)
Definition demo_page : Page := @initialPage demo_steady_registry.
Definition demo_open_page : Page := withDropdown demo_page (toggleDropdown (dd demo_page)).

(** ** Theorems *)

(** C4: Clicking the row of a token on an open dropdown dispatches
    exactly one action, the selection of that token; the store then holds
    that token and the dropdown is closed, whatever the outside-click flag. *)
Theorem clickRow_spec (p : Props) (i : nat) (pg : Page) (t : Token) :
  isOpen (dd pg) = true -> wrapperRef (dd pg) = true -> tokens pg !! i = Some t ->
  exists pg',
    clickRow p i pg = Some (pg', [setCurrentToken t]) /\
    currentToken (store pg') = Some t /\ addresses (store pg') = addresses (store pg) /\
    isOpen (dd pg') = false /\ tokens pg' = tokens pg.
Proof.
  intros Ho Hw Ht. unfold clickRow. rewrite Ho, Hw, Ht. simpl.
  unfold handleClickOutside. rewrite Hw. simpl.
  eexists. split; [reflexivity|]. simpl.
  destruct (listening (dd pg)); simpl; rewrite ?Hw; simpl;
    unfold closeDropdownBody; destruct (closeFlag p); simpl; auto.
Qed.

Lemma page_step_store (p : Props) (kt : KnownTokens) (pg pg' : Page) :
  tokens pg = getSteadyTokens kt -> page_step p pg pg' ->
  tokens pg' = getSteadyTokens kt /\
  exists acts, Forall (dispatchable kt) acts /\ store pg' = dispatch_all (store pg) acts.
Proof.
  intros Htk (e & acts & He). destruct e; simpl in He.
  - unfold clickRow in He. destruct (isOpen _ && wrapperRef _); [|discriminate].
    destruct (tokens pg !! i) as [t|] eqn:Ht; [|discriminate]. simpl in He. inv_result. simpl.
    split; [done|]. exists [setCurrentToken t]. split; [|done].
    repeat constructor. simpl. rewrite <- Htk. apply list_elem_of_In, list_elem_of_lookup. by exists i.
  - destruct (wrapperRef (dd pg)); [|discriminate]. inv_result.
    split; [done|]. by exists [].
  - inv_result. split; [done|]. by exists [].
Qed.

Lemma page_rtc_store (p : Props) (kt : KnownTokens) (pg0 pg : Page) :
  rtc (page_step p) pg0 pg ->
  reachable kt (store pg0) -> tokens pg0 = getSteadyTokens kt ->
  reachable kt (store pg) /\ tokens pg = getSteadyTokens kt.
Proof.
  induction 1 as [|a b c Hab _ IH]; intros Hra Hta; [done|].
  destruct (page_step_store p kt a b Hta Hab) as [Htb (acts & Hacts & Hb)].
  apply IH; [|done]. rewrite Hb. by apply reachable_dispatch_all.
Qed.

(** C5: Whatever sequence of row, header and outside clicks the user
    makes, the store stays reachable by the actions the application
    dispatches, so the selected token is always a registry token. *)
Theorem page_reach_store (p : Props) (kt : KnownTokens) (pg : Page) :
  page_reach p kt pg -> reachable kt (store pg) /\ token_inv kt (store pg).
Proof.
  intros Hr. destruct (page_rtc_store p kt _ _ Hr) as [Hs _]; [apply rtc_refl|done|].
  split; [done|]. eapply token_inv_rtc; [exact Hs|apply token_inv_init].
Qed.

(** The rendered rows are labelled with the tokens' symbols in
    upper case, in order, and when the component's tokens are distinct and
    the selected token is one of them, exactly one row is drawn active:
    the active background and the default cursor, where the others are
    transparent and clickable. *)
Theorem rows_spec (pg : Page) (t : Token) :
  NoDup (tokens pg) -> currentToken (store pg) = Some t -> In t (tokens pg) ->
  map label (getTokensRows pg) = map (fun x => toUpperCase (symbol x)) (tokens pg) /\
  length (List.filter (fun r => bool_decide (trStyled (active r) =
            {| rowBackground := RowActive; rowCursor := CursorDefault;
               rowHoverBackground := RowActive |})) (getTokensRows pg)) = 1.
Proof.
  intros Hnd Hcur Hin.
  rewrite (List.filter_ext _ active); [|intros [[] ? ?]; reflexivity].
  unfold getTokensRows. split.
  - by apply map_imap_indep.
  - rewrite (filter_imap_indep _ _ (fun x => bool_decide (x = t))).
    + by apply filter_eq_NoDup.
    + intros i x. simpl. rewrite Hcur.
      do 2 case_bool_decide; congruence.
Qed.

(** C23: Every token of the steady registry can be selected: from
    the mounted page, a header click and a click on its row reach a state
    where the store holds that token and the dropdown is closed, whatever
    the outside-click flag. *)
Theorem every_token_selectable (p : Props) (kt : KnownTokens) (i : nat) (t : Token) :
  getSteadyTokens kt !! i = Some t ->
  exists pg, page_reach p kt pg /\ currentToken (store pg) = Some t /\ isOpen (dd pg) = false.
Proof.
  intros Ht.
  set (pg1 := withDropdown (initialPage kt)
                (handle p HeaderClick (handle p (DocumentMouseDown true) (dd (initialPage kt))))).
  assert (Hopen : isOpen (dd pg1) && wrapperRef (dd pg1) = true) by reflexivity.
  assert (Hrow : tokens pg1 !! i = Some t) by exact Ht.
  destruct (clickRow p i pg1) as [[pg2 acts]|] eqn:Hc.
  2: { unfold clickRow in Hc. rewrite Hopen, Hrow in Hc. discriminate. }
  exists pg2. split.
  - eapply rtc_l; [exists HeaderClicked, []; reflexivity|].
    eapply rtc_l; [exists (RowClick i), acts; exact Hc|]. apply rtc_refl.
  - unfold clickRow in Hc. rewrite Hopen, Hrow in Hc. simpl in Hc. inv_result. simpl.
    split; [done|]. unfold closeDropdownBody. by case_match.
Qed.

(** ** Concrete runs *)

Section Witnesses.
#[local] Existing Instance demo_constants.

(** Open the dropdown, then click the second row ([USDT]). *)
Lemma clickRow_spec_witness :
  exists pg',
    clickRow (tokenDropdownProps None) 1
      demo_open_page =
      Some (pg', [setCurrentToken (tokenOfSteadyData demo_usdt)]) /\
    currentToken (store pg') = Some (tokenOfSteadyData demo_usdt) /\
    addresses (store pg') = addresses (store demo_open_page) /\
    isOpen (dd pg') = false /\ tokens pg' = tokens demo_open_page.
Proof.
  apply (clickRow_spec (tokenDropdownProps None) 1 _ (tokenOfSteadyData demo_usdt));
    vm_compute; reflexivity.
Defined.

Lemma page_reach_store_witness :
  reachable demo_steady_registry
    {| currentToken := Some (tokenOfSteadyData demo_usdt); addresses := None |} /\
  token_inv demo_steady_registry
    {| currentToken := Some (tokenOfSteadyData demo_usdt); addresses := None |}.
Proof.
  apply (page_reach_store (tokenDropdownProps None) demo_steady_registry
           {| store := {| currentToken := Some (tokenOfSteadyData demo_usdt); addresses := None |};
              dd := closeDropdown (dd demo_page); tokens := tokens demo_page |}).
  eapply rtc_l; [exists HeaderClicked, []; reflexivity|].
  eapply rtc_l; [exists (RowClick 1), [setCurrentToken (tokenOfSteadyData demo_usdt)];
                 vm_compute; reflexivity|].
  apply rtc_refl.
Defined.

Lemma rows_spec_witness :
  map label (getTokensRows demo_page) = ["DAI"; "USDT"] /\
  length (List.filter active (getTokensRows demo_page)) = 1.
Proof.
  apply (rows_spec demo_page (tokenOfSteadyData demo_dai)).
  - apply (bool_decide_unpack _). vm_compute. exact I.
  - reflexivity.
  - simpl. left. reflexivity.
Defined.

End Witnesses.

Lemma every_token_selectable_witness :
  exists pg, page_reach (tokenDropdownProps (Some false)) demo_steady_registry pg /\
    currentToken (store pg) = Some (@tokenOfSteadyData demo_constants demo_usdt) /\ isOpen (dd pg) = false.
Proof. apply (every_token_selectable _ _ 1). reflexivity. Defined.
