(* ===== verification/DepositWithdraw.v ===== *)
(** * The deposit/withdraw panel

    Models [src/src/components/steady/exchange/deposit_withdraw.tsx].  The
    component's local [State] is the record [Panel.State], its connected
    props ([mapStateToProps]) the record [StateProps].  [render] returns a
    view record (which elements are shown, with which text and which
    handlers' arguments) or the exception it throws; [submit] returns the
    list of wallet calls it makes, in order.

    Three collaborators are interfaces: the address validator
    [WAValidator.validate] ([AddressValidator]), the display string of a
    symbol [tokenSymbolToDisplayString] of [util/tokens.ts] and the
    constants of [common/constants.ts] and [common/erc777Abi.ts]
    ([PanelConstants]); none of them is in the snapshot.  The trading
    registry [getKnownTokens()] that [render] consults is an argument: the
    registry or the exception that call throws.  The styled [TabButton],
    whose colours and cursor depend on its props, is [tabButtonStyle];
    the colour of [Label] is [labelColor]. *)

From Stdlib Require Import String ZArith List.
From stdpp Require Import base list strings.
From S2P Require Import Prelude TokenData KnownTokens SteadyStore.

Open Scope ui_scope.
Local Open Scope string_scope.

Inductive SteadySide := Deposit | Withdraw.

#[export] Instance SteadySide_eq_dec : EqDecision SteadySide.
Proof. solve_decision. Defined.

(** [Web3State] of [util/types.ts]. *)
Inductive Web3State := W3Done | W3Error | W3Loading | W3Locked | W3NotInstalled.

#[export] Instance Web3State_eq_dec : EqDecision Web3State.
Proof. solve_decision. Defined.

Inductive ButtonVariant := VariantError | VariantDeposit | VariantWithdraw.
Inductive ButtonIcons := IconWarning.

Module Panel.
Record ErrorMsgs := {
  btnMsg : option string;
  cardMsg : option string;
}.

(** [interface State]: amounts are [BigNumber]s in the token's base
    units, [null] when absent. *)
Record State := {
  withdrawAmount : option Z;
  price : option Z;
  address : option string;
  tab : SteadySide;
  error : ErrorMsgs;
}.
End Panel.
Import Panel (ErrorMsgs, State).

Record StateProps := {
  web3State : Web3State;
  props_currentToken : option Token;
  props_addresses : option (list Address);
}.

(** [WAValidator.validate(address, currency)] *)
Class AddressValidator := {
  validate : string -> string -> bool;
}.

Class PanelConstants := {
  ERC_777_ADDRESS : string;
  WITHDRAW_ADDRESS : string;
  QR_CODE_SIZE : Z;
  (** [tokenSymbolToDisplayString] of [util/tokens.ts] *)
  tokenSymbolToDisplayString : string -> string;
}.

(** The calls the panel makes on the injected [web3] object. *)
Inductive Effect :=
| PersonalSign (message account : string)
  (** [web3.personal.sign(message, account, callback)] *)
| ContractSend (contract to_ : string) (amount : Z) (data : string).
  (** [web3.eth.contract(ERC_777_ABI).at(contract).send(to, amount.toJSON(), data, cb)] *)

#[export] Instance Effect_eq_dec : EqDecision Effect.
Proof. solve_decision. Defined.

(** The input fields of the withdraw tab. *)
Record InputView := {
  input_decimals : Z;
  input_amount : option Z;
  input_symbol : string;
  input_address : option string;
}.

Record ButtonView := {
  disabled : bool;
  icon : option ButtonIcons;
  variant : ButtonVariant;
  text : string;
  copyText : option string;   (** wrapped in [CopyToClipboard] *)
}.

Record View := {
  depositSelected : bool;
  withdrawSelected : bool;
  input : option InputView;
  qr : option (option (string * Z));  (** [AddressQRContent], with its QR code or empty *)
  button : ButtonView;
  errorCard : option string;
}.

(** The style of a [TabButton]: its colours, its cursor, and its left and
    right borders ([None] where the rule is absent or [none]). *)
Record TabStyle := {
  tabBackground : ThemeColor;
  tabBorderBottom : ThemeColor;
  tabBorderRight : option ThemeColor;
  tabBorderLeft : option ThemeColor;
  tabColor : ThemeColor;
  tabCursor : Cursor;
}.

(** [TabButton]: the selected tab is transparent, in its side's colour,
    with the default cursor; the other is greyed and clickable.  The rules
    under [&:last-child] replace the right border by a left one. *)
Definition tabButtonStyle (isSelected : bool) (side : SteadySide) (lastChild : bool) : TabStyle := {|
  tabBackground := if isSelected then Transparent else InactiveTabBackgroundColor;
  tabBorderBottom := if isSelected then Transparent else CardBorderColor;
  tabBorderRight :=
    if lastChild then None else Some (if isSelected then CardBorderColor else Transparent);
  tabBorderLeft :=
    if lastChild then Some (if isSelected then CardBorderColor else Transparent) else None;
  tabColor :=
    if isSelected then (if decide (side = Deposit) then ThemeGreen else ThemeRed) else TextLight;
  tabCursor := if isSelected then CursorDefault else CursorPointer;
|}.

(** The two [TabButton]s of a rendered panel, in document order. *)
Definition tabStyles (v : View) : TabStyle * TabStyle :=
  (tabButtonStyle (depositSelected v) Deposit false,
   tabButtonStyle (withdrawSelected v) Withdraw true).

Definition tabOf (v : View) (side : SteadySide) : TabStyle :=
  match side with Deposit => (tabStyles v).1 | Withdraw => (tabStyles v).2 end.

(** A CSS colour: a literal, or an entry of the theme. *)
Inductive CssColor := CssLiteral (c : string) | CssTheme (c : ThemeColor).

(** [Label]: [props.color || props.theme.componentsTheme.textColorCommon];
    the panel's labels pass no colour. *)
Definition labelColor (color : option string) : CssColor :=
  match color with
  | Some c => if str_truthy c then CssLiteral c else CssTheme TextColorCommon
  | None => CssTheme TextColorCommon
  end.

(** The methods of the class [DepositWithdraw]. *)
Module DepositWithdraw.
Section Panel.
Context `{PanelConstants} `{AddressValidator}.

Definition initialState : State := {|
  Panel.withdrawAmount := None; Panel.price := None; Panel.address := None;
  Panel.tab := Deposit; Panel.error := {| Panel.btnMsg := None; Panel.cardMsg := None |} |}.

(** [addresses.forEach(...)]: the last entry whose coin code equals the
    token's symbol up to case wins; [''] when none does. *)
Definition currentTokenAddress (currentToken : Token) (addresses : option (list Address)) : string :=
  match addresses with
  | Some l =>
      if Nat.ltb 0 (length l) then
        fold_left (fun acc element =>
                     if String.eqb (toUpperCase (symbol currentToken))
                                   (toUpperCase (Addr.coinCode element))
                     then Addr.address element else acc) l ""
      else ""
  | None => ""
  end.

Definition opt_str_truthy (o : option string) : bool :=
  match o with Some s => str_truthy s | None => false end.

Definition btnText (st : State) (currentToken : Token) (cta : string) : string :=
  let btnPrefix := if decide (Panel.tab st = Deposit) then "Get " else "Withdraw " in
  if opt_str_truthy (Panel.btnMsg (Panel.error st)) then "Error"
  else if decide (Panel.tab st = Deposit) then
    if Nat.ltb 0 (String.length cta) then "Copy Address"
    else btnPrefix +:+ tokenSymbolToDisplayString (symbol currentToken) +:+ " Address"
  else btnPrefix +:+ tokenSymbolToDisplayString (symbol currentToken).

Definition getButtonContent (w : Web3State) (err : ErrorMsgs) (text0 : string)
    (tab0 : SteadySide) (cta : string) : ButtonView := {|
  disabled := bool_decide (w <> W3Done);
  icon := if opt_str_truthy (Panel.btnMsg err) then Some IconWarning else None;
  variant := if opt_str_truthy (Panel.btnMsg err) then VariantError
             else if decide (tab0 = Deposit) then VariantDeposit else VariantWithdraw;
  text := text0;
  copyText := if Nat.ltb 0 (String.length cta) && bool_decide (tab0 = Deposit)
              then Some cta else None;
|}.

Definition getInputContent (decimals0 : Z) (withdrawAmount : option Z) (currentToken : Token)
    (address0 : option string) : InputView := {|
  input_decimals := decimals0; input_amount := withdrawAmount;
  input_symbol := symbol currentToken; input_address := address0 |}.

Definition getQrContent (address0 : string) : string * Z := (address0, QR_CODE_SIZE).

(** [BigInputNumberTokenLabel]: the text beside the amount field. *)
Definition BigInputNumberTokenLabel (tokenSymbol : string) : string :=
  tokenSymbolToDisplayString tokenSymbol.

(** [render], given what [getKnownTokens()] returns or throws (the
    trading registry); [null] when no token is selected.  The registry is
    consulted only on the withdraw tab. *)
Definition render (knownTokens : result KnownTokens) (p : StateProps) (st : State)
  : result (option View) :=
  match props_currentToken p with
  | None => Ok None
  | Some ct =>
      let cta := currentTokenAddress ct (props_addresses p) in
      let text0 := btnText st ct cta in
      let err := Panel.error st in
      contents <-
        (if decide (Panel.tab st = Deposit) then
           Ok (None,
               (if Nat.ltb 0 (String.length cta) then Some (getQrContent cta) else None),
               getButtonContent (web3State p) err text0 (Panel.tab st) cta)
         else
           kt <- knownTokens ;;
           tok <- getTokenBySymbol kt (symbol ct) ;;
           Ok (Some (getInputContent (decimals tok) (Panel.withdrawAmount st) ct (Panel.address st)),
               None,
               getButtonContent (web3State p) err text0 (Panel.tab st) "")) ;;
      let '(inputContent, qrContent, buttonContent) := contents in
      Ok (Some {|
        depositSelected := bool_decide (Panel.tab st = Deposit);
        withdrawSelected := bool_decide (Panel.tab st = Withdraw);
        input := inputContent;
        qr := if Nat.ltb 0 (String.length cta) then Some qrContent else None;
        button := buttonContent;
        errorCard := if opt_str_truthy (Panel.cardMsg err) then Panel.cardMsg err else None;
      |})
  end.

Definition changeTab (tab0 : SteadySide) (st : State) : State := {|
  Panel.withdrawAmount := Panel.withdrawAmount st; Panel.price := Panel.price st;
  Panel.address := Panel.address st; Panel.tab := tab0; Panel.error := Panel.error st |}.

Definition updateWithdrawAmount (newValue : Z) (st : State) : State := {|
  Panel.withdrawAmount := Some newValue; Panel.price := Panel.price st;
  Panel.address := Panel.address st; Panel.tab := Panel.tab st; Panel.error := Panel.error st |}.

Definition updateAddress (address0 : string) (st : State) : State := {|
  Panel.withdrawAmount := Panel.withdrawAmount st; Panel.price := Panel.price st;
  Panel.address := Some address0; Panel.tab := Panel.tab st; Panel.error := Panel.error st |}.

(** [_reset]: declared, and called nowhere. *)
Definition reset (st : State) : State := {|
  Panel.withdrawAmount := None; Panel.price := Panel.price st;
  Panel.address := None; Panel.tab := Panel.tab st; Panel.error := Panel.error st |}.

(** [withdraw(amount, address)] *)
Definition withdraw (amount : Z) (address0 : string) : list Effect :=
  [ContractSend ERC_777_ADDRESS WITHDRAW_ADDRESS amount address0].

(** The message and account [submit] signs with, whatever the token. *)
Definition SIGN_MESSAGE : string := "Get BTC Address".
Definition SIGN_ACCOUNT : string := "0xdB25001A52E2F44E87F21dfb7FdA4656B84843a6".

(** [submit]: the wallet calls it makes.  [!withdrawAmount] is false for
    any [BigNumber], zero included; [!address] is true for [null] and
    [''].  The callbacks only log. *)
Definition submit (p : StateProps) (st : State) : list Effect :=
  match props_currentToken p with
  | None => []
  | Some ct =>
      if decide (Panel.tab st = Deposit) then
        let cta := currentTokenAddress ct (props_addresses p) in
        if Nat.leb (String.length cta) 0 then [PersonalSign SIGN_MESSAGE SIGN_ACCOUNT] else []
      else
        match Panel.withdrawAmount st with
        | None => []
        | Some amount =>
            if negb (opt_str_truthy (Panel.address st)) then []
            else
              let address0 := default "" (Panel.address st) in
              if validate address0 (toUpperCase (symbol ct)) then withdraw amount address0
              else []
        end
  end.

End Panel.
End DepositWithdraw.
Import DepositWithdraw.

(** The reference behaviour of the address shown: the last matching
    entry. *)
Definition lastMatchingAddress (ct : Token) (l : list Address) : string :=
  match List.rev (List.filter (fun el => String.eqb (toUpperCase (symbol ct))
                                                    (toUpperCase (Addr.coinCode el))) l) with
  | el :: _ => Addr.address el
  | [] => ""
  end.

(** ** Concrete collaborators, for evaluating the definitions *)

(** A format check in the spirit of [wallet-address-validator]: an ETH-like
    address is [0x] and 40 characters; a BTC address has 26 to 35
    characters and starts with [1] or [3]. *)
Definition demo_validate (address0 currency : string) : bool :=
  if String.eqb currency "BTC" then
    Nat.leb 26 (String.length address0) && Nat.leb (String.length address0) 35 &&
    (String.prefix "1" address0 || String.prefix "3" address0)
  else Nat.eqb (String.length address0) 42 && String.prefix "0x" address0.

Definition demo_validator : AddressValidator := {| validate := demo_validate |}.

Definition demo_panel_constants : PanelConstants := {|
  ERC_777_ADDRESS := "0x0000000000000000000000000000000000000777";
  WITHDRAW_ADDRESS := "0x000000000000000000000000000000000000dEaD";
  QR_CODE_SIZE := 160;
  tokenSymbolToDisplayString := toUpperCase;
|}.

(** A withdrawal of [0] [dai] to an ETH-like address, and a deposit of
    [usdt] with only a BTC address known. *)
Definition demo_dai_token : Token := @tokenOfSteadyData demo_constants demo_dai.
Definition demo_usdt_token : Token := @tokenOfSteadyData demo_constants demo_usdt.

Definition demo_withdraw_state : State := {|
  Panel.withdrawAmount := Some 0%Z; Panel.price := None;
  Panel.address := Some "0x1111111111111111111111111111111111111111";
  Panel.tab := Withdraw; Panel.error := {| Panel.btnMsg := None; Panel.cardMsg := None |} |}.

Definition demo_dai_props : StateProps := {|
  web3State := W3Done; props_currentToken := Some demo_dai_token;
  props_addresses := Some [{| Addr.coinCode := "dai";
                              Addr.address := "0x2222222222222222222222222222222222222222" |}] |}.

Definition demo_usdt_props : StateProps := {|
  web3State := W3Locked; props_currentToken := Some demo_usdt_token;
  props_addresses := Some [{| Addr.coinCode := "BTC";
                              Addr.address := "1BoatSLRHtKNngkdXEeobR76b53LETtpyT" |}] |}.

(** ** Theorems *)

Section PanelFacts.
Context `{PanelConstants} `{AddressValidator}.
Implicit Types (p : StateProps) (st : State).

(** C1: The panel makes a transfer only from the withdraw tab, with
    the amount and address of its state, to the withdrawal address of the
    ERC-777 contract, and only when the address is non-empty and passes
    the validator for the selected token's symbol in upper case. *)
Theorem submit_transfer_guarded p st (c to_ : string) (amt : Z) (a : string) :
  In (ContractSend c to_ amt a) (submit p st) ->
  Panel.tab st = Withdraw /\ Panel.withdrawAmount st = Some amt /\
  Panel.address st = Some a /\ a <> "" /\
  (exists ct, props_currentToken p = Some ct /\ validate a (toUpperCase (symbol ct)) = true) /\
  c = ERC_777_ADDRESS /\ to_ = WITHDRAW_ADDRESS.
Proof.
  unfold submit. destruct (props_currentToken p) as [ct|]; [|done].
  case_decide as Htab.
  - case_match; simpl; intros Hin; [destruct Hin as [Hin|[]]; discriminate|done].
  - destruct (Panel.tab st) eqn:Ht; [done|].
    destruct (Panel.withdrawAmount st) as [amt'|]; [|done].
    destruct (Panel.address st) as [a'|] eqn:Ha; simpl; [|done].
    unfold str_truthy. destruct (String.eqb_spec a' ""); simpl; [done|].
    destruct (validate a' _) eqn:Hv; [|done].
    intros [Heq|[]]. injection Heq as -> -> -> ->. eauto 10.
Qed.

(** C26: With the withdraw tab selected, an amount entered (of any
    value, zero included) and a non-empty address the validator accepts,
    [submit] makes exactly one call: the transfer of that amount to the
    withdrawal address, carrying the destination address. *)
Theorem submit_withdraw_valid p st (ct : Token) (amt : Z) (a : string) :
  props_currentToken p = Some ct -> Panel.tab st = Withdraw ->
  Panel.withdrawAmount st = Some amt -> Panel.address st = Some a -> a <> "" ->
  validate a (toUpperCase (symbol ct)) = true ->
  submit p st = [ContractSend ERC_777_ADDRESS WITHDRAW_ADDRESS amt a].
Proof.
  intros Hct Htab Hamt Ha Hne Hv. unfold submit.
  rewrite Hct, Htab, Hamt, Ha. simpl.
  unfold str_truthy. rewrite (proj2 (String.eqb_neq _ _) Hne). simpl.
  by rewrite Hv.
Qed.

(** C27: On the deposit tab, when no deposit address is known for the
    selected token, [submit] asks the wallet to sign the fixed message
    ["Get BTC Address"] for the fixed account, whichever token is selected;
    when one is known it makes no call. *)
Theorem submit_deposit_spec p st (ct : Token) :
  props_currentToken p = Some ct -> Panel.tab st = Deposit ->
  submit p st =
  if String.eqb (currentTokenAddress ct (props_addresses p)) ""
  then [PersonalSign "Get BTC Address" "0xdB25001A52E2F44E87F21dfb7FdA4656B84843a6"]
  else [].
Proof.
  intros Hct Htab. unfold submit. rewrite Hct, Htab. simpl.
  destruct (currentTokenAddress ct (props_addresses p)); reflexivity.
Qed.

Lemma fold_last_match (ct : Token) (l : list Address) (acc : string) :
  fold_left (fun acc element =>
               if String.eqb (toUpperCase (symbol ct)) (toUpperCase (Addr.coinCode element))
               then Addr.address element else acc) l acc =
  match List.rev (List.filter (fun el => String.eqb (toUpperCase (symbol ct))
                                                   (toUpperCase (Addr.coinCode el))) l) with
  | el :: _ => Addr.address el
  | [] => acc
  end.
Proof.
  induction l as [|x l IH] using rev_ind; [done|].
  rewrite fold_left_app, List.filter_app, rev_app_distr, IH. simpl.
  by destruct (String.eqb _ _).
Qed.

(** C28: The deposit address the panel shows is the address of the
    last entry whose coin code equals the token's symbol up to case, and
    the empty string when there is none. *)
Theorem currentTokenAddress_last (ct : Token) (addrs : option (list Address)) :
  currentTokenAddress ct addrs = match addrs with Some l => lastMatchingAddress ct l | None => "" end.
Proof.
  unfold currentTokenAddress, lastMatchingAddress.
  destruct addrs as [[|x l]|]; [done| |done].
  simpl Nat.ltb. cbv iota beta. apply fold_last_match.
Qed.

(** Switching to the deposit tab and back keeps what was typed:
    the next withdrawal is the one the panel would have made before. *)
Theorem changeTab_roundtrip_submit p st :
  Panel.tab st = Withdraw ->
  submit p (changeTab Withdraw (changeTab Deposit st)) = submit p st /\
  Panel.withdrawAmount (changeTab Withdraw (changeTab Deposit st)) = Panel.withdrawAmount st /\
  Panel.address (changeTab Withdraw (changeTab Deposit st)) = Panel.address st.
Proof.
  intros Ht. destruct st as [amt pr a tb err]. simpl in Ht. subst tb. auto.
Qed.

(** [render] throws only on the withdraw tab with a token selected, and
    then exactly what [getKnownTokens()] or the lookup throws. *)
Lemma render_throws_iff (knownTokens : result KnownTokens) p st (e : exn) :
  render knownTokens p st = Throw e <->
  Panel.tab st = Withdraw /\
  exists ct, props_currentToken p = Some ct /\
    (kt <- knownTokens ;; getTokenBySymbol kt (symbol ct)) = Throw e.
Proof.
  unfold render. destruct (props_currentToken p) as [ct|]; simpl.
  - destruct (Panel.tab st); simpl.
    + split; [discriminate|]. by intros [? _].
    + split.
      * intros Hr. split; [done|]. exists ct. split; [done|].
        destruct knownTokens as [kt|e']; simpl in *; [|congruence].
        destruct (getTokenBySymbol kt (symbol ct)); simpl in *; congruence.
      * intros [_ (ct' & [= <-] & He)].
        destruct knownTokens as [kt|e']; simpl in *; [|congruence].
        destruct (getTokenBySymbol kt (symbol ct)); simpl in *; congruence.
  - split; [discriminate|]. intros (_ & ct' & Hc & _). discriminate.
Qed.

Lemma render_selected (knownTokens : result KnownTokens) p st v :
  render knownTokens p st = Ok (Some v) ->
  depositSelected v = bool_decide (Panel.tab st = Deposit) /\
  withdrawSelected v = bool_decide (Panel.tab st = Withdraw).
Proof.
  unfold render. destruct (props_currentToken p) as [ct|]; [|discriminate].
  case_decide; [|destruct knownTokens as [kt|]; [destruct (getTokenBySymbol kt _)|]];
    simpl; intros; inv_result; subst; auto.
Qed.

(** In every panel [render] draws, the only clickable tab (the
    one with the pointer cursor) is the one not shown, and the shown tab
    is drawn in its side's colour: green for deposit, red for withdraw. *)
Theorem render_tab_styles (knownTokens : result KnownTokens) p st v :
  render knownTokens p st = Ok (Some v) ->
  (forall side, tabCursor (tabOf v side) = CursorPointer <-> side <> Panel.tab st) /\
  tabColor (tabOf v (Panel.tab st)) =
    (if decide (Panel.tab st = Deposit) then ThemeGreen else ThemeRed).
Proof.
  intros [Hd Hw]%render_selected. unfold tabOf, tabStyles. simpl. rewrite Hd, Hw.
  split; [intros []|]; destruct (Panel.tab st); simpl; intuition congruence.
Qed.

(** Rendering the withdraw tab looks the selected token up in
    the trading registry, not the steady one, and throws what that lookup
    throws. *)
Theorem render_withdraw_throws (knownTokens : result KnownTokens) p st (ct : Token) (e : exn) :
  props_currentToken p = Some ct -> Panel.tab st = Withdraw ->
  (kt <- knownTokens ;; getTokenBySymbol kt (symbol ct)) = Throw e ->
  render knownTokens p st = Throw e.
Proof.
  intros Hct Ht He. unfold render. rewrite Hct, Ht. simpl.
  destruct knownTokens as [kt|e']; [|by inv_result]. by rewrite He.
Qed.

(** On the deposit tab with no error message, a known address
    is shown as a QR code with a "Copy Address" button that copies it;
    without one the button reads "Get <symbol> Address" and no QR code is
    shown.  The button is enabled only when the wallet state is [Done]. *)
Theorem render_deposit_view (knownTokens : result KnownTokens) p st (ct : Token) :
  props_currentToken p = Some ct -> Panel.tab st = Deposit ->
  Panel.btnMsg (Panel.error st) = None ->
  exists v, render knownTokens p st = Ok (Some v) /\
    disabled (button v) = bool_decide (web3State p <> W3Done) /\
    let cta := currentTokenAddress ct (props_addresses p) in
    if String.eqb cta "" then
      qr v = None /\ copyText (button v) = None /\
      text (button v) = "Get " +:+ tokenSymbolToDisplayString (symbol ct) +:+ " Address"
    else
      qr v = Some (Some (cta, QR_CODE_SIZE)) /\ copyText (button v) = Some cta /\
      text (button v) = "Copy Address".
Proof.
  intros Hct Ht Hb. unfold render. rewrite Hct, Ht. simpl.
  eexists. split; [reflexivity|]. simpl. split; [done|].
  unfold btnText, opt_str_truthy. rewrite Ht, Hb. simpl.
  destruct (currentTokenAddress ct (props_addresses p)); simpl; auto.
Qed.

End PanelFacts.

(** ** Concrete runs *)

Section Witnesses.
#[local] Existing Instance demo_panel_constants.
#[local] Existing Instance demo_validator.

Lemma submit_transfer_guarded_witness :
  Panel.tab demo_withdraw_state = Withdraw /\ Panel.withdrawAmount demo_withdraw_state = Some 0%Z /\
  Panel.address demo_withdraw_state = Some "0x1111111111111111111111111111111111111111" /\
  "0x1111111111111111111111111111111111111111" <> "" /\
  (exists ct, props_currentToken demo_dai_props = Some ct /\
     validate "0x1111111111111111111111111111111111111111" (toUpperCase (symbol ct)) = true) /\
  ERC_777_ADDRESS = ERC_777_ADDRESS /\ WITHDRAW_ADDRESS = WITHDRAW_ADDRESS.
Proof.
  apply (submit_transfer_guarded demo_dai_props demo_withdraw_state).
  vm_compute. left. reflexivity.
Defined.

(** A zero amount is sent. *)
Lemma submit_withdraw_valid_witness :
  submit demo_dai_props demo_withdraw_state =
  [ContractSend ERC_777_ADDRESS WITHDRAW_ADDRESS 0%Z "0x1111111111111111111111111111111111111111"].
Proof.
  apply (submit_withdraw_valid _ _ demo_dai_token); try reflexivity.
  vm_compute. discriminate.
Defined.

(** The deposit of [usdt] asks to sign "Get BTC Address". *)
Lemma submit_deposit_spec_witness :
  submit demo_usdt_props initialState =
  [PersonalSign "Get BTC Address" "0xdB25001A52E2F44E87F21dfb7FdA4656B84843a6"].
Proof.
  rewrite (submit_deposit_spec demo_usdt_props initialState demo_usdt_token); reflexivity.
Defined.

Lemma changeTab_roundtrip_submit_witness :
  submit demo_dai_props (changeTab Withdraw (changeTab Deposit demo_withdraw_state)) =
  submit demo_dai_props demo_withdraw_state /\
  Panel.withdrawAmount (changeTab Withdraw (changeTab Deposit demo_withdraw_state)) =
  Panel.withdrawAmount demo_withdraw_state /\
  Panel.address (changeTab Withdraw (changeTab Deposit demo_withdraw_state)) =
  Panel.address demo_withdraw_state.
Proof. apply changeTab_roundtrip_submit. reflexivity. Defined.

(** The withdraw tab of [usdt] throws: the trading registry does not find
    ["USDT"]. *)
Lemma render_withdraw_throws_witness :
  render (Ok demo_registry) demo_usdt_props demo_withdraw_state =
  Throw (JsError (symbolNotFound "USDT")).
Proof.
  apply (render_withdraw_throws _ _ _ demo_usdt_token); vm_compute; reflexivity.
Defined.

(** The withdraw tab of [dai]: only the deposit tab is clickable, the
    withdraw tab is red. *)
Lemma render_tab_styles_witness :
  exists v, render (Ok demo_registry) demo_dai_props demo_withdraw_state = Ok (Some v) /\
    (forall side, tabCursor (tabOf v side) = CursorPointer <-> side <> Withdraw) /\
    tabColor (tabOf v Withdraw) = ThemeRed.
Proof.
  eexists. split; [vm_compute; reflexivity|].
  apply (render_tab_styles (Ok demo_registry) demo_dai_props demo_withdraw_state).
  vm_compute. reflexivity.
Defined.

Lemma render_deposit_view_witness :
  exists v, render (Ok demo_registry) demo_dai_props initialState = Ok (Some v) /\
    disabled (button v) = bool_decide (web3State demo_dai_props <> W3Done) /\
    let cta := currentTokenAddress demo_dai_token (props_addresses demo_dai_props) in
    if String.eqb cta "" then
      qr v = None /\ copyText (button v) = None /\
      text (button v) = "Get " +:+ tokenSymbolToDisplayString (symbol demo_dai_token) +:+ " Address"
    else
      qr v = Some (Some (cta, QR_CODE_SIZE)) /\ copyText (button v) = Some cta /\
      text (button v) = "Copy Address".
Proof. apply render_deposit_view; reflexivity. Defined.

Example currentTokenAddress_demo :
  currentTokenAddress demo_dai_token
    (Some [{| Addr.coinCode := "DAI"; Addr.address := "a1" |};
           {| Addr.coinCode := "BTC"; Addr.address := "b1" |};
           {| Addr.coinCode := "Dai"; Addr.address := "a2" |}]) = "a2".
Proof. vm_compute. reflexivity. Qed.

End Witnesses.
