(* ===== verification/Actions.v ===== *)
(** * The asynchronous steady actions

    Models the thunks [signMessage], [fetchDepositAddress] and
    [fetchTokensDepositAddress] of [src/src/store/steady/actions.ts].  The
    browser's [fetch] and the injected wallet are the oracles of the class
    [World]; a thunk's run is an [Outcome]: the external events it causes,
    in order (requests, reads of a response body, signature requests,
    logged errors, dispatched actions), how its promise settles ([value]:
    the resolved JavaScript value or the rejection) and the store after it.

    [getEthAccount] reads the connected account of the root store, the
    field [ethAccount] of [RootState]; [BITPIE_BASE_URL] comes from
    [common/constants.ts] (class [ActionConstants]). *)

From Stdlib Require Import String ZArith List.
From stdpp Require Import base list strings.
From S2P Require Import Prelude TokenData KnownTokens SteadyStore DepositWithdraw.

Open Scope ui_scope.
Local Open Scope string_scope.

Record RootState := {
  steadyState : SteadyState;
  ethAccount : string;
}.

Record Request := {
  method : string;
  url : string;
  headers : list (string * string);
  formBody : option (list (string * string));
}.

Record Response := {
  status : Z;
  bodyText : string;
}.

Class ActionConstants := {
  BITPIE_BASE_URL : string;
}.

(** The outside world: [fetch] settles with a response or rejects;
    [window.web3] is defined or not, and the wallet's [personal.sign]
    returns a promise or throws. *)
Class World := {
  fetch : Request -> result Response;
  injectedWeb3 : bool;
  personalSign : string -> string -> result unit;
}.

Inductive Event :=
| Fetched (r : Request)
| JsonRead (resp : Response)      (** [response.json()] is called *)
| SignRequested (message account : string)
| LoggedError (e : exn)           (** [logger.error(error)] *)
| Dispatched (a : RootAction).

(** The values the thunks' promises resolve to. *)
Inductive JsValue :=
| JsUndefined
| JsString (s : string)
| JsTokens (l : list Token)
| JsJsonMethod (resp : Response). (** the function [response.json], not called *)

Record Outcome := {
  events : list Event;
  value : result JsValue;
  final : RootState;
}.

Definition dispatchRoot (st : RootState) (a : RootAction) : RootState :=
  {| steadyState := dispatch (steadyState st) a; ethAccount := ethAccount st |}.

Section Thunks.
Context `{ActionConstants} `{World}.

(** [signMessage(coinCode)]: the message and account are constants; a
    synchronous throw is caught and a [SignedOrderException] is built but
    not thrown, so the promise resolves to [undefined].  Without
    [window.web3], reading [web3.personal] throws a [TypeError] before any
    signature is requested. *)
Definition signMessage (coinCode : string) (st : RootState) : Outcome :=
  let ev := [SignRequested "Get BTC Address" "0xdB25001A52E2F44E87F21dfb7FdA4656B84843a6"] in
  if injectedWeb3 then
    match personalSign "Get BTC Address" "0xdB25001A52E2F44E87F21dfb7FdA4656B84843a6" with
    | Ok _ => {| events := ev; value := Ok (JsString ""); final := st |}
    | Throw _ => {| events := ev; value := Ok JsUndefined; final := st |}
    end
  else {| events := []; value := Ok JsUndefined; final := st |}.

Definition depositAddressRequest (st : RootState) : Request := {|
  method := "GET";
  url := BITPIE_BASE_URL +:+ "/BTC/recharge/address/" +:+ ethAccount st;
  headers := [("Accept-Encoding", "gzip")];
  formBody := None |}.

(** [fetchDepositAddress()]: the first [then] calls [response.json()] in a
    block body and returns nothing, so [addresses] is [undefined]; a
    rejected [fetch] is logged and rethrown before anything is
    dispatched; otherwise [setAddresses([])] is dispatched. *)
Definition fetchDepositAddress (st : RootState) : Outcome :=
  let req := depositAddressRequest st in
  match fetch req with
  | Ok resp =>
      {| events := [Fetched req; JsonRead resp; Dispatched (setAddresses [])];
         value := Ok JsUndefined;
         final := dispatchRoot st (setAddresses []) |}
  | Throw e =>
      {| events := [Fetched req; LoggedError e]; value := Throw e; final := st |}
  end.

Definition tokensDepositAddressRequest (signString coinCode : string) (st : RootState) : Request := {|
  method := "POST";
  url := BITPIE_BASE_URL +:+ "/" +:+ coinCode +:+ "/recharge/address/" +:+ ethAccount st;
  headers := [];
  formBody := Some [("sign", signString)] |}.

(** [fetchTokensDepositAddress(signString, coinCode)]: returns
    [address.json], the method itself. *)
Definition fetchTokensDepositAddress (signString coinCode : string) (st : RootState) : Outcome :=
  let req := tokensDepositAddressRequest signString coinCode st in
  match fetch req with
  | Ok resp => {| events := [Fetched req]; value := Ok (JsJsonMethod resp); final := st |}
  | Throw e => {| events := [Fetched req; LoggedError e]; value := Throw e; final := st |}
  end.

End Thunks.

(** ** A concrete world, for evaluating the definitions *)

Definition demo_action_constants : ActionConstants :=
  {| BITPIE_BASE_URL := "https://api.example.org/v1" |}.

(** The server answers every request with an address; the wallet returns
    a promise. *)
Definition demo_world : World := {|
  fetch := fun _ => Ok {| status := 200; bodyText := "address=1BoatSLRHtKNngkdXEeobR76b53LETtpyT" |};
  injectedWeb3 := true;
  personalSign := fun _ _ => Ok tt |}.

(** The network is down. *)
Definition offline_world : World := {|
  fetch := fun _ => Throw (JsTypeError "Failed to fetch");
  injectedWeb3 := true;
  personalSign := fun _ _ => Throw (JsError "personal_sign is not supported synchronously") |}.

Definition demo_root : RootState := {|
  steadyState := {| currentToken := None; addresses := None |};
  ethAccount := "0x5409ed021d9299bf6814279a6a1411a7e866a631" |}.

(** ** Theorems *)

Section ThunkFacts.
Context `{ActionConstants} `{World}.
Implicit Types (st : RootState).

(** When the GET succeeds, [fetchDepositAddress] reads nothing
    from the response: it dispatches [setAddresses([])], so the store's
    deposit addresses become the empty list and the selection is kept,
    whatever the server answered, and its promise resolves to [undefined]. *)
Theorem fetchDepositAddress_discards_response st (resp : Response) :
  fetch (depositAddressRequest st) = Ok resp ->
  events (fetchDepositAddress st) =
    [Fetched (depositAddressRequest st); JsonRead resp; Dispatched (setAddresses [])] /\
  value (fetchDepositAddress st) = Ok JsUndefined /\
  final (fetchDepositAddress st) =
    {| steadyState := {| currentToken := currentToken (steadyState st); addresses := Some [] |};
       ethAccount := ethAccount st |}.
Proof. intros Hf. unfold fetchDepositAddress. by rewrite Hf. Qed.

(** When the GET rejects, [fetchDepositAddress] logs the error,
    rejects with it and dispatches nothing. *)
Theorem fetchDepositAddress_rejects st (e : exn) :
  fetch (depositAddressRequest st) = Throw e ->
  events (fetchDepositAddress st) = [Fetched (depositAddressRequest st); LoggedError e] /\
  value (fetchDepositAddress st) = Throw e /\ final (fetchDepositAddress st) = st.
Proof. intros Hf. unfold fetchDepositAddress. by rewrite Hf. Qed.

(** C29: [signMessage] never rejects, whatever the wallet does: it
    resolves to [''] or [undefined], after one signature request for the
    fixed message and account when [window.web3] is defined and none
    otherwise, whichever coin it is asked for, and leaves the store as it
    was. *)
Theorem signMessage_never_rejects (coinCode : string) st :
  events (signMessage coinCode st) =
    (if injectedWeb3 then [SignRequested "Get BTC Address" "0xdB25001A52E2F44E87F21dfb7FdA4656B84843a6"]
     else []) /\
  (value (signMessage coinCode st) = Ok (JsString "") \/
   value (signMessage coinCode st) = Ok JsUndefined) /\
  final (signMessage coinCode st) = st.
Proof. unfold signMessage. destruct injectedWeb3; [destruct (personalSign _ _)|]; auto. Qed.

(** [fetchTokensDepositAddress] makes one POST to
    [BASE/<coin>/recharge/address/<account>] with the form field [sign];
    on success it resolves to the response's [json] method, never to a
    parsed address; on failure it logs and rejects.  The store is left as
    it was. *)
Theorem fetchTokensDepositAddress_spec (signString coinCode : string) st :
  let req := tokensDepositAddressRequest signString coinCode st in
  method req = "POST" /\
  url req = BITPIE_BASE_URL +:+ "/" +:+ coinCode +:+ "/recharge/address/" +:+ ethAccount st /\
  formBody req = Some [("sign", signString)] /\
  final (fetchTokensDepositAddress signString coinCode st) = st /\
  match fetch req with
  | Ok resp => events (fetchTokensDepositAddress signString coinCode st) = [Fetched req] /\
               value (fetchTokensDepositAddress signString coinCode st) = Ok (JsJsonMethod resp)
  | Throw e => events (fetchTokensDepositAddress signString coinCode st) = [Fetched req; LoggedError e] /\
               value (fetchTokensDepositAddress signString coinCode st) = Throw e
  end.
Proof.
  simpl. unfold fetchTokensDepositAddress.
  destruct (fetch (tokensDepositAddressRequest signString coinCode st)); repeat split.
Qed.

End ThunkFacts.

Section FlowFacts.
Context `{ActionConstants} `{World} `{PanelConstants} `{AddressValidator}.

(** C11: After a successful [fetchDepositAddress], the deposit panel
    connected to the store still knows no address for any token, so its
    next submit asks for the same signature again: the deposit flow never
    records an address. *)
Theorem deposit_flow_never_records st (resp : Response) (ct : Token) (w : Web3State) (pst : Panel.State) :
  fetch (depositAddressRequest st) = Ok resp ->
  Panel.tab pst = Deposit ->
  DepositWithdraw.submit {| web3State := w; props_currentToken := Some ct;
            props_addresses := addresses (steadyState (final (fetchDepositAddress st))) |} pst =
  [PersonalSign "Get BTC Address" "0xdB25001A52E2F44E87F21dfb7FdA4656B84843a6"].
Proof.
  intros Hf Ht. unfold fetchDepositAddress. rewrite Hf. simpl.
  unfold DepositWithdraw.submit. simpl. by rewrite Ht.
Qed.

End FlowFacts.

(** ** Concrete runs *)

Section Witnesses.
#[local] Existing Instance demo_action_constants.
#[local] Existing Instance demo_world.
#[local] Existing Instance demo_panel_constants.
#[local] Existing Instance demo_validator.

Lemma fetchDepositAddress_discards_response_witness :
  events (fetchDepositAddress demo_root) =
    [Fetched (depositAddressRequest demo_root);
     JsonRead {| status := 200; bodyText := "address=1BoatSLRHtKNngkdXEeobR76b53LETtpyT" |};
     Dispatched (setAddresses [])] /\
  value (fetchDepositAddress demo_root) = Ok JsUndefined /\
  final (fetchDepositAddress demo_root) =
    {| steadyState := {| currentToken := None; addresses := Some [] |};
       ethAccount := ethAccount demo_root |}.
Proof. apply fetchDepositAddress_discards_response. reflexivity. Defined.

Lemma deposit_flow_never_records_witness :
  DepositWithdraw.submit {| web3State := W3Done; props_currentToken := Some demo_dai_token;
            props_addresses := addresses (steadyState (final (fetchDepositAddress demo_root))) |}
         DepositWithdraw.initialState =
  [PersonalSign "Get BTC Address" "0xdB25001A52E2F44E87F21dfb7FdA4656B84843a6"].
Proof. apply (deposit_flow_never_records _ {| status := 200; bodyText := "address=1BoatSLRHtKNngkdXEeobR76b53LETtpyT" |}); reflexivity. Defined.

End Witnesses.

Section OfflineWitnesses.
#[local] Existing Instance demo_action_constants.
#[local] Existing Instance offline_world.

Lemma fetchDepositAddress_rejects_witness :
  events (fetchDepositAddress demo_root) =
    [Fetched (depositAddressRequest demo_root); LoggedError (JsTypeError "Failed to fetch")] /\
  value (fetchDepositAddress demo_root) = Throw (JsTypeError "Failed to fetch") /\
  final (fetchDepositAddress demo_root) = demo_root.
Proof. apply fetchDepositAddress_rejects. reflexivity. Defined.

(** A wallet that throws still makes [signMessage] resolve. *)
Example signMessage_offline :
  value (signMessage "ETH" demo_root) = Ok JsUndefined.
Proof. reflexivity. Qed.

End OfflineWitnesses.
