(* ===== verification/HexString.v ===== *)
(** * The hex encoder used for signing

    Models [src/src/util/hex_string.ts]: [utf8ToHex] UTF-8-encodes a
    JavaScript string with the [utf8] package, strips the NUL characters at
    both ends (a [replace] of [^(?:\u0000)*] on the string and on its
    reverse), and writes every character code as two lower-case hex digits
    after [0x].

    A JavaScript string is its list of UTF-16 code units ([list Z], each in
    [0, 0xFFFF]).  [utf8.encode] is translated from the [utf8] package
    (v3): [ucs2decode] pairs surrogates into code points,
    [encodeCodePoint] writes 1 to 4 bytes with the package's 32-bit masks
    ([&], [|], [>>] on [Z]; the code points it sees are below [2^21], where
    they agree with JavaScript's 32-bit operators), and
    [checkScalarValue] throws on a lone surrogate.  The byte string is a
    [list Z] of character codes.  [toString(16)] is [toHexString].  The
    encoder is checked against the Unicode standard, written
    independently: UTF-16 with its pair formula ([utf16encode]) and
    UTF-8 by its table ([utf8_bytes]). *)

From Stdlib Require Import String Ascii ZArith List Lia.
From stdpp Require Import base list strings.
From S2P Require Import Prelude.

Open Scope ui_scope.
Local Open Scope Z_scope.

(** ** [Number.prototype.toString(16)] on non-negative integers *)

Definition hexDigit (d : Z) : ascii :=
  if d <? 10 then ascii_of_nat (48 + Z.to_nat d) else ascii_of_nat (87 + Z.to_nat d).

Fixpoint toHexDigits (fuel : nat) (n : Z) (acc : string) : string :=
  match fuel with
  | O => acc
  | S f => if n =? 0 then acc else toHexDigits f (n / 16) (String (hexDigit (n mod 16)) acc)
  end.

(** One digit per four bits: [log2 n + 1] rounds of fuel are enough. *)
Definition toHexString (n : Z) : string :=
  if n =? 0 then "0" else toHexDigits (S (Z.to_nat (Z.log2 n))) n "".

(** ** [utf8.encode] *)

Definition ucs2decode_pair (value extra : Z) : Z :=
  Z.shiftl (Z.land value 0x3FF) 10 + Z.land extra 0x3FF + 0x10000.

(** [ucs2decode]: a high surrogate followed by a low one makes one code
    point; any other code unit is kept as it is. *)
Fixpoint ucs2decode (s : list Z) : list Z :=
  match s with
  | [] => []
  | value :: rest =>
      if (0xD800 <=? value) && (value <=? 0xDBFF) then
        match rest with
        | extra :: rest' =>
            if Z.land extra 0xFC00 =? 0xDC00
            then ucs2decode_pair value extra :: ucs2decode rest'
            else value :: ucs2decode rest
        | [] => [value]
        end
      else value :: ucs2decode rest
  end.

Definition checkScalarValue (codePoint : Z) : result unit :=
  if (0xD800 <=? codePoint) && (codePoint <=? 0xDFFF)
  then Throw (JsError ("Lone surrogate U+" +:+ toUpperCase (toHexString codePoint) +:+
                       " is not a scalar value"))
  else Ok tt.

Definition createByte (codePoint shift : Z) : Z :=
  Z.lor (Z.land (Z.shiftr codePoint shift) 0x3F) 0x80.

Definition encodeCodePoint (codePoint : Z) : result (list Z) :=
  let last := Z.lor (Z.land codePoint 0x3F) 0x80 in
  if Z.land codePoint 0xFFFFFF80 =? 0 then Ok [codePoint]
  else if Z.land codePoint 0xFFFFF800 =? 0 then
    Ok [Z.lor (Z.land (Z.shiftr codePoint 6) 0x1F) 0xC0; last]
  else if Z.land codePoint 0xFFFF0000 =? 0 then
    _ <- checkScalarValue codePoint ;;
    Ok [Z.lor (Z.land (Z.shiftr codePoint 12) 0x0F) 0xE0; createByte codePoint 6; last]
  else if Z.land codePoint 0xFFE00000 =? 0 then
    Ok [Z.lor (Z.land (Z.shiftr codePoint 18) 0x07) 0xF0;
        createByte codePoint 12; createByte codePoint 6; last]
  else Ok [last].

(** The loop of [utf8encode]: the first code point that throws stops it. *)
Fixpoint encodeCodePoints (codePoints : list Z) : result (list Z) :=
  match codePoints with
  | [] => Ok []
  | cp :: rest =>
      bytes <- encodeCodePoint cp ;;
      others <- encodeCodePoints rest ;;
      Ok (bytes ++ others)
  end.

Definition utf8encode (s : list Z) : result (list Z) := encodeCodePoints (ucs2decode s).

(** ** [utf8ToHex] *)

(** [str.replace(/^(?:\u0000)*/, '')] *)
Fixpoint stripLeadingNul (s : list Z) : list Z :=
  match s with
  | 0 :: rest => stripLeadingNul rest
  | _ => s
  end.

(** Strip, reverse, strip, reverse. *)
Definition stripNul (s : list Z) : list Z :=
  rev (stripLeadingNul (rev (stripLeadingNul s))).

(** [n.length < 2 ? '0' + n : n] with [n = code.toString(16)] *)
Definition hexByte (code : Z) : string :=
  let n := toHexString code in
  if (String.length n <? 2)%nat then String "0" n else n.

Definition utf8ToHex (str : list Z) : result string :=
  bytes <- utf8encode str ;;
  let stripped := stripNul bytes in
  Ok ("0x" +:+ fold_left (fun hex code => hex +:+ hexByte code) stripped "").

(** ** The reference decoders *)

Definition hexDigitValue (c : ascii) : option Z :=
  let n := Z.of_N (N_of_ascii c) in
  if (48 <=? n) && (n <=? 57) then Some (n - 48)
  else if (97 <=? n) && (n <=? 102) then Some (n - 87)
  else None.

(** Pairs of lower-case hex digits to bytes. *)
Fixpoint hexToBytes (s : string) : option (list Z) :=
  match s with
  | EmptyString => Some []
  | String a (String b rest) =>
      match hexDigitValue a, hexDigitValue b, hexToBytes rest with
      | Some x, Some y, Some l => Some (x * 16 + y :: l)
      | _, _, _ => None
      end
  | String _ EmptyString => None
  end.

(** A JavaScript string: code units in [0, 0xFFFF]. *)
Definition code_units_ok (s : list Z) : Prop := Forall (fun u => 0 <= u < 0x10000) s.

Definition is_surrogate (cp : Z) : bool := (0xD800 <=? cp) && (cp <=? 0xDFFF).

(** UTF-16 as the Unicode standard defines it (section 3.9, D91): a code
    point below [0x10000] is one code unit; a supplementary one is the
    pair [0xD800 + (cp - 0x10000) / 0x400], [0xDC00 + (cp - 0x10000) mod 0x400]. *)
Definition utf16_units (cp : Z) : list Z :=
  if cp <? 0x10000 then [cp]
  else [0xD800 + (cp - 0x10000) / 0x400; 0xDC00 + (cp - 0x10000) mod 0x400].

Definition utf16encode (cps : list Z) : list Z := flat_map utf16_units cps.

(** UTF-8 as the standard's table 3-6 writes it: the shortest form, the
    lead byte carrying the high bits, each continuation byte six more. *)
Definition utf8_bytes (cp : Z) : list Z :=
  if cp <? 0x80 then [cp]
  else if cp <? 0x800 then [0xC0 + cp / 64; 0x80 + cp mod 64]
  else if cp <? 0x10000 then [0xE0 + cp / 4096; 0x80 + cp / 64 mod 64; 0x80 + cp mod 64]
  else [0xF0 + cp / 262144; 0x80 + cp / 4096 mod 64; 0x80 + cp / 64 mod 64; 0x80 + cp mod 64].

Definition byte_ok (b : Z) : Prop := 0 <= b < 256.

(** A Unicode code point. *)
Definition code_point_ok (cp : Z) : Prop := 0 <= cp < 0x110000.

(** A Unicode scalar value: a code point that is not a surrogate. *)
Definition scalar_value (cp : Z) : Prop := code_point_ok cp /\ is_surrogate cp = false.

(** ** Concrete runs *)

Example toHexString_255 : toHexString 255 = "ff"%string.
Proof. reflexivity. Qed.

Example utf8ToHex_message :
  utf8ToHex (map (fun c => Z.of_N (N_of_ascii c)) (list_ascii_of_string "Get BTC Address")) =
  Ok "0x476574204254432041646472657373"%string.
Proof. vm_compute. reflexivity. Qed.

(** U+00E9, U+20AC and U+1F600 (a surrogate pair), between NULs. *)
Example utf8ToHex_multibyte :
  utf8ToHex [0; 0xE9; 0x20AC; 0xD83D; 0xDE00; 0; 0] = Ok "0xc3a9e282acf09f9880"%string.
Proof. vm_compute. reflexivity. Qed.

Example utf8ToHex_lone_surrogate :
  utf8ToHex [0x41; 0xDC00] = Throw (JsError "Lone surrogate U+DC00 is not a scalar value").
Proof. vm_compute. reflexivity. Qed.

(** ** The 32-bit masks of [encodeCodePoint] are range tests *)

Lemma land_high_mask (cp k : Z) :
  0 <= k <= 32 -> 0 <= cp < 2 ^ 32 -> Z.land cp (2 ^ 32 - 2 ^ k) = cp / 2 ^ k * 2 ^ k.
Proof.
  intros Hk Hcp.
  assert (Hm : 2 ^ 32 - 2 ^ k = Z.ones (32 - k) * 2 ^ k).
  { rewrite Z.ones_equiv, Z.mul_pred_l, <- Z.pow_add_r by lia.
    replace (32 - k + k) with 32 by lia. lia. }
  rewrite Hm. apply Z.bits_inj'. intros n Hn.
  rewrite Z.land_spec, !Z.mul_pow2_bits by lia.
  destruct (Z.lt_ge_cases n k) as [Hnk|Hnk].
  - rewrite !(Z.testbit_neg_r _ (n - k)) by lia. apply andb_false_r.
  - rewrite Z.div_pow2_bits, Z.testbit_ones, Z.sub_add by lia.
    destruct (Z.lt_ge_cases n 32).
    + rewrite (proj2 (Z.leb_le 0 (n - k))), (proj2 (Z.ltb_lt (n - k) (32 - k))) by lia.
      apply andb_true_r.
    + rewrite (proj2 (Z.ltb_ge (n - k) (32 - k))), andb_false_r by lia.
      rewrite andb_false_r. destruct (Z.eq_dec cp 0) as [->|Hc]; [by rewrite Z.bits_0|].
      symmetry. apply Z.bits_above_log2; [lia|].
      assert (Hl : Z.log2 cp < 32) by (apply (Z.log2_lt_pow2 cp 32); lia). lia.
Qed.

Lemma mask_zero (cp k : Z) :
  0 <= k <= 32 -> 0 <= cp < 2 ^ 32 -> (Z.land cp (2 ^ 32 - 2 ^ k) =? 0) = (cp <? 2 ^ k).
Proof.
  intros Hk Hcp. rewrite land_high_mask by done.
  destruct (Z.ltb_spec cp (2 ^ k)).
  - rewrite Z.div_small by lia. reflexivity.
  - apply Z.eqb_neq. intros H0. apply Z.mul_eq_0 in H0 as [H0|H0].
    + apply Z.div_small_iff in H0; lia.
    + pose proof (Z.pow_pos_nonneg 2 k). lia.
Qed.

(** [y | c] adds [c] when the bits of [y] are below those of [c]. *)
Lemma lor_0x80 y : 0 <= y < 64 -> Z.lor y 0x80 = 0x80 + y.
Proof. intros Hy. apply Z.eqb_eq, (Z_range_check (fun y => Z.lor y 0x80 =? 0x80 + y) 64); [vm_compute; reflexivity|lia]. Qed.
Lemma lor_0xC0 y : 0 <= y < 32 -> Z.lor y 0xC0 = 0xC0 + y.
Proof. intros Hy. apply Z.eqb_eq, (Z_range_check (fun y => Z.lor y 0xC0 =? 0xC0 + y) 32); [vm_compute; reflexivity|lia]. Qed.
Lemma lor_0xE0 y : 0 <= y < 16 -> Z.lor y 0xE0 = 0xE0 + y.
Proof. intros Hy. apply Z.eqb_eq, (Z_range_check (fun y => Z.lor y 0xE0 =? 0xE0 + y) 16); [vm_compute; reflexivity|lia]. Qed.
Lemma lor_0xF0 y : 0 <= y < 8 -> Z.lor y 0xF0 = 0xF0 + y.
Proof. intros Hy. apply Z.eqb_eq, (Z_range_check (fun y => Z.lor y 0xF0 =? 0xF0 + y) 8); [vm_compute; reflexivity|lia]. Qed.

Lemma land_low (x : Z) (k : Z) : 0 <= k -> Z.land x (Z.ones k) = x mod 2 ^ k.
Proof. apply Z.land_ones. Qed.

(** [encodeCodePoint] in arithmetic form. *)
Lemma encodeCodePoint_eq (cp : Z) :
  0 <= cp < 2 ^ 21 ->
  encodeCodePoint cp =
  if cp <? 0x80 then Ok [cp]
  else if cp <? 0x800 then Ok [0xC0 + cp / 64; 0x80 + cp mod 64]
  else if cp <? 0x10000 then
    _ <- checkScalarValue cp ;; Ok [0xE0 + cp / 4096; 0x80 + cp / 64 mod 64; 0x80 + cp mod 64]
  else Ok [0xF0 + cp / 262144; 0x80 + cp / 4096 mod 64; 0x80 + cp / 64 mod 64; 0x80 + cp mod 64].
Proof.
  intros Hcp. change (2 ^ 21) with 2097152 in Hcp.
  assert (Hcp' : 0 <= cp < 2 ^ 32) by (change (2 ^ 32) with 4294967296; lia).
  unfold encodeCodePoint, createByte.
  change 0xFFFFFF80 with (2 ^ 32 - 2 ^ 7). change 0xFFFFF800 with (2 ^ 32 - 2 ^ 11).
  change 0xFFFF0000 with (2 ^ 32 - 2 ^ 16). change 0xFFE00000 with (2 ^ 32 - 2 ^ 21).
  rewrite !mask_zero by (assumption || lia).
  change (2 ^ 7) with 128. change (2 ^ 11) with 2048. change (2 ^ 16) with 65536.
  change (2 ^ 21) with 2097152.
  change 0x3F with (Z.ones 6). change 0x1F with (Z.ones 5).
  change 0x0F with (Z.ones 4). change 0x07 with (Z.ones 3).
  rewrite !Z.shiftr_div_pow2 by lia. rewrite !land_low by lia.
  change (2 ^ 6) with 64. change (2 ^ 12) with 4096. change (2 ^ 18) with 262144.
  change (2 ^ 5) with 32. change (2 ^ 4) with 16. change (2 ^ 3) with 8.
  rewrite (lor_0x80 (cp mod 64)) by (apply Z.mod_pos_bound; lia).
  rewrite (lor_0x80 (cp / 64 mod 64)) by (apply Z.mod_pos_bound; lia).
  rewrite (lor_0x80 (cp / 4096 mod 64)) by (apply Z.mod_pos_bound; lia).
  destruct (Z.ltb_spec cp 128); [done|].
  destruct (Z.ltb_spec cp 2048).
  { rewrite Z.mod_small, lor_0xC0 by (split; [apply Z.div_pos|apply Z.div_lt_upper_bound]; lia).
    reflexivity. }
  destruct (Z.ltb_spec cp 65536).
  { rewrite Z.mod_small, lor_0xE0 by (split; [apply Z.div_pos|apply Z.div_lt_upper_bound]; lia).
    destruct (checkScalarValue cp); [|done]. reflexivity. }
  destruct (Z.ltb_spec cp 2097152); [|lia].
  rewrite Z.mod_small, lor_0xF0 by (split; [apply Z.div_pos|apply Z.div_lt_upper_bound]; lia).
  reflexivity.
Qed.

(** ** Every code point is encoded as its UTF-8 bytes *)

Lemma checkScalarValue_ok (cp : Z) : is_surrogate cp = false -> checkScalarValue cp = Ok tt.
Proof. unfold checkScalarValue, is_surrogate. by intros ->. Qed.

(** [encodeCodePoint] writes the standard's bytes once [checkScalarValue]
    has let the code point through. *)
Lemma encodeCodePoint_utf8 (cp : Z) :
  code_point_ok cp -> encodeCodePoint cp = (_ <- checkScalarValue cp ;; Ok (utf8_bytes cp)).
Proof.
  unfold code_point_ok. intros Hcp.
  rewrite encodeCodePoint_eq by (change (2 ^ 21) with 2097152; lia).
  unfold utf8_bytes, checkScalarValue.
  destruct (Z.ltb_spec cp 0x80), (Z.ltb_spec cp 0x800), (Z.ltb_spec cp 0x10000); try lia;
    destruct ((0xD800 <=? cp) && (cp <=? 0xDFFF)) eqn:Hs; simpl; try reflexivity;
    apply andb_true_iff in Hs as [Hs1 Hs2]; apply Z.leb_le in Hs1, Hs2; lia.
Qed.

Lemma utf8_bytes_ok (cp : Z) : code_point_ok cp -> Forall byte_ok (utf8_bytes cp).
Proof.
  unfold code_point_ok, byte_ok, utf8_bytes. intros Hcp.
  destruct (Z.ltb_spec cp 0x80), (Z.ltb_spec cp 0x800), (Z.ltb_spec cp 0x10000);
    repeat constructor; zlia.
Qed.

(** [encodeCodePoint] throws exactly on the surrogates. *)
Lemma encodeCodePoint_ok_iff (cp : Z) :
  code_point_ok cp -> is_ok (encodeCodePoint cp) = negb (is_surrogate cp).
Proof.
  intros Hcp. rewrite encodeCodePoint_utf8 by done.
  unfold checkScalarValue, is_surrogate. by destruct (_ && _).
Qed.

Lemma encodeCodePoints_utf8 (cps : list Z) :
  Forall scalar_value cps -> encodeCodePoints cps = Ok (flat_map utf8_bytes cps).
Proof.
  induction 1 as [|cp cps [Hcp Hs] _ IH]; [done|]. simpl.
  by rewrite encodeCodePoint_utf8, checkScalarValue_ok, IH by done.
Qed.

Lemma encodeCodePoints_bytes (cps bytes : list Z) :
  Forall code_point_ok cps -> encodeCodePoints cps = Ok bytes -> Forall byte_ok bytes.
Proof.
  intros Hok. revert bytes. induction Hok as [|cp cps Hcp _ IH]; intros bytes Henc.
  - simpl in Henc. inv_result. done.
  - simpl in Henc. rewrite encodeCodePoint_utf8 in Henc by done.
    destruct (checkScalarValue cp); [|done]. simpl in Henc.
    destruct (encodeCodePoints cps) as [others|]; inv_result.
    apply Forall_app. split; [by apply utf8_bytes_ok|by apply IH].
Qed.

Lemma encodeCodePoints_ok_iff (cps : list Z) :
  Forall code_point_ok cps ->
  is_ok (encodeCodePoints cps) = true <-> Forall (fun cp => is_surrogate cp = false) cps.
Proof.
  induction 1 as [|cp cps Hcp _ IH]; simpl; [split; auto|].
  rewrite Forall_cons, <- IH. pose proof (encodeCodePoint_ok_iff cp Hcp) as Hc.
  destruct (encodeCodePoint cp), (is_surrogate cp); simpl in *; try discriminate.
  - destruct (encodeCodePoints cps); simpl; intuition congruence.
  - intuition congruence.
Qed.

(** ** [ucs2decode] is UTF-16 decoding *)

Lemma land_3FF (x : Z) : Z.land x 0x3FF = x mod 1024.
Proof. change 0x3FF with (Z.ones 10). by rewrite land_low by lia. Qed.

Lemma land_FC00 (x : Z) : 0 <= x < 0x10000 -> Z.land x 0xFC00 = x / 1024 * 1024.
Proof.
  intros Hx. replace 0xFC00 with (Z.land (2 ^ 32 - 2 ^ 10) (Z.ones 16)) by reflexivity.
  rewrite Z.land_assoc, land_high_mask, land_low by lia.
  change (2 ^ 10) with 1024. change (2 ^ 16) with 65536. zlia.
Qed.

Lemma ucs2decode_pair_ok (value extra : Z) : code_point_ok (ucs2decode_pair value extra).
Proof.
  unfold code_point_ok, ucs2decode_pair. rewrite Z.shiftl_mul_pow2, !land_3FF by lia.
  change (2 ^ 10) with 1024. zlia.
Qed.

Lemma ucs2decode_ok (s : list Z) : code_units_ok s -> Forall code_point_ok (ucs2decode s).
Proof.
  unfold code_units_ok, code_point_ok.
  induction s as [s IH] using (induction_ltof1 _ (@length Z)); unfold ltof in IH.
  destruct s as [|value rest]; [constructor|]. intros Hs. inversion Hs as [|? ? Hv Hrest]; subst.
  simpl. destruct ((0xD800 <=? value) && (value <=? 0xDBFF)).
  2: { constructor; [lia|]. apply IH; [simpl; lia|done]. }
  destruct rest as [|extra rest']; [repeat constructor; lia|].
  destruct (Z.land extra 0xFC00 =? 0xDC00).
  - constructor; [apply ucs2decode_pair_ok|]. apply IH; [simpl; lia|]. by inversion Hrest.
  - constructor; [lia|]. apply IH; [simpl; lia|done].
Qed.

Lemma utf16_units_bmp (u : Z) : u < 0x10000 -> utf16_units u = [u].
Proof. intros Hu. unfold utf16_units. by rewrite (proj2 (Z.ltb_lt _ _)) by lia. Qed.

(** A high surrogate and a low one: [ucs2decode]'s formula is undone by
    the standard's pair. *)
Lemma utf16_units_pair (value extra : Z) :
  0xD800 <= value <= 0xDBFF -> 0 <= extra < 0x10000 -> Z.land extra 0xFC00 = 0xDC00 ->
  utf16_units (ucs2decode_pair value extra) = [value; extra].
Proof.
  intros Hv He Hx. rewrite land_FC00 in Hx by done.
  unfold utf16_units, ucs2decode_pair. rewrite Z.shiftl_mul_pow2, !land_3FF by lia.
  change (2 ^ 10) with 1024. rewrite (proj2 (Z.ltb_ge _ _)) by zlia. f_equal; [|f_equal]; zlia.
Qed.

(** A supplementary scalar value: its pair goes back through [ucs2decode]. *)
Lemma ucs2decode_units (cp : Z) (rest : list Z) :
  scalar_value cp -> ucs2decode (utf16_units cp ++ rest) = cp :: ucs2decode rest.
Proof.
  unfold scalar_value, code_point_ok, is_surrogate. intros [Hcp Hs].
  unfold utf16_units. destruct (Z.ltb_spec cp 0x10000).
  - simpl. destruct (Z.leb_spec 0xD800 cp), (Z.leb_spec cp 0xDBFF); simpl in *; try done.
    rewrite (proj2 (Z.leb_le cp 0xDFFF)) in Hs by lia. done.
  - simpl. rewrite (proj2 (Z.leb_le 0xD800 _)), (proj2 (Z.leb_le _ 0xDBFF)) by zlia. simpl.
    rewrite land_FC00 by zlia. rewrite (proj2 (Z.eqb_eq _ _)) by zlia. f_equal.
    unfold ucs2decode_pair. rewrite Z.shiftl_mul_pow2, !land_3FF by lia.
    change (2 ^ 10) with 1024. zlia.
Qed.

Lemma ucs2decode_utf16encode (cps : list Z) :
  Forall scalar_value cps -> ucs2decode (utf16encode cps) = cps.
Proof.
  induction 1 as [|cp cps Hcp _ IH]; [done|]. unfold utf16encode. simpl.
  rewrite ucs2decode_units by done. f_equal. apply IH.
Qed.

(** Every string is the UTF-16 encoding of what [ucs2decode] reads from
    it: a lone surrogate stays one code unit. *)
Lemma utf16encode_ucs2decode (s : list Z) : code_units_ok s -> utf16encode (ucs2decode s) = s.
Proof.
  unfold code_units_ok.
  induction s as [s IH] using (induction_ltof1 _ (@length Z)); unfold ltof in IH.
  destruct s as [|value rest]; [done|]. intros Hs. inversion Hs as [|? ? Hv Hrest]; subst.
  simpl. destruct ((0xD800 <=? value) && (value <=? 0xDBFF)) eqn:Hh.
  2: { unfold utf16encode in *. simpl. rewrite utf16_units_bmp by lia. simpl. f_equal. apply IH; [simpl; lia|done]. }
  apply andb_true_iff in Hh as [Hh1 Hh2]. apply Z.leb_le in Hh1, Hh2.
  destruct rest as [|extra rest']; [unfold utf16encode; simpl; by rewrite utf16_units_bmp by lia|].
  inversion Hrest as [|? ? He Hrest']; subst.
  destruct (Z.eqb_spec (Z.land extra 0xFC00) 0xDC00) as [Hx|Hx]; unfold utf16encode in *; simpl.
  - rewrite utf16_units_pair by done. simpl. do 2 f_equal. apply IH; [simpl; lia|done].
  - rewrite utf16_units_bmp by lia. simpl. f_equal. apply (IH (extra :: rest')); [simpl; lia|done].
Qed.

(** ** Stripping the NULs at both ends *)

Lemma stripLeadingNul_spec (s : list Z) :
  exists k, s = repeat 0 k ++ stripLeadingNul s /\ head (stripLeadingNul s) <> Some 0.
Proof.
  induction s as [|x s IH]; [by exists 0%nat|].
  destruct (Z.eq_dec x 0) as [->|Hx].
  - destruct IH as [k [Hk Hh]]. exists (S k). simpl. by rewrite <- Hk.
  - exists 0%nat. simpl. destruct x; [done| |]; simpl; split; congruence.
Qed.

Lemma stripLeadingNul_Forall (P : Z -> Prop) (s : list Z) :
  Forall P s -> Forall P (stripLeadingNul s).
Proof.
  destruct (stripLeadingNul_spec s) as [k [Hk _]]. rewrite Hk at 1. rewrite Forall_app. tauto.
Qed.

(** ** Two hex digits per byte *)

Lemma hexByte_digits (c : Z) :
  byte_ok c -> exists x y, hexByte c = String x (String y EmptyString) /\
    hexDigitValue x = Some (c / 16) /\ hexDigitValue y = Some (c mod 16).
Proof.
  intros Hc. pose proof (Z_range_check (fun c =>
    match hexByte c with
    | String x (String y EmptyString) =>
        match hexDigitValue x, hexDigitValue y with
        | Some a, Some b => (a =? c / 16) && (b =? c mod 16)
        | _, _ => false
        end
    | _ => false
    end) 256 ltac:(vm_compute; reflexivity) c Hc) as Hchk.
  cbv beta in Hchk. destruct (hexByte c) as [|x [|y [|]]]; try discriminate.
  destruct (hexDigitValue x) eqn:Hx, (hexDigitValue y) eqn:Hy; try discriminate.
  apply andb_prop in Hchk as [H1 H2]. apply Z.eqb_eq in H1, H2. subst. eauto.
Qed.

Lemma hexToBytes_hexBytes (l : list Z) :
  Forall byte_ok l -> hexToBytes (fold_right (fun x s => hexByte x +:+ s) "" l) = Some l.
Proof.
  induction 1 as [|c l Hc _ IH]; [done|]. simpl.
  destruct (hexByte_digits c Hc) as (x & y & -> & Hx & Hy).
  rewrite !string_app_cons, string_app_nil_l. cbn [hexToBytes].
  rewrite Hx, Hy, IH. do 2 f_equal. unfold byte_ok in Hc. zlia.
Qed.

(** ** Theorems *)

(** [stripNul] removes exactly a run of NULs at each end: the
    input is NULs, the result, NULs, and the result neither starts nor
    ends with a NUL. *)
Theorem stripNul_spec (s : list Z) :
  exists l r, s = repeat 0 l ++ stripNul s ++ repeat 0 r /\
    head (stripNul s) <> Some 0 /\ last (stripNul s) <> Some 0.
Proof.
  destruct (stripLeadingNul_spec s) as [k [Hk Hh]].
  destruct (stripLeadingNul_spec (rev (stripLeadingNul s))) as [j [Hj Hh']].
  unfold stripNul. set (t := stripLeadingNul s) in *. set (u := stripLeadingNul (rev t)) in *.
  assert (Ht : t = rev u ++ repeat 0 j).
  { by rewrite <- (rev_involutive t), Hj, rev_app_distr, rev_repeat. }
  exists k, j. split; [by rewrite Hk, Ht at 1|]. split.
  - rewrite Ht in Hh. by destruct (rev u).
  - by rewrite last_rev.
Qed.

Lemma stripNul_Forall (P : Z -> Prop) (s : list Z) : Forall P s -> Forall P (stripNul s).
Proof.
  intros H. unfold stripNul.
  apply List.Forall_rev, stripLeadingNul_Forall, List.Forall_rev, stripLeadingNul_Forall, H.
Qed.

(** C21: On the UTF-16 encoding of any list of Unicode scalar values,
    [utf8.encode] returns the UTF-8 encoding of those scalar values, in
    order, as the Unicode standard's table writes each of them. *)
Theorem utf8encode_roundtrip (cps : list Z) :
  Forall scalar_value cps -> utf8encode (utf16encode cps) = Ok (flat_map utf8_bytes cps).
Proof.
  intros Hs. unfold utf8encode. rewrite ucs2decode_utf16encode by done.
  by apply encodeCodePoints_utf8.
Qed.

(** C22: [utf8.encode] succeeds on a JavaScript string exactly when the
    string is the UTF-16 encoding of a list of Unicode scalar values: it
    throws exactly on a surrogate code unit that is not in a pair. *)
Theorem utf8encode_ok_iff (s : list Z) :
  code_units_ok s ->
  is_ok (utf8encode s) = true <-> exists cps, Forall scalar_value cps /\ s = utf16encode cps.
Proof.
  intros Hs. pose proof (ucs2decode_ok s Hs) as Hcp. split.
  - intros Hok%encodeCodePoints_ok_iff; [|done]. exists (ucs2decode s).
    rewrite utf16encode_ucs2decode by done. split; [|done].
    unfold scalar_value. by apply Forall_and.
  - intros (cps & Hcps & ->). unfold utf8encode.
    by rewrite ucs2decode_utf16encode, encodeCodePoints_utf8.
Qed.

(** C9: [utf8ToHex] returns [0x] followed by two lower-case hex digits
    per byte of the UTF-8 encoding, NULs stripped at both ends: the digits
    decode back to those bytes. *)
Theorem utf8ToHex_roundtrip (s bytes : list Z) :
  code_units_ok s -> utf8encode s = Ok bytes ->
  exists body, utf8ToHex s = Ok ("0x" +:+ body) /\ hexToBytes body = Some (stripNul bytes).
Proof.
  intros Hs Henc. pose proof (encodeCodePoints_bytes _ bytes (ucs2decode_ok s Hs) Henc) as Hb.
  unfold utf8ToHex. rewrite Henc, fold_left_string_app, string_app_nil_l.
  eexists. split; [reflexivity|]. by apply hexToBytes_hexBytes, stripNul_Forall.
Qed.

(** C30: A leading NUL character does not change the hex string: two
    different messages are signed as the same hex. *)
Theorem utf8ToHex_leading_nul (s : list Z) : utf8ToHex (0 :: s) = utf8ToHex s.
Proof.
  unfold utf8ToHex, utf8encode. simpl.
  destruct (encodeCodePoints (ucs2decode s)); reflexivity.
Qed.

(** ** Concrete runs of the theorems *)

(** U+00E9, U+20AC and U+1F600 between NULs; the last is a surrogate pair. *)
Lemma utf8encode_roundtrip_witness :
  utf8encode (utf16encode [0; 0xE9; 0x20AC; 0x1F600; 0]) =
    Ok (flat_map utf8_bytes [0; 0xE9; 0x20AC; 0x1F600; 0]).
Proof.
  apply utf8encode_roundtrip.
  repeat constructor; unfold code_point_ok; lia.
Defined.

(** The pair D836 DC00 is U+1D800. *)
Lemma utf8encode_ok_iff_witness :
  is_ok (utf8encode [0xD836; 0xDC00]) = true <->
  exists cps, Forall scalar_value cps /\ [0xD836; 0xDC00] = utf16encode cps.
Proof. apply utf8encode_ok_iff. repeat constructor; lia. Defined.

Lemma utf8ToHex_roundtrip_witness :
  exists body, utf8ToHex [0; 0xE9; 0x20AC; 0xD83D; 0xDE00; 0] = Ok ("0x" +:+ body) /\
    hexToBytes body = Some (stripNul [0; 0xC3; 0xA9; 0xE2; 0x82; 0xAC; 0xF0; 0x9F; 0x98; 0x80; 0]).
Proof.
  apply utf8ToHex_roundtrip.
  - repeat constructor; lia.
  - vm_compute. reflexivity.
Defined.
