(* ===== verification/Utf8Int32.v ===== *)
(** * The UTF-8 encoder under JavaScript's 32-bit operators

    [HexString] writes the [utf8] package's [encodeCodePoint] with the
    bitwise operators of [Z].  JavaScript's [&], [|] and [>>] work on
    32-bit two's-complement integers: each operand goes through [ToInt32]
    (or [ToUint32]), the result is read back as a signed 32-bit integer,
    and [String.fromCharCode] keeps the low 16 bits ([ToUint16]).  This
    file defines those conversions, translates [encodeCodePoint] again
    with them, statement for statement ([symbol] is built up as in the
    package and the last byte appended), and shows that [utf8.encode]
    built on it writes every string of Unicode scalar values as the bytes
    of the standard's UTF-8 table ([HexString.utf8_bytes]): the code
    points [ucs2decode] yields are below [0x110000], where the 32-bit
    operators do not wrap.  Above [2^32] the operand wraps. *)

From Stdlib Require Import String ZArith List Lia.
From stdpp Require Import base list.
From S2P Require Import Prelude HexString.

Open Scope ui_scope.
Local Open Scope Z_scope.

Module Int32.

(** [ToUint32]: the value modulo [2^32]. *)
Definition ToUint32 (x : Z) : Z := x mod 2 ^ 32.

(** [ToInt32]: the value modulo [2^32], read as a signed integer. *)
Definition ToInt32 (x : Z) : Z :=
  let u := ToUint32 x in if u <? 2 ^ 31 then u else u - 2 ^ 32.

(** [ToUint16], which [String.fromCharCode] applies to its argument. *)
Definition fromCharCode (x : Z) : Z := x mod 2 ^ 16.

(** [a & b], [a | b]: on the 32 bits of both operands, read back signed. *)
Definition js_and (a b : Z) : Z := ToInt32 (Z.land (ToUint32 a) (ToUint32 b)).
Definition js_or (a b : Z) : Z := ToInt32 (Z.lor (ToUint32 a) (ToUint32 b)).

(** [a >> n]: arithmetic shift of the signed operand by [n mod 32]. *)
Definition js_shr (a n : Z) : Z := Z.shiftr (ToInt32 a) (ToUint32 n mod 32).

End Int32.

Import Int32.

Module Utf8Js.

(** [createByte(codePoint, shift)] *)
Definition createByte (codePoint shift : Z) : Z :=
  fromCharCode (js_or (js_and (js_shr codePoint shift) 0x3F) 0x80).

(** [encodeCodePoint(codePoint)], as the package writes it. *)
Definition encodeCodePoint (codePoint : Z) : result (list Z) :=
  if js_and codePoint 0xFFFFFF80 =? 0 then Ok [fromCharCode codePoint]
  else
    symbol <-
      (if js_and codePoint 0xFFFFF800 =? 0 then
         Ok [fromCharCode (js_or (js_and (js_shr codePoint 6) 0x1F) 0xC0)]
       else if js_and codePoint 0xFFFF0000 =? 0 then
         _ <- checkScalarValue codePoint ;;
         Ok [fromCharCode (js_or (js_and (js_shr codePoint 12) 0x0F) 0xE0);
             createByte codePoint 6]
       else if js_and codePoint 0xFFE00000 =? 0 then
         Ok [fromCharCode (js_or (js_and (js_shr codePoint 18) 0x07) 0xF0);
             createByte codePoint 12; createByte codePoint 6]
       else Ok []) ;;
    Ok (symbol ++ [fromCharCode (js_or (js_and codePoint 0x3F) 0x80)]).

(** The loop of [utf8encode], with this [encodeCodePoint]. *)
Fixpoint encodeCodePoints (codePoints : list Z) : result (list Z) :=
  match codePoints with
  | [] => Ok []
  | cp :: rest =>
      bytes <- encodeCodePoint cp ;;
      others <- encodeCodePoints rest ;;
      Ok (bytes ++ others)
  end.

(** [utf8.encode(str)] as [utf8ToHex] calls it.  [ucs2decode] reads
    code units below [2^16], on which its [&] and [<<] do not wrap. *)
Definition utf8encode (s : list Z) : result (list Z) := encodeCodePoints (ucs2decode s).

End Utf8Js.

(** ** Where the 32-bit operators agree with [Z]'s *)

(** A value of at most [k] bits. *)
Definition bits_lt (k x : Z) : Prop := 0 <= x < 2 ^ k.

(** A value the 32-bit operators leave as it is. *)
Definition small (x : Z) : Prop := bits_lt 31 x.

Create HintDb int32 discriminated.

Lemma pow2_log2_bound (z k : Z) : 0 <= z -> 0 <= k -> (z = 0 \/ Z.log2 z < k) -> z < 2 ^ k.
Proof.
  intros Hz Hk [->|Hl]; [apply Z.pow_pos_nonneg; lia|].
  destruct (Z.eq_dec z 0) as [->|Hz0]; [apply Z.pow_pos_nonneg; lia|].
  apply Z.log2_lt_pow2; lia.
Qed.

Lemma log2_lt_of_lt (z k : Z) : 0 < z -> z < 2 ^ k -> Z.log2 z < k.
Proof. intros Hz Hlt. apply Z.log2_lt_pow2; lia. Qed.

Lemma bits_lt_k_nonneg (k x : Z) : bits_lt k x -> 0 <= k.
Proof.
  unfold bits_lt. intros Hx. destruct (Z.lt_ge_cases k 0) as [Hk|]; [|done].
  rewrite Z.pow_neg_r in Hx by done. lia.
Qed.

(** The bits of [a & b] are among those of [b]. *)
Lemma land_bits_lt_r (k a b : Z) : 0 <= a -> bits_lt k b -> bits_lt k (Z.land a b).
Proof.
  intros Ha Hb. pose proof (bits_lt_k_nonneg k b Hb). unfold bits_lt in *.
  assert (Hn : 0 <= Z.land a b) by (apply Z.land_nonneg; lia).
  split; [done|]. apply pow2_log2_bound; [done|done|].
  destruct (Z.eq_dec (Z.land a b) 0) as [|Hne]; [by left|right].
  destruct (Z.eq_dec b 0) as [->|Hb0]; [by rewrite Z.land_0_r in Hne|].
  pose proof (Z.log2_land a b Ha ltac:(lia)). pose proof (log2_lt_of_lt b k ltac:(lia) ltac:(lia)). lia.
Qed.

Lemma land_bits_lt_l (k a b : Z) : bits_lt k a -> 0 <= b -> bits_lt k (Z.land a b).
Proof. intros Ha Hb. rewrite Z.land_comm. by apply land_bits_lt_r. Qed.

Lemma lor_bits_lt (k a b : Z) : bits_lt k a -> bits_lt k b -> bits_lt k (Z.lor a b).
Proof.
  intros Ha Hb. pose proof (bits_lt_k_nonneg k a Ha). unfold bits_lt in *.
  split; [apply Z.lor_nonneg; lia|].
  apply pow2_log2_bound; [apply Z.lor_nonneg; lia|lia|].
  destruct (Z.eq_dec (Z.lor a b) 0) as [|Hne]; [by left|right].
  rewrite Z.log2_lor by lia. pose proof (Z.log2_nonneg a). pose proof (Z.log2_nonneg b).
  destruct (Z.eq_dec a 0) as [->|Ha0], (Z.eq_dec b 0) as [->|Hb0]; simpl;
    [done| | |];
    repeat match goal with
    | H : ?x <> 0, H' : 0 <= ?x < 2 ^ k |- _ =>
        pose proof (log2_lt_of_lt x k ltac:(lia) ltac:(lia)); clear H
    end; lia.
Qed.

Lemma shiftr_bits_lt (k a n : Z) : bits_lt k a -> 0 <= n -> bits_lt k (Z.shiftr a n).
Proof.
  unfold bits_lt. intros Ha Hn. rewrite Z.shiftr_div_pow2 by done.
  pose proof (Z.pow_pos_nonneg 2 n ltac:(lia)).
  split; [apply Z.div_pos; lia|]. apply (Z.le_lt_trans _ a); [apply Z.div_le_upper_bound; nia|lia].
Qed.

Lemma bits_lt_const (k c : Z) : (0 <=? c) && (c <? 2 ^ k) = true -> bits_lt k c.
Proof. unfold bits_lt. rewrite andb_true_iff, Z.leb_le, Z.ltb_lt. done. Qed.

#[export] Hint Unfold small : int32.
#[export] Hint Resolve land_bits_lt_r lor_bits_lt shiftr_bits_lt : int32.
#[export] Hint Extern 1 (bits_lt _ (Z.land _ _)) => apply land_bits_lt_l : int32.
(** A literal: decide its bound by computation. *)
Ltac bits_lt_literal :=
  lazymatch goal with
  | |- bits_lt _ (Zpos _) => apply bits_lt_const; vm_compute; reflexivity
  | |- bits_lt _ Z0 => apply bits_lt_const; vm_compute; reflexivity
  end.

#[export] Hint Extern 2 (bits_lt _ _) => bits_lt_literal : int32.
#[export] Hint Extern 1 (0 <= Z.shiftr _ _) => apply Z.shiftr_nonneg; lia : int32.
#[export] Hint Extern 2 (0 <= _) => lia : int32.

Lemma ToUint32_small (x : Z) : small x -> ToUint32 x = x.
Proof. unfold small, bits_lt, ToUint32. intros Hx. apply Z.mod_small. change (2 ^ 32) with (2 * 2 ^ 31). lia. Qed.

Lemma ToInt32_small (x : Z) : small x -> ToInt32 x = x.
Proof.
  intros Hx. unfold ToInt32. rewrite ToUint32_small by done.
  unfold small, bits_lt in Hx. by rewrite (proj2 (Z.ltb_lt _ _)) by lia.
Qed.

Lemma js_and_small (a m : Z) : small a -> (0 <=? m) && (m <? 2 ^ 32) = true ->
  js_and a m = Z.land a m.
Proof.
  intros Ha Hm. apply andb_true_iff in Hm as [Hm1 Hm2]. apply Z.leb_le in Hm1. apply Z.ltb_lt in Hm2.
  unfold js_and. rewrite ToUint32_small by done. unfold ToUint32 at 1. rewrite (Z.mod_small m) by lia.
  apply ToInt32_small, land_bits_lt_l; [done|lia].
Qed.

Lemma js_or_small (a b : Z) : small a -> small b -> js_or a b = Z.lor a b.
Proof. intros Ha Hb. unfold js_or. rewrite !ToUint32_small by done. by apply ToInt32_small, lor_bits_lt. Qed.

Lemma js_shr_small (a n : Z) : small a -> 0 <= n < 32 -> js_shr a n = Z.shiftr a n.
Proof.
  intros Ha Hn. unfold js_shr. rewrite ToInt32_small by done.
  unfold ToUint32. rewrite (Z.mod_small n (2 ^ 32)), (Z.mod_small n 32); [done|lia|]. change (2 ^ 32) with 4294967296. lia.
Qed.

Lemma fromCharCode_small (x : Z) : bits_lt 16 x -> fromCharCode x = x.
Proof. apply Z.mod_small. Qed.

(** Replace the 32-bit operators by [Z]'s, innermost first. *)
Ltac int32_to_Z :=
  repeat first
    [ rewrite js_shr_small by (auto with int32 || lia)
    | rewrite js_and_small by (auto with int32 || (vm_compute; reflexivity))
    | rewrite js_or_small by auto with int32 ].

(** ** Theorems *)

(** C13: [utf8.encode] under JavaScript's 32-bit [&], [|], [>>] and
    [fromCharCode] writes the UTF-16 encoding of any list of Unicode
    scalar values as the UTF-8 bytes of the standard's table, one code
    point after the other: the 32-bit operators never wrap there. *)
Theorem utf8encode_int32 (cps : list Z) :
  Forall scalar_value cps -> Utf8Js.utf8encode (utf16encode cps) = Ok (flat_map utf8_bytes cps).
Proof.
  intros Hcps. unfold Utf8Js.utf8encode. rewrite ucs2decode_utf16encode by done.
  induction Hcps as [|cp cps [Hok Hsur] _ IH]; [done|]. simpl. rewrite IH.
  enough (Heq : Utf8Js.encodeCodePoint cp = encodeCodePoint cp)
    by (rewrite Heq, encodeCodePoint_utf8, checkScalarValue_ok by done; reflexivity).
  assert (Hs : small cp) by (unfold code_point_ok in Hok; unfold small, bits_lt; lia).
  assert (Hcp32 : 0 <= cp < 2 ^ 32) by (unfold code_point_ok in Hok; lia).
  unfold Utf8Js.encodeCodePoint, Utf8Js.createByte, encodeCodePoint, HexString.createByte.
  int32_to_Z.
  change 0xFFFFFF80 with (2 ^ 32 - 2 ^ 7). change 0xFFFFF800 with (2 ^ 32 - 2 ^ 11).
  change 0xFFFF0000 with (2 ^ 32 - 2 ^ 16). change 0xFFE00000 with (2 ^ 32 - 2 ^ 21).
  rewrite !mask_zero by (assumption || lia).
  rewrite !(fromCharCode_small (Z.lor _ _)) by auto with int32.
  destruct (Z.ltb_spec cp (2 ^ 7)) as [H7|H7].
  { by rewrite fromCharCode_small by (unfold bits_lt; change (2 ^ 16) with (2 ^ 9 * 2 ^ 7); nia). }
  destruct (Z.ltb_spec cp (2 ^ 11)), (Z.ltb_spec cp (2 ^ 16)), (Z.ltb_spec cp (2 ^ 21)),
    (checkScalarValue cp); reflexivity.
Qed.

(** ** Concrete runs *)

(** "A", U+20AC and U+1F600. *)
Lemma utf8encode_int32_witness :
  Utf8Js.utf8encode (utf16encode [0x41; 0x20AC; 0x1F600]) =
    Ok (flat_map utf8_bytes [0x41; 0x20AC; 0x1F600]).
Proof. apply utf8encode_int32. repeat constructor; unfold code_point_ok; lia. Defined.

(** Past [2^32] the operand wraps: JavaScript encodes [2^32 + 0x41] as
    ["A"], while the [Z] translation passes the number through. *)
Example encodeCodePoint_wraps :
  Utf8Js.encodeCodePoint (2 ^ 32 + 0x41) = Ok [0x41] /\
  encodeCodePoint (2 ^ 32 + 0x41) = Ok [2 ^ 32 + 0x41].
Proof. split; vm_compute; reflexivity. Qed.
