(* ===== verification/AddressInput.v ===== *)
(** * The address input

    Models [src/src/components/common/address_input.tsx], a text input
    whose own state [currentValueStr] is recomputed from the [value] prop
    by [getDerivedStateFromProps] before every render, and whose
    [_updateValue] handler calls the parent's [onChange] and sets the
    state.

    React runs the static [getDerivedStateFromProps] after the constructor
    and before every later render, whether props or state changed; a
    [null] result keeps the state.  A change event in the input runs
    [_updateValue]; the parent's state update (through [onChange]) and the
    input's [setState] are batched, then the parent re-renders and the
    input receives the new props.  [Host] is that composition for any
    parent, as a section over the parent's state, the props it gives and
    its [onChange]; [Panel] instantiates it with the deposit/withdraw
    panel, which passes [value={address}] and [onChange={this.updateAddress}]. *)

From Stdlib Require Import String List.
From stdpp Require Import base list strings relations.
From S2P Require Import Prelude TokenData KnownTokens SteadyStore DepositWithdraw.

Open Scope ui_scope.
Local Open Scope string_scope.

Module AddressInput.

Record Props := {
  autofocus : option bool;
  className : option string;
  placeholder : option string;
  value : option string;
}.

Record State := {
  currentValueStr : string;
}.

(** [value ? value : ''] and [!value]: [null] and [''] are falsy. *)
Definition value_truthy (v : option string) : bool :=
  match v with Some s => str_truthy s | None => false end.

(** [defaultProps = { placeholder: '' }] *)
Definition placeholderOrDefault (p : Props) : string := default "" (placeholder p).

(** The [state] field initializer. *)
Definition initialState (p : Props) : State :=
  {| currentValueStr := if value_truthy (value p) then default "" (value p) else "" |}.

Definition getDerivedStateFromProps (p : Props) (s : State) : option State :=
  if negb (value_truthy (value p)) then Some {| currentValueStr := "" |}
  else if value_truthy (value p) then Some {| currentValueStr := default "" (value p) |}
  else None.

(** How React applies it: a [null] result keeps the state. *)
Definition applyDerived (p : Props) (s : State) : State :=
  match getDerivedStateFromProps p s with Some s' => s' | None => s end.

(** [componentDidMount]: whether the input is focused. *)
Definition componentDidMount (p : Props) : bool := default false (autofocus p).

(** The rendered [<Input>]: its [value], [placeholder] and [className]. *)
Record InputElement := {
  el_value : string;
  el_placeholder : string;
  el_className : option string;
}.

Definition render (p : Props) (s : State) : InputElement :=
  {| el_value := currentValueStr s; el_placeholder := placeholderOrDefault p;
     el_className := className p |}.

(** [_updateValue(e)]: the value given to [onChange], and the new state. *)
Definition updateValue (newValueStr : string) (s : State) : string * State :=
  let newValue := if str_truthy newValueStr then newValueStr else "" in
  (newValue, {| currentValueStr := newValueStr |}).

Section Host.
Context {Parent : Type} (propsOf : Parent -> Props) (onChange : string -> Parent -> Parent).

(** What happens to a mounted input inside its parent. *)
Inductive event :=
| Typed (newValueStr : string)        (** a change event in the input *)
| ParentUpdate (f : Parent -> Parent). (** the parent re-renders with a new state *)

(** The mounted pair of parent state and input state. *)
Definition mount (par : Parent) : Parent * State :=
  (par, applyDerived (propsOf par) (initialState (propsOf par))).

Definition step (e : event) (ps : Parent * State) : Parent * State :=
  let '(par, s) := ps in
  match e with
  | Typed str =>
      let '(newValue, s1) := updateValue str s in
      let par' := onChange newValue par in
      (par', applyDerived (propsOf par') s1)
  | ParentUpdate f => (f par, applyDerived (propsOf (f par)) s)
  end.

Definition run (es : list event) (par : Parent) : Parent * State :=
  fold_left (fun ps e => step e ps) es (mount par).

(** Two mounted states with the same parent state: the input's own state
    is not observable, so this is the equivalence the handlers respect. *)
Definition same_parent (a b : Parent * State) : Prop := a.1 = b.1.

(** The input shows the parent's [value] prop. *)
Definition shows_prop (ps : Parent * State) : Prop :=
  el_value (render (propsOf ps.1) ps.2) = default "" (value (propsOf ps.1)).

End Host.

(** The panel's [<AddressInputStyled onChange={this.updateAddress}
    value={address} placeholder={''} />]. *)
Definition panelProps (pst : Panel.State) : Props :=
  {| autofocus := None; className := None; placeholder := Some ""; value := Panel.address pst |}.

Definition panelOnChange (v : string) (pst : Panel.State) : Panel.State :=
  DepositWithdraw.updateAddress v pst.

End AddressInput.

(** A withdrawal address typed into the panel. *)
Definition demo_typed_address : string := "0x3333333333333333333333333333333333333333".

(** A parent that drops what the input reports. *)
Definition ignoreChange (v : string) (pst : Panel.State) : Panel.State := pst.

(** ** Theorems *)

Import AddressInput.

(** [getDerivedStateFromProps] never returns [null] and ignores the
    state: the state is a function of the [value] prop. *)
Lemma applyDerived_value (p : Props) (s : State) :
  applyDerived p s = {| currentValueStr := default "" (value p) |}.
Proof.
  unfold applyDerived, getDerivedStateFromProps, value_truthy, str_truthy.
  destruct (value p) as [v|]; [|done]. simpl.
  destruct (String.eqb_spec v ""); simpl; congruence.
Qed.

Section HostFacts.
Context {Parent : Type} (propsOf : Parent -> Props) (onChange : string -> Parent -> Parent).

Lemma step_shows_prop (e : event) (ps : Parent * State) :
  shows_prop propsOf (step propsOf onChange e ps).
Proof.
  unfold shows_prop. destruct ps as [par s], e as [str|f]; simpl;
    by rewrite applyDerived_value.
Qed.

Lemma run_shows_prop (es : list event) (par : Parent) :
  shows_prop propsOf (run propsOf onChange es par).
Proof.
  unfold run. assert (H0 : shows_prop propsOf (mount propsOf par)).
  { unfold shows_prop, mount. simpl. by rewrite applyDerived_value. }
  revert H0. generalize (mount propsOf par). induction es as [|e es IH]; intros ps Hps; [done|].
  simpl. apply IH, step_shows_prop.
Qed.

(** C32: The input is controlled: after mounting and any sequence of
    change events and parent updates, it shows the parent's [value] prop,
    or the empty string when that prop is [null]. *)
Theorem addressInput_controlled (es : list event) (par : Parent) :
  let '(par', s) := run propsOf onChange es par in
  el_value (render (propsOf par') s) = default "" (value (propsOf par')).
Proof. pose proof (run_shows_prop es par) as H. by destruct (run _ _ es par). Qed.

(** When the parent's [onChange] does not change the [value]
    it passes down, a change event leaves the input showing what it showed
    before: the [setState] of [_updateValue] is overwritten. *)
Theorem typed_reverted (par : Parent) (s : State) (str : string) :
  value (propsOf (onChange (if str_truthy str then str else "") par)) = value (propsOf par) ->
  shows_prop propsOf (par, s) ->
  el_value (render (propsOf (step propsOf onChange (Typed str) (par, s)).1)
                   (step propsOf onChange (Typed str) (par, s)).2) =
  el_value (render (propsOf par) s).
Proof.
  unfold shows_prop. simpl. intros Hv Hs. rewrite applyDerived_value. simpl. by rewrite Hv, Hs.
Qed.

#[export] Instance same_parent_equivalence : Equivalence (@same_parent Parent).
Proof. unfold same_parent. split; repeat intro; congruence. Qed.

(** A step from states with the same parent gives the same state: what
    the input held before is forgotten. *)
#[export] Instance step_proper :
  Proper (eq ==> same_parent ==> eq) (step propsOf onChange).
Proof.
  intros e ? <- [par s] [par' s'] Hp. unfold same_parent in Hp. simpl in Hp. subst par'.
  destruct e; simpl; by rewrite !applyDerived_value.
Qed.

End HostFacts.

Section PanelFacts.
Context `{PanelConstants} `{AddressValidator}.

(** Typing in the panel's field stores the text as the panel's address
    and shows it. *)
Lemma panel_typed (str : string) (pst : Panel.State) (s : State) :
  step panelProps panelOnChange (Typed str) (pst, s) =
  (DepositWithdraw.updateAddress (if str_truthy str then str else "") pst,
   {| currentValueStr := if str_truthy str then str else "" |}).
Proof. simpl. by rewrite applyDerived_value. Qed.

(** The transfer [submit] makes carries the panel's address. *)
Lemma submit_sends_address (p : StateProps) (st : Panel.State) c t amt a :
  In (ContractSend c t amt a) (DepositWithdraw.submit p st) -> Panel.address st = Some a /\ a <> "".
Proof.
  unfold DepositWithdraw.submit. destruct (props_currentToken p) as [ct|]; [|done].
  case_decide; [case_match; simpl; intuition congruence|].
  destruct (Panel.withdrawAmount st) as [amount|]; [|done].
  destruct (Panel.address st) as [a0|]; simpl; [|done].
  unfold str_truthy. destruct (String.eqb_spec a0 ""); simpl; [done|].
  case_match; simpl; intuition congruence.
Qed.

(** C10: Whatever the user types and whatever else updates the
    panel, a transfer the panel's [submit] makes is sent to the non-empty
    address the address field shows at that moment. *)
Theorem panel_withdraw_sends_shown (p : StateProps) (es : list event) (pst0 : Panel.State) c t amt a :
  let '(pst, s) := run panelProps panelOnChange es pst0 in
  In (ContractSend c t amt a) (DepositWithdraw.submit p pst) ->
  a = el_value (render (panelProps pst) s) /\ a <> "".
Proof.
  pose proof (run_shows_prop panelProps panelOnChange es pst0) as Hs.
  destruct (run _ _ es pst0) as [pst s]. unfold shows_prop in Hs. simpl in Hs.
  intros Hin. destruct (submit_sends_address p pst c t amt a Hin) as [Ha Hne].
  simpl. rewrite Hs, Ha. done.
Qed.

End PanelFacts.

(** ** Concrete runs *)

Section Witnesses.
#[local] Existing Instance demo_panel_constants.
#[local] Existing Instance demo_validator.

Lemma typed_reverted_witness :
  el_value (render (AddressInput.panelProps
      (step AddressInput.panelProps ignoreChange (Typed "abc")
         (demo_withdraw_state, {| currentValueStr := "0x1111111111111111111111111111111111111111" |})).1)
    (step AddressInput.panelProps ignoreChange (Typed "abc")
       (demo_withdraw_state, {| currentValueStr := "0x1111111111111111111111111111111111111111" |})).2) =
  el_value (render (AddressInput.panelProps demo_withdraw_state)
                   {| currentValueStr := "0x1111111111111111111111111111111111111111" |}).
Proof. apply typed_reverted; reflexivity. Defined.

(** Type an address on the withdraw tab with the DAI token selected; the
    transfer goes to it. *)
Lemma panel_withdraw_sends_shown_witness :
  let '(pst, s) := run AddressInput.panelProps AddressInput.panelOnChange
                     [Typed demo_typed_address] demo_withdraw_state in
  demo_typed_address = el_value (render (AddressInput.panelProps pst) s) /\ demo_typed_address <> "".
Proof.
  generalize (panel_withdraw_sends_shown demo_dai_props [Typed demo_typed_address] demo_withdraw_state
                ERC_777_ADDRESS WITHDRAW_ADDRESS 0%Z demo_typed_address).
  simpl. intros H. apply H. vm_compute. left. reflexivity.
Defined.

End Witnesses.
