(* ===== verification/Collectibles.v ===== *)
(** * Grouping the collectibles in columns

    Models the [render] of [src/src/erc721/pages/my_collectibles.tsx]: the
    collectibles are mapped to [CollectibleAsset] elements keyed by their
    index, then grouped by a [reduce] that writes into a JavaScript array
    [row] by index ([row[chunkIndex] = []] when the slot is [undefined],
    then [row[chunkIndex].push(item)]); each group becomes a
    [ColumnMyCollectibles] keyed by its index.

    A JavaScript array is a [JsArray]: a list of [option]s in which [None]
    is a hole; writing past the end extends the array with holes, as
    JavaScript does, and reading a hole or past the end gives [undefined].
    [push] on [undefined] would throw a [TypeError], so the callback
    returns a [result].  The group size is a parameter of the callback, set
    to the code's [const groupSize = 2] in [render]; the theorems hold for
    every positive size.  The reference [columns] states what the grouping
    means: column [j] holds the items [j * k] to [j * k + k - 1]. *)

From Stdlib Require Import String ZArith List Lia.
From stdpp Require Import base list strings.
From S2P Require Import Prelude.

Open Scope ui_scope.

Module MyCollectibles.

(** The fields of [Collectible] (of [util/types.ts]) that [render] reads. *)
Record Collectible := {
  name : string;
  price : option Z;
  image : string;
  color : string;
}.

(** [<CollectibleAsset name price image color key={index} />] *)
Record CollectibleAsset := {
  asset_name : string;
  asset_price : option Z;
  asset_image : string;
  asset_color : string;
  asset_key : nat;
}.

Definition toAsset (index : nat) (item : Collectible) : CollectibleAsset :=
  {| asset_name := name item; asset_price := price item; asset_image := image item;
     asset_color := color item; asset_key := index |}.

(** [myCollectibles.map((item, index) => <CollectibleAsset ... />)] *)
Definition rows (myCollectibles : list Collectible) : list CollectibleAsset :=
  imap toAsset myCollectibles.

(** A JavaScript array; [None] is a hole. *)
Definition JsArray (A : Type) : Type := list (option A).

(** [a[i]]: [undefined] on a hole and past the end. *)
Definition js_get {A} (a : JsArray A) (i : nat) : option A :=
  match a !! i with Some o => o | None => None end.

(** [a[i] = v]: past the end, the array grows with holes up to [i]. *)
Definition js_set {A} (a : JsArray A) (i : nat) (v : A) : JsArray A :=
  if decide (i < length a) then <[i := Some v]> a
  else a ++ replicate (i - length a) None ++ [Some v].

(** [a.reduce(f, init)] on an array without holes: the callback gets the
    accumulator, the item and its index. *)
Fixpoint js_reduce {A B} (f : B -> A -> nat -> result B) (acc : B) (l : list A) (index : nat)
  : result B :=
  match l with
  | [] => Ok acc
  | item :: l' => acc' <- f acc item index ;; js_reduce f acc' l' (S index)
  end.

(** The callback of [rows.reduce]: [Math.floor(index / groupSize)], the
    test [!row[chunkIndex]] (an array, even empty, is truthy), and the
    [push], which mutates the array stored in the slot. *)
Definition reduceStep {A} (groupSize : nat) (row : JsArray (list A)) (item : A) (index : nat)
  : result (JsArray (list A)) :=
  let chunkIndex := index / groupSize in
  let row1 := match js_get row chunkIndex with
              | Some _ => row
              | None => js_set row chunkIndex []
              end in
  match js_get row1 chunkIndex with
  | Some arr => Ok (js_set row1 chunkIndex (arr ++ [item]))
  | None => Throw (JsTypeError "Cannot read property 'push' of undefined")
  end.

Definition groupSize : nat := 2.

Definition rowsReduced {A} (groupSize : nat) (l : list A) : result (JsArray (list A)) :=
  js_reduce (reduceStep groupSize) [] l 0.

(** [rowsReduced.map((items, index) => <Fragment key={index}><Column>{items}</Column></Fragment>)]:
    [map] skips holes and keeps them. *)
Definition render (myCollectibles : list Collectible) : result (JsArray (nat * list CollectibleAsset)) :=
  r <- rowsReduced groupSize (rows myCollectibles) ;;
  Ok (imap (fun index o => (fun items => (index, items)) <$> o) r).

(** The reference: column [j] holds the items [j * k] to [j * k + k - 1],
    and there are [ceil (length l / k)] columns. *)
(** [interface Props] *)
Record Props := { myCollectibles : list Collectible }.

(** [mapStateToProps]; the selector [getMyCollectibles] of
    [store/selectors.ts], not in the snapshot, is a parameter. *)
Definition mapStateToProps {S} (getMyCollectibles : S -> list Collectible) (state : S) : Props :=
  {| myCollectibles := getMyCollectibles state |}.

(** [MyCollectiblesContainer = connect(mapStateToProps)(MyCollectibles)]:
    the page rendered on the connected props. *)
Definition MyCollectiblesContainer {S} (getMyCollectibles : S -> list Collectible) (state : S)
  : result (JsArray (nat * list CollectibleAsset)) :=
  render (myCollectibles (mapStateToProps getMyCollectibles state)).

Definition columns {A} (k : nat) (l : list A) : list (list A) :=
  map (fun j => take k (drop (j * k) l)) (seq 0 ((length l + k - 1) / k)).

End MyCollectibles.

(** ** Theorems *)

Import MyCollectibles.

(** Integer division facts for one more item. *)
Lemma div_up_step (n k : nat) : 0 < k ->
  (n mod k = 0 /\ (n + k - 1) / k = n / k /\ (S n + k - 1) / k = S (n / k)) \/
  (n mod k <> 0 /\ (n + k - 1) / k = S (n / k) /\ (S n + k - 1) / k = S (n / k)).
Proof.
  intros Hk. pose proof (Nat.div_mod n k ltac:(lia)) as Hn. pose proof (Nat.mod_upper_bound n k ltac:(lia)).
  set (q := n / k) in *. set (r := n mod k) in *.
  destruct (decide (r = 0)) as [Hr|Hr]; [left|right]; (split; [done|]); split;
    symmetry; [apply (Nat.div_unique _ _ _ (k - 1)) | apply (Nat.div_unique _ _ _ 0)
              | apply (Nat.div_unique _ _ _ (r - 1)) | apply (Nat.div_unique _ _ _ r)]; nia.
Qed.

Lemma div_lt_mul (j n k : nat) : 0 < k -> j < n / k -> j * k + k <= n.
Proof.
  intros Hk Hj. pose proof (Nat.div_mod n k ltac:(lia)). nia.
Qed.

Section Columns.
Context {A : Type} (k : nat) (Hk : 0 < k).

Lemma column_prefix (p : list A) (x : A) (j : nat) :
  j < length p / k -> take k (drop (j * k) (p ++ [x])) = take k (drop (j * k) p).
Proof.
  intros Hj. pose proof (div_lt_mul j (length p) k Hk Hj).
  rewrite drop_app_le by lia. apply take_app_le. rewrite length_drop. lia.
Qed.

Lemma last_column_bound (p : list A) : length p / k * k <= length p /\ length p - length p / k * k = length p mod k.
Proof. pose proof (Nat.div_mod (length p) k ltac:(lia)). lia. Qed.

(** The columns of [p]: the full ones, then the partial one if any. *)
Lemma columns_split (p : list A) :
  columns k p = map (fun j => take k (drop (j * k) p)) (seq 0 (length p / k)) ++
                (if decide (length p mod k = 0) then [] else [drop (length p / k * k) p]).
Proof.
  unfold columns. pose proof (Nat.mod_upper_bound (length p) k ltac:(lia)).
  pose proof (last_column_bound p).
  destruct (div_up_step (length p) k Hk) as [(Hr & Hn & _)|(Hr & Hn & _)];
    rewrite Hn; case_decide; try done.
  - by rewrite app_nil_r.
  - rewrite seq_S, map_app. simpl. do 3 f_equal. apply take_ge. rewrite length_drop. lia.
Qed.

(** One more item goes to the partial column, or opens a new one. *)
Lemma columns_snoc (p : list A) (x : A) :
  columns k (p ++ [x]) = map (fun j => take k (drop (j * k) p)) (seq 0 (length p / k)) ++
                         [drop (length p / k * k) p ++ [x]].
Proof.
  unfold columns. rewrite length_app. simpl length. rewrite Nat.add_1_r.
  pose proof (Nat.mod_upper_bound (length p) k ltac:(lia)). pose proof (last_column_bound p).
  destruct (div_up_step (length p) k Hk) as [(_ & _ & Hn)|(_ & _ & Hn)]; rewrite Hn, seq_S, map_app;
    (f_equal; [apply map_ext_in; intros j Hj; apply in_seq in Hj; apply column_prefix; lia|]);
    simpl; rewrite drop_app_le by lia; do 2 f_equal; apply take_ge;
    rewrite length_app, length_drop; simpl; lia.
Qed.

End Columns.

Lemma js_get_fmap {B} (l : list B) (i : nat) : js_get (Some <$> l) i = l !! i.
Proof. unfold js_get, JsArray. rewrite list_lookup_fmap. by destruct (l !! i). Qed.

(** Writing just past the end appends. *)
Lemma js_set_end {B} (a : JsArray B) (v : B) : js_set a (length a) v = a ++ [Some v].
Proof. unfold js_set. case_decide; [lia|]. by rewrite Nat.sub_diag. Qed.

(** Writing the last slot replaces it. *)
Lemma js_set_last {B} (a : JsArray B) (o : option B) (v : B) :
  js_set (a ++ [o]) (length a) v = a ++ [Some v].
Proof.
  unfold js_set, JsArray. rewrite length_app. simpl. case_decide; [|lia].
  rewrite <- (Nat.add_0_r (length a)) at 1. by rewrite insert_app_r.
Qed.

Lemma js_get_last {B} (a : JsArray B) (o : option B) : js_get (a ++ [o]) (length a) = o.
Proof. unfold js_get, JsArray. by rewrite lookup_app_r, Nat.sub_diag by lia. Qed.

(** The callback adds the item at index [length p] to the columns of [p]. *)
Lemma reduceStep_snoc {A} (k : nat) (p : list A) (x : A) : 0 < k ->
  reduceStep k (Some <$> columns k p) x (length p) = Ok (Some <$> columns k (p ++ [x])).
Proof.
  intros Hk. rewrite (columns_snoc k Hk), (columns_split k Hk). unfold reduceStep.
  assert (HM : length (Some <$> map (fun j => take k (drop (j * k) p)) (seq 0 (length p / k))) =
               length p / k) by (by rewrite length_fmap, length_map, length_seq).
  revert HM. generalize (map (fun j => take k (drop (j * k) p)) (seq 0 (length p / k))) as M.
  intros M HM. rewrite <- HM. pose proof (last_column_bound k Hk p) as Hb.
  case_decide as Hr.
  - rewrite app_nil_r, js_get_fmap, lookup_ge_None_2 by (rewrite length_fmap; lia).
    rewrite js_set_end, js_get_last, js_set_last, fmap_app.
    rewrite drop_ge by lia. done.
  - rewrite !fmap_app, !fmap_cons, !fmap_nil, !js_get_last. by rewrite js_set_last.
Qed.

Lemma js_reduce_columns {A} (k : nat) (p l : list A) : 0 < k ->
  js_reduce (reduceStep k) (Some <$> columns k p) l (length p) = Ok (Some <$> columns k (p ++ l)).
Proof.
  intros Hk. revert p. induction l as [|x l IH]; intros p; simpl; [by rewrite app_nil_r|].
  rewrite reduceStep_snoc by done. simpl.
  replace (S (length p)) with (length (p ++ [x])) by (rewrite length_app; simpl; lia).
  rewrite IH. by rewrite <- app_assoc.
Qed.

Lemma columns_nil {A} (k : nat) : 0 < k -> columns k (@nil A) = [].
Proof. intros Hk. unfold columns. simpl. by rewrite Nat.div_small by lia. Qed.

Lemma columns_lookup {A} (k : nat) (l : list A) (j : nat) (c : list A) :
  columns k l !! j = Some c <-> j < (length l + k - 1) / k /\ c = take k (drop (j * k) l).
Proof.
  unfold columns. rewrite list_map_fmap, list_lookup_fmap.
  destruct (decide (j < (length l + k - 1) / k)).
  - rewrite lookup_seq_lt by done. simpl. split; [intros Hc; inv_result|intros [_ ->]]; done.
  - rewrite lookup_seq_ge by lia. simpl. split; [discriminate|lia].
Qed.

Lemma lt_div_up (j n k : nat) : 0 < k -> j < (n + k - 1) / k -> j * k + k <= n + k - 1.
Proof.
  intros Hk Hj. pose proof (Nat.div_mod (n + k - 1) k ltac:(lia)). nia.
Qed.

Lemma columns_concat_snoc {A} (k : nat) (p : list A) (x : A) : 0 < k ->
  concat (columns k (p ++ [x])) = concat (columns k p) ++ [x].
Proof.
  intros Hk. rewrite (columns_snoc k Hk), (columns_split k Hk), !concat_app. simpl.
  pose proof (last_column_bound k Hk p). case_decide.
  - rewrite drop_ge by nia. simpl. by rewrite !app_nil_r.
  - simpl. by rewrite !app_nil_r, <- app_assoc.
Qed.

Lemma length_columns {A} (k : nat) (l : list A) : length (columns k l) = (length l + k - 1) / k.
Proof. unfold columns. by rewrite length_map, length_seq. Qed.

(** The columns hold the items in order, each column holds one to
    [k] items, and every column but the last holds exactly [k]. *)
Theorem columns_spec {A} (k : nat) (l : list A) : 0 < k ->
  concat (columns k l) = l /\
  forall j c, columns k l !! j = Some c ->
    0 < length c <= k /\ (S j < length (columns k l) -> length c = k).
Proof.
  intros Hk. split.
  - induction l as [|x l IH] using rev_ind; [by rewrite columns_nil|].
    by rewrite columns_concat_snoc, IH.
  - intros j c Hc. apply columns_lookup in Hc as [Hj ->].
    pose proof (lt_div_up j (length l) k Hk Hj). rewrite length_columns.
    rewrite length_take, length_drop. split; [lia|].
    intros Hj'. pose proof (lt_div_up (S j) (length l) k Hk Hj'). lia.
Qed.

(** C31: [render] never throws and leaves no hole: column [j] gets
    the key [j] and the assets of [columns 2], which hold the collectibles
    in order (each keyed by its index), two per column, the last column
    holding one or two. *)
Theorem render_columns (myCollectibles : list Collectible) :
  let cols := columns groupSize (rows myCollectibles) in
  render myCollectibles = Ok (imap (fun index items => Some (index, items)) cols) /\
  concat cols = rows myCollectibles /\
  forall j c, cols !! j = Some c -> 0 < length c <= 2 /\ (S j < length cols -> length c = 2).
Proof.
  intros cols. assert (Hk : 0 < groupSize) by (unfold groupSize; lia).
  split; [|apply (columns_spec groupSize _ Hk)].
  unfold render, rowsReduced.
  replace (@nil (option (list CollectibleAsset)))
    with (Some <$> columns groupSize (@nil CollectibleAsset)) by (by rewrite columns_nil).
  change 0 with (length (@nil CollectibleAsset)).
  rewrite js_reduce_columns by done. simpl.
  f_equal. by rewrite imap_fmap.
Qed.

(** ** Concrete runs *)

(** Three items make a full column and a column of one. *)
Example rowsReduced_three : rowsReduced 2 [10; 20; 30] = Ok [Some [10; 20]; Some [30]].
Proof. reflexivity. Qed.
