(* ===== verification/OrderHistory.v ===== *)
(** * The order history card

    Models the [render] of
    [src/src/components/steady/exchange/deposit_transaction.tsx]: it
    computes the fillable orders ([ordersToShow]) and then, with the
    [switch] on the wallet state commented out, renders a table whose
    body maps a constant thirty-element array through [TxToRow], which
    ignores its argument.  [orderToRow], reachable only from the
    commented-out code, is modelled too: it computes the side, size,
    status and price of the order and returns a row that uses none of
    them.  The number formatting it calls ([tokenAmountInUnits] of
    [util/tokens.ts], [toFixed] on a float) is the class [OrderFormat]. *)

From Stdlib Require Import String List.
From stdpp Require Import base list strings.
From S2P Require Import Prelude TokenData DepositWithdraw.

Local Open Scope string_scope.

Module OrderHistory.

(** [OrderStatus] of [@0x/types]. *)
Inductive OrderStatus := Invalid | InvalidMakerAssetAmount | InvalidTakerAssetAmount
                       | Fillable | Expired | FullyFilled | Cancelled.

#[export] Instance OrderStatus_eq_dec : EqDecision OrderStatus.
Proof. solve_decision. Defined.

(** [OrderSide] of [util/types.ts]. *)
Inductive OrderSide := Buy | Sell.

#[export] Instance OrderSide_eq_dec : EqDecision OrderSide.
Proof. solve_decision. Defined.

(** The fields of [UIOrder] ([util/types.ts]) the file reads; amounts
    are [BigNumber]s in base units. *)
Record UIOrder := {
  side : OrderSide;
  size : Z;
  filled : option Z;
  status : option OrderStatus;
  price : Z;
}.

(** [StateProps] *)
Record Props := {
  baseToken : option Token;
  orders : list UIOrder;
  quoteToken : option Token;
  web3State : option Web3State;
}.

(** The number formatting [orderToRow] calls. *)
Class OrderFormat := {
  tokenAmountInUnits : Z -> Z -> Z -> string;
  (** [parseFloat(price.toString()).toFixed(digits)] *)
  priceToFixed : Z -> Z -> string;
  UI_DECIMALS_DISPLAYED_PRICE_ETH : Z;
}.

(** The colour of [SideTD]: the theme's green for a buy, red otherwise. *)
Definition sideColor (s : OrderSide) : ThemeColor :=
  if decide (s = Buy) then ThemeGreen else ThemeRed.

(** [if (order.status)]: [OrderStatus.Invalid] is [0], which is falsy. *)
Definition status_truthy (o : option OrderStatus) : bool :=
  match o with Some Invalid | None => false | Some _ => true end.

(** The [status] and [isOrderFillable] of [orderToRow]. *)
Definition orderStatus (o : option OrderStatus) : string * bool :=
  if status_truthy o then
    let isOrderFillable := bool_decide (o = Some Fillable) in
    (if isOrderFillable then "Open" else "Filled", isOrderFillable)
  else ("--", false).

(** A [<TR key>] of three [<CustomTD>] texts. *)
Record TableRow := {
  row_key : nat;
  cells : list string;
}.

(** [TxToRow(index)] *)
Definition TxToRow (index : nat) : TableRow :=
  {| row_key := index; cells := ["3QFwygJ5eoTATuVUENdJbELboP72XEifyw"; "0.01 (BTC)"; "--"] |}.

(** [orderToRow(order, index, baseToken)]: the locals are computed and
    the row is four constant cells. *)
Definition orderToRow `{OrderFormat} (order : UIOrder) (index : nat) (baseToken0 : Token) : TableRow :=
  let sideLabel := if decide (side order = Sell) then "Sell" else "Buy" in
  let size0 := tokenAmountInUnits (size order) (decimals baseToken0) (displayDecimals baseToken0) in
  let '(status0, isOrderFillable) := orderStatus (status order) in
  let filled0 := (fun f => tokenAmountInUnits f (decimals baseToken0) (displayDecimals baseToken0))
                   <$> filled order in
  let price0 := priceToFixed (price order) UI_DECIMALS_DISPLAYED_PRICE_ETH in
  {| row_key := index;
     cells := ["Deposit"; "3QFwygJ5eoTATuVUENdJbELboP72XEifyw"; "2017-03-34"; "--"] |}.

(** [orders.filter(order => order.status === OrderStatus.Fillable)] *)
Definition ordersToShow (p : Props) : list UIOrder :=
  List.filter (fun o => bool_decide (status o = Some Fillable)) (orders p).

Definition placeholderOrders : list nat :=
  [1;2;3;4;5;1;2;3;4;5;1;2;3;4;5;1;2;3;4;5;1;2;3;4;5;1;2;3;4;5].

(** The card: its title, the header cells and the body rows. *)
Record Card := {
  title : string;
  header : list string;
  body : list TableRow;
}.

Definition render (p : Props) : Card :=
  let _ := ordersToShow p in
  {| title := "Orders"; header := ["Address"; "Amount"; "Status"];
     body := imap (fun index _ => TxToRow index) placeholderOrders |}.

End OrderHistory.

Import OrderHistory.

(** The order history ignores the orders: whatever they are, it
    shows the same thirty rows, keyed 0 to 29, each with the same
    placeholder address, amount and status. *)
Theorem render_ignores_orders (p : Props) :
  body (render p) = map TxToRow (seq 0 30) /\
  forall q, render q = render p.
Proof. split; reflexivity. Qed.

(** The status label of [orderToRow]: [--] for no status and for
    [Invalid] (whose value [0] is falsy), [Open] for a fillable order and
    [Filled] for every other status, expired and cancelled ones included. *)
Theorem orderStatus_label (o : option OrderStatus) :
  (orderStatus o).1 =
    match o with
    | None | Some Invalid => "--"
    | Some Fillable => "Open"
    | Some _ => "Filled"
    end.
Proof. destruct o as [[]|]; reflexivity. Qed.

(** [orderToRow] returns the same cells for every order and base token. *)
Theorem orderToRow_constant `{OrderFormat} (o o' : UIOrder) (i : nat) (t t' : Token) :
  orderToRow o i t = orderToRow o' i t'.
Proof.
  unfold orderToRow. destruct (orderStatus (status o)), (orderStatus (status o')). reflexivity.
Qed.
