(* ===== verification/SteadyApp.v ===== *)
(** * The steady application and its exchange page

    Models [src/src/components/steady/steady_app.tsx] and
    [src/src/components/steady/pages/exchange.tsx], with the
    [mapStateToProps] of the deposit/withdraw panel and of the order
    history that connect them to the store.  The app renders a theme, the
    general layout with its toolbar, an ad-block detector and a [Switch]
    with one exact [Route] to the exchange page; the page lays out the
    wallet balance and the deposit/withdraw panel in a narrow column and
    the order history in a wide one.

    Rendering is a computation that may throw: React has no error boundary
    in this tree, so an exception in the panel's [render] (the trading
    registry not knowing the selected steady token, or [getKnownTokens()]
    throwing) unmounts the whole app.  The panel's call of
    [getKnownTokens()] creates the trading singleton on its first call
    ([Globals]).  Elements from other files of the application (wallet
    balance, toolbar, modals, layout) are [Opaque].  [react-router]'s
    matching of an exact route is the interface [Router], and the
    selectors of [store/selectors.ts] (not in the snapshot) read the
    fields of [StoreState]. *)

From Stdlib Require Import String List.
From stdpp Require Import base list strings.
From S2P Require Import Prelude TokenData KnownTokens SteadyStore DepositWithdraw Actions OrderHistory.

Open Scope ui_scope.
Local Open Scope string_scope.

(** [STEADY_APP_BASE_PATH] of [common/constants.ts]. *)
Class RouterConstants := {
  STEADY_APP_BASE_PATH : string;
}.

(** [matchPath(pathname, { path, exact: true })] of [react-router]. *)
Class Router := {
  matchExact : string -> string -> bool;
}.

Module SteadyApp.

(** The parts of [StoreState] the selectors read; [root] holds the steady
    slice and the account the thunks of [Actions] use. *)
Record StoreState := {
  root : RootState;
  web3 : Web3State;
  userOrders : list OrderHistory.UIOrder;
  storeBaseToken : option Token;
  storeQuoteToken : option Token;
}.

Definition getSteadyCurrentToken (st : StoreState) : option Token :=
  currentToken (steadyState (root st)).
Definition getDepositAddresses (st : StoreState) : option (list Address) :=
  addresses (steadyState (root st)).

(** Dispatching the actions of a thunk on the store. *)
Definition dispatchAll (st : StoreState) (acts : list RootAction) : StoreState :=
  {| root := fold_left dispatchRoot acts (root st); web3 := web3 st; userOrders := userOrders st;
     storeBaseToken := storeBaseToken st; storeQuoteToken := storeQuoteToken st |}.

(** [mapStateToProps] of the deposit/withdraw panel. *)
Definition dwMapStateToProps (st : StoreState) : StateProps := {|
  web3State := web3 st;
  props_currentToken := getSteadyCurrentToken st;
  props_addresses := getDepositAddresses st;
|}.

(** [mapStateToProps] of the order history. *)
Definition ohMapStateToProps (st : StoreState) : OrderHistory.Props := {|
  OrderHistory.baseToken := storeBaseToken st;
  OrderHistory.orders := userOrders st;
  OrderHistory.quoteToken := storeQuoteToken st;
  OrderHistory.web3State := Some (web3 st);
|}.

(** The dispatch props of the panel that the snapshot's thunks serve
    ([mapDispatchToProps]); the order, wallet and fee thunks it also wires
    come from modules that are not in the snapshot. *)
Record DispatchProps := {
  onTokensDepositAddress : string -> string -> StoreState -> Outcome;
  onSignMessage : string -> StoreState -> Outcome;
  onChangeAddresses : list Address -> StoreState -> StoreState;
}.

Definition dwMapDispatchToProps `{ActionConstants} `{World} : DispatchProps := {|
  onTokensDepositAddress := fun signString coinCode st =>
    fetchTokensDepositAddress signString coinCode (root st);
  onSignMessage := fun coinCode st => signMessage coinCode (root st);
  onChangeAddresses := fun l st => dispatchAll st (changeAddresses l);
|}.

(** A rendered element tree. *)
#[warnings="-register-all"]
Inductive Element :=
| Opaque (name : string)
| Node (name : string) (children : list Element)
| PanelEl (v : option View)
| OrdersEl (c : OrderHistory.Card).

Section Render.
Context `{AppConstants} `{PanelConstants} `{AddressValidator} `{RouterConstants} `{Router}.

(** [getKnownTokens()] as the panel calls it: the registry or the
    exception, and the globals after the call. *)
Definition panelKnownTokens (g : Globals) : result KnownTokens :=
  match getKnownTokens KNOWN_TOKENS_META_DATA g with
  | Ok (kt, _) => Ok kt
  | Throw e => Throw e
  end.

(** The panel's [render] inside the app: the globals change only when
    the withdraw tab calls [getKnownTokens()]. *)
Definition renderPanel (g : Globals) (p : StateProps) (st : Panel.State)
  : result (option View * Globals) :=
  v <- DepositWithdraw.render (panelKnownTokens g) p st ;;
  let g' :=
    match props_currentToken p, Panel.tab st, getKnownTokens KNOWN_TOKENS_META_DATA g with
    | Some _, Withdraw, Ok (_, g1) => g1
    | _, _, _ => g
    end in
  Ok (v, g').

(** [Exchange.render] *)
Definition renderExchange (g : Globals) (st : StoreState) (panel : Panel.State)
  : result (Element * Globals) :=
  r <- renderPanel g (dwMapStateToProps st) panel ;;
  Ok (Node "Content"
        [Node "ColumnNarrow" [Opaque "WalletBalanceContainer"; PanelEl r.1];
         Node "ColumnWide" [OrdersEl (OrderHistory.render (ohMapStateToProps st))];
         Opaque "CheckMetamaskStateModalContainer"], r.2).

(** [SteadyApp]: the [Switch] renders the exchange page when the exact
    route [BASE/] matches the location, nothing otherwise. *)
Definition renderSteadyApp (pathname : string) (g : Globals) (st : StoreState) (panel : Panel.State)
  : result (Element * Globals) :=
  routes <- (if matchExact (STEADY_APP_BASE_PATH +:+ "/") pathname then
               r <- renderExchange g st panel ;; Ok ([r.1], r.2)
             else Ok ([], g)) ;;
  Ok (Node "ThemeProvider"
        [Node "GeneralLayout"
           [Opaque "ToolbarContentContainer"; Opaque "AdBlockDetector"; Node "Switch" routes.1]],
      routes.2).

End Render.

(** The panels an element tree shows, in document order. *)
Fixpoint panels (e : Element) : list (option View) :=
  match e with
  | PanelEl v => [v]
  | Node _ cs => (fix go (cs : list Element) : list (option View) :=
                    match cs with [] => [] | c :: cs' => app (panels c) (go cs') end) cs
  | _ => []
  end.

End SteadyApp.

Import SteadyApp.

(** ** Concrete collaborators, for evaluating the definitions *)

Definition demo_router_constants : RouterConstants := {| STEADY_APP_BASE_PATH := "/steady" |}.

(** An exact route matches the location character for character. *)
Definition demo_router : Router := {| matchExact := String.eqb |}.

(** The store after the steady token [usdt] was selected. *)
Definition demo_store : StoreState := {|
  root := {| steadyState := {| currentToken := Some demo_usdt_token; addresses := None |};
             ethAccount := "0x5409ed021d9299bf6814279a6a1411a7e866a631" |};
  web3 := W3Done; userOrders := []; storeBaseToken := None; storeQuoteToken := None |}.

(** A BTC address and a USDT one. *)
Definition demo_addresses : list Address :=
  [{| Addr.coinCode := "BTC"; Addr.address := "1BoatSLRHtKNngkdXEeobR76b53LETtpyT" |};
   {| Addr.coinCode := "usdt"; Addr.address := "0x3333333333333333333333333333333333333333" |}].

(** ** Theorems *)

Section AppFacts.
Context `{AppConstants} `{PanelConstants} `{AddressValidator} `{RouterConstants} `{Router}.
Context `{ActionConstants} `{World}.

(** [onChangeAddresses] records the list and keeps the selection. *)
Lemma onChangeAddresses_store l st :
  getSteadyCurrentToken (onChangeAddresses dwMapDispatchToProps l st) = getSteadyCurrentToken st /\
  getDepositAddresses (onChangeAddresses dwMapDispatchToProps l st) = Some l.
Proof. split; reflexivity. Qed.

Lemma renderPanel_throws g p st e :
  renderPanel g p st = Throw e <-> DepositWithdraw.render (panelKnownTokens g) p st = Throw e.
Proof. unfold renderPanel. destruct (DepositWithdraw.render _ _ _); split; congruence. Qed.

Lemma renderExchange_throws g st panel e :
  renderExchange g st panel = Throw e <-> renderPanel g (dwMapStateToProps st) panel = Throw e.
Proof. unfold renderExchange. destruct (renderPanel _ _ _); split; congruence. Qed.

(** Rendering the panel again with the globals its render left gives the
    same view and the same globals: the trading registry is created at
    most once. *)
Lemma renderPanel_stable g p st v g' :
  renderPanel g p st = Ok (v, g') ->
  renderPanel g' p st = Ok (v, g') /\ knownSteadyTokens g' = knownSteadyTokens g.
Proof.
  unfold renderPanel, panelKnownTokens.
  destruct (getKnownTokens KNOWN_TOKENS_META_DATA g) as [[kt g1]|e] eqn:Hg.
  - destruct (getKnownTokens_cached _ KNOWN_TOKENS_META_DATA _ _ _ Hg) as [Hg1 Hs].
    destruct (DepositWithdraw.render (Ok kt) p st) eqn:Hr; [|discriminate].
    intros [= <- <-].
    destruct (props_currentToken p), (Panel.tab st); simpl; rewrite ?Hg1, ?Hg, ?Hr; auto.
  - destruct (DepositWithdraw.render (Throw e) p st) eqn:Hr; [|discriminate].
    intros [= <- <-].
    destruct (props_currentToken p), (Panel.tab st); simpl; rewrite ?Hg, ?Hr; auto.
Qed.

(** C12: The steady app throws, and so unmounts, exactly when the
    location matches the exchange route, the panel shows its withdraw
    tab, a steady token is selected, and [getKnownTokens()] or the
    lookup of the token's symbol in the trading registry throws; it
    throws that exception. *)
Theorem steadyApp_throws_iff path g st panel e :
  renderSteadyApp path g st panel = Throw e <->
  matchExact (STEADY_APP_BASE_PATH +:+ "/") path = true /\ Panel.tab panel = Withdraw /\
  exists ct, getSteadyCurrentToken st = Some ct /\
    (kt <- panelKnownTokens g ;; getTokenBySymbol kt (symbol ct)) = Throw e.
Proof.
  transitivity (matchExact (STEADY_APP_BASE_PATH +:+ "/") path = true /\
                renderExchange g st panel = Throw e).
  { unfold renderSteadyApp. destruct (matchExact _ path);
      [destruct (renderExchange g st panel) as [[]|]|]; simpl; intuition congruence. }
  rewrite renderExchange_throws, renderPanel_throws, render_throws_iff. reflexivity.
Qed.

(** The app's first render, with the panel in its initial state
    (the deposit tab), never throws and leaves the globals unchanged,
    whatever the location, the store and the configuration. *)
Theorem steadyApp_initial_render_ok path g st :
  exists el, renderSteadyApp path g st DepositWithdraw.initialState = Ok (el, g).
Proof.
  unfold renderSteadyApp, renderExchange, renderPanel.
  destruct (DepositWithdraw.render (panelKnownTokens g) (dwMapStateToProps st)
              DepositWithdraw.initialState) as [v|e] eqn:Hr.
  - destruct (matchExact _ path); simpl; eauto. repeat case_match; eauto.
  - apply render_throws_iff in Hr as [Ht _]. discriminate.
Qed.

(** Rendering the app again with the globals its last render
    left gives the same tree and the same globals, and the steady
    registry is never touched: once created, the trading registry fixes
    what the page shows. *)
Theorem steadyApp_rerender_stable path g st panel el g' :
  renderSteadyApp path g st panel = Ok (el, g') ->
  renderSteadyApp path g' st panel = Ok (el, g') /\ knownSteadyTokens g' = knownSteadyTokens g.
Proof.
  unfold renderSteadyApp, renderExchange.
  destruct (matchExact _ path); simpl; [|intros [= <- <-]; auto].
  destruct (renderPanel g _ panel) as [[v g1]|e] eqn:Hp; simpl; [|discriminate].
  intros [= <- <-]. destruct (renderPanel_stable _ _ _ _ _ Hp) as [-> ?]. auto.
Qed.

(** C15: Once the panel's [onChangeAddresses] has stored a list with
    an address for the selected token's symbol, the app on the exchange
    route renders, in the panel's initial (deposit) state, one panel that
    shows that address as a QR code with a "Copy Address" button copying
    it, without throwing and without touching the globals. *)
Theorem changeAddresses_shows_address path g st l ct :
  matchExact (STEADY_APP_BASE_PATH +:+ "/") path = true ->
  getSteadyCurrentToken st = Some ct ->
  DepositWithdraw.currentTokenAddress ct (Some l) <> "" ->
  exists el v,
    renderSteadyApp path g (onChangeAddresses dwMapDispatchToProps l st)
      DepositWithdraw.initialState = Ok (el, g) /\
    panels el = [Some v] /\
    qr v = Some (Some (DepositWithdraw.currentTokenAddress ct (Some l), QR_CODE_SIZE)) /\
    copyText (button v) = Some (DepositWithdraw.currentTokenAddress ct (Some l)) /\
    text (button v) = "Copy Address".
Proof.
  intros Hm Hct Ha. destruct (onChangeAddresses_store l st) as [Hc Hl].
  unfold renderSteadyApp, renderExchange, renderPanel. rewrite Hm.
  unfold DepositWithdraw.render, dwMapStateToProps. rewrite Hc, Hct, Hl.
  cbn [props_currentToken props_addresses].
  destruct (DepositWithdraw.currentTokenAddress ct (Some l)) as [|c0 a0]; [done|].
  simpl. eauto 10.
Qed.

End AppFacts.

Section Witnesses.
#[local] Existing Instance demo_constants.
#[local] Existing Instance demo_panel_constants.
#[local] Existing Instance demo_validator.
#[local] Existing Instance demo_router_constants.
#[local] Existing Instance demo_router.
#[local] Existing Instance demo_action_constants.
#[local] Existing Instance demo_world.

(** Switching the panel to the withdraw tab with [usdt] selected unmounts
    the app: the trading registry has no ["USDT"]. *)
Lemma steadyApp_throws_iff_witness :
  renderSteadyApp "/steady/" globals_init demo_store
    (DepositWithdraw.changeTab Withdraw DepositWithdraw.initialState) =
  Throw (JsError (symbolNotFound "USDT")).
Proof.
  apply steadyApp_throws_iff. split; [reflexivity|]. split; [reflexivity|].
  exists demo_usdt_token. split; [reflexivity|]. vm_compute. reflexivity.
Defined.

Lemma steadyApp_initial_render_ok_witness :
  exists el, renderSteadyApp "/steady/" globals_init demo_store DepositWithdraw.initialState =
             Ok (el, globals_init).
Proof. apply steadyApp_initial_render_ok. Defined.

(** The withdraw tab of [dai] renders, creating the trading registry. *)
Lemma steadyApp_rerender_stable_witness :
  exists el g', renderSteadyApp "/steady/" globals_init
    {| root := {| steadyState := {| currentToken := Some demo_dai_token; addresses := None |};
                  ethAccount := "" |};
       web3 := W3Done; userOrders := []; storeBaseToken := None; storeQuoteToken := None |}
    (DepositWithdraw.changeTab Withdraw DepositWithdraw.initialState) = Ok (el, g') /\
  knownTokens g' = Some demo_registry /\
  renderSteadyApp "/steady/" g'
    {| root := {| steadyState := {| currentToken := Some demo_dai_token; addresses := None |};
                  ethAccount := "" |};
       web3 := W3Done; userOrders := []; storeBaseToken := None; storeQuoteToken := None |}
    (DepositWithdraw.changeTab Withdraw DepositWithdraw.initialState) = Ok (el, g') /\
  knownSteadyTokens g' = knownSteadyTokens globals_init.
Proof.
  eexists _, _. split; [vm_compute; reflexivity|]. split; [vm_compute; reflexivity|].
  eapply steadyApp_rerender_stable. vm_compute. reflexivity.
Defined.

(** Storing a BTC and a USDT address shows the USDT one for [usdt]. *)
Lemma changeAddresses_shows_address_witness :
  DepositWithdraw.currentTokenAddress demo_usdt_token (Some demo_addresses) =
    "0x3333333333333333333333333333333333333333" /\
  exists el v,
    renderSteadyApp "/steady/" globals_init
      (onChangeAddresses dwMapDispatchToProps demo_addresses demo_store)
      DepositWithdraw.initialState = Ok (el, globals_init) /\
    panels el = [Some v] /\
    qr v = Some (Some (DepositWithdraw.currentTokenAddress demo_usdt_token (Some demo_addresses),
                 QR_CODE_SIZE)) /\
    copyText (button v) =
      Some (DepositWithdraw.currentTokenAddress demo_usdt_token (Some demo_addresses)) /\
    text (button v) = "Copy Address".
Proof.
  split; [vm_compute; reflexivity|].
  apply (changeAddresses_shows_address _ _ _ _ demo_usdt_token);
    vm_compute; [reflexivity|reflexivity|discriminate].
Defined.

End Witnesses.
