(* ===== verification/AppMachine.v ===== *)
(** * The steady app as a machine of user interactions

    Composes the parts a user touches on the exchange page: the token
    dropdown inside the deposit/withdraw panel, the panel's tabs, inputs
    and button, and the store they share, under the app's render of
    [SteadyApp].  An [App] holds the location, the store, the panel's local
    state, the token dropdown's child [Dropdown] and token list, and the
    globals of the singletons.

    An event can only happen on what the page shows: [shownPanel] renders
    the app ([renderSteadyApp]) and yields the panel's view and the globals
    after the render, or nothing when the app threw (React unmounts it),
    when the route does not match, or when the panel rendered [null].  The
    events are those of [token_dropdown.tsx] (a header, row or outside
    click, [TokenDropdown.page_handle]), a click on a tab ([changeTab]),
    the amount and address inputs, which exist only on the withdraw tab
    ([updateWithdrawAmount], [updateAddress] as the [onChange] of
    [BigNumberInput] and [AddressInput]), and a click on the button, which
    a disabled button does not deliver ([submit]); the mousedown of a
    click on a tab or the button first reaches the token dropdown's
    document listener, which may close it ([withClick]).  [app_handle] is the
    step function, labelled with the wallet calls the step makes;
    [app_run] chains steps.  The location is fixed: navigation is not an
    event of the page.  What [BigNumberInput] (not in the snapshot) passes
    to [onChange] is any amount. *)

From Stdlib Require Import String ZArith List.
From stdpp Require Import base list strings relations.
From S2P Require Import Prelude TokenData KnownTokens SteadyStore Dropdown TokenDropdown.
From S2P Require Import DepositWithdraw Actions OrderHistory SteadyApp.

Open Scope ui_scope.
Local Open Scope string_scope.

Import SteadyApp.

Module AppMachine.

Record App := {
  location : string;
  app_store : StoreState;
  app_panel : Panel.State;
  td_dd : Dropdown;
  td_tokens : list Token;
  app_globals : Globals;
}.

Inductive app_event :=
| TokenDropdownEvent (e : page_event)
| TabClicked (side : SteadySide)
| AmountChanged (amount : Z)
| AddressTyped (address : string)
| SubmitClicked.

Section Machine.
Context `{AppConstants} `{PanelConstants} `{AddressValidator} `{RouterConstants} `{Router}.

(** The panel renders [<TokenDropdown shouldCloseDropdownBodyOnClick={false} />];
    the dropdown reads no outside-click flag from it. *)
Definition tdProps : Props := tokenDropdownProps None.

(** The token dropdown as its component sees it: the steady slice of the
    store ([mapStateToProps]), its child dropdown and its token list. *)
Definition tdPage (a : App) : Page :=
  {| store := steadyState (root (app_store a)); dd := td_dd a; tokens := td_tokens a |}.

(** The panel the page shows, and the globals after the render. *)
Definition shownPanel (a : App) : option (View * Globals) :=
  match renderSteadyApp (location a) (app_globals a) (app_store a) (app_panel a) with
  | Ok (el, g) => match panels el with [Some v] => Some (v, g) | _ => None end
  | Throw _ => None
  end.

Definition withPanel (a : App) (st : Panel.State) (g : Globals) : App :=
  {| location := location a; app_store := app_store a; app_panel := st;
     td_dd := td_dd a; td_tokens := td_tokens a; app_globals := g |}.

(** A click on a tab or on the button: its mousedown reaches the token
    dropdown's document listener first ([_handleClickOutside] in
    [dropdown.tsx], the target outside the dropdown's wrapper), then the
    element's [onClick] runs. *)
Definition withClick (a : App) (st : Panel.State) (g : Globals) : App :=
  {| location := location a; app_store := app_store a; app_panel := st;
     td_dd := handle tdProps (DocumentMouseDown false) (td_dd a); td_tokens := td_tokens a;
     app_globals := g |}.

(** One user event on the rendered page: the next state and the wallet
    calls made. *)
Definition app_handle (a : App) (ev : app_event) : option (App * list Effect) :=
  match shownPanel a with
  | None => None
  | Some (v, g) =>
      match ev with
      | TokenDropdownEvent e =>
          match page_handle tdProps e (tdPage a) with
          | Some (pg, acts) =>
              Some ({| location := location a; app_store := dispatchAll (app_store a) acts;
                       app_panel := app_panel a; td_dd := dd pg; td_tokens := tokens pg;
                       app_globals := g |}, [])
          | None => None
          end
      | TabClicked side => Some (withClick a (DepositWithdraw.changeTab side (app_panel a)) g, [])
      | AmountChanged z =>
          match input v with
          | Some _ => Some (withPanel a (DepositWithdraw.updateWithdrawAmount z (app_panel a)) g, [])
          | None => None
          end
      | AddressTyped s =>
          match input v with
          | Some _ => Some (withPanel a (DepositWithdraw.updateAddress s (app_panel a)) g, [])
          | None => None
          end
      | SubmitClicked =>
          if disabled (button v) then None
          else Some (withClick a (app_panel a) g,
                     DepositWithdraw.submit (dwMapStateToProps (app_store a)) (app_panel a))
      end
  end.

(** A sequence of events and the wallet calls they make, in order. *)
Inductive app_run : App -> list app_event -> list Effect -> App -> Prop :=
| run_nil a : app_run a [] [] a
| run_cons a ev effs a1 evs effs' a2 :
    app_handle a ev = Some (a1, effs) -> app_run a1 evs effs' a2 ->
    app_run a (ev :: evs) (effs ++ effs') a2.

(** The page as first shown: the panel in its initial state, the token
    dropdown mounted and closed with the steady registry's list. *)
Definition initialApp (path : string) (kt : KnownTokens) (st : StoreState) (g : Globals) : App :=
  {| location := path; app_store := st; app_panel := DepositWithdraw.initialState;
     td_dd := handle tdProps Mount initial; td_tokens := getSteadyTokens kt; app_globals := g |}.

(** Runs the events one after another; [None] when one of them cannot
    happen on the page. *)
Fixpoint app_exec (a : App) (evs : list app_event) : option (list Effect * App) :=
  match evs with
  | [] => Some ([], a)
  | ev :: evs' =>
      match app_handle a ev with
      | Some (a1, effs) =>
          match app_exec a1 evs' with
          | Some (effs', a2) => Some (app effs effs', a2)
          | None => None
          end
      | None => None
      end
  end.

(** The invariant of the page's runs when the configuration resolves
    every steady token: the location, a store reachable by the actions the
    application dispatches, the registry's list in the token dropdown, and
    the globals before or after the trading registry was created. *)
Definition app_inv (path : string) (kt : KnownTokens) (g0 g1 : Globals) (a : App) : Prop :=
  location a = path /\ reachable kt (steadyState (root (app_store a))) /\
  td_tokens a = getSteadyTokens kt /\ (app_globals a = g0 \/ app_globals a = g1).

End Machine.

End AppMachine.

Import AppMachine.

(** ** Concrete configurations, for evaluating the definitions *)

(** A steady registry whose only token, [dai], the trading registry of
    [demo_data] also lists. *)
Definition demo_dai_registry : KnownTokens := {|
  _tokens := []; _steadyTokens := [demo_dai_token];
  _wethToken := @tokenOfSteadyData demo_constants demo_weth |}.

(** A store on the initial steady state of a registry, with a wallet that
    is ready. *)
Definition demo_app_store (kt : KnownTokens) : StoreState := {|
  root := {| steadyState := initialSteadyState kt;
             ethAccount := "0x5409ed021d9299bf6814279a6a1411a7e866a631" |};
  web3 := W3Done; userOrders := []; storeBaseToken := None; storeQuoteToken := None |}.

(** Pick the first token, switch to withdraw, enter 5 and an address,
    click the button. *)
Definition demo_withdraw_events : list app_event :=
  [TokenDropdownEvent HeaderClicked; TokenDropdownEvent (RowClick 0); TabClicked Withdraw;
   AmountChanged 5%Z; AddressTyped "0x1111111111111111111111111111111111111111"; SubmitClicked].

(** ** Theorems *)

Section AppMachineFacts.
Context `{AppConstants} `{PanelConstants} `{AddressValidator} `{RouterConstants} `{Router}.

Lemma app_exec_run (a : App) (evs : list app_event) (effs : list Effect) (a' : App) :
  app_exec a evs = Some (effs, a') -> app_run a evs effs a'.
Proof.
  revert a effs. induction evs as [|ev evs IH]; intros a effs; simpl; [intros [= <- <-]; constructor|].
  destruct (app_handle a ev) as [[a1 e1]|] eqn:Hh; [|discriminate].
  destruct (app_exec a1 evs) as [[e2 a2]|] eqn:He; [|discriminate].
  intros [= <- <-]. econstructor; [exact Hh|]. by apply IH.
Qed.

(** A second mousedown outside the token dropdown changes nothing. *)
Lemma outside_mousedown_idem (s : Dropdown) :
  handle tdProps (DocumentMouseDown false) (handle tdProps (DocumentMouseDown false) s) =
  handle tdProps (DocumentMouseDown false) s.
Proof.
  destruct s as [o w l]. unfold handle, handleClickOutside, closeDropdown.
  destruct l, w, (closeFlag tdProps); reflexivity.
Qed.

(** Without a selected token the panel renders [null]: nothing of it, the
    token dropdown included, is on the page. *)
Lemma shownPanel_no_token (a : App) :
  getSteadyCurrentToken (app_store a) = None -> shownPanel a = None.
Proof.
  intros Hct. unfold shownPanel, renderSteadyApp, renderExchange, renderPanel, DepositWithdraw.render.
  simpl. rewrite Hct. by destruct (matchExact _ _).
Qed.

Lemma dispatchAll_steady (st : StoreState) (acts : list RootAction) :
  steadyState (root (dispatchAll st acts)) = dispatch_all (steadyState (root st)) acts /\
  web3 (dispatchAll st acts) = web3 st.
Proof.
  split; [|done]. unfold dispatchAll, dispatch_all. simpl.
  generalize (root st). induction acts as [|x acts IH]; intros r; simpl; [done|]. apply IH.
Qed.

(** The token dropdown's handlers leave in the store what they dispatch. *)
Lemma page_handle_store (p : Props) (e : page_event) (pg pg' : Page) (acts : list RootAction) :
  page_handle p e pg = Some (pg', acts) -> store pg' = dispatch_all (store pg) acts.
Proof.
  destruct e; simpl.
  - unfold clickRow. destruct (isOpen _ && wrapperRef _); [|discriminate].
    destruct (tokens pg !! i); [|discriminate]. by intros [= <- <-].
  - destruct (wrapperRef _); [|discriminate]. by intros [= <- <-].
  - by intros [= <- <-].
Qed.

(** On the exchange route the page shows what the panel renders. *)
Lemma shownPanel_route (a : App) :
  matchExact (STEADY_APP_BASE_PATH +:+ "/") (location a) = true ->
  shownPanel a =
    match renderPanel (app_globals a) (dwMapStateToProps (app_store a)) (app_panel a) with
    | Ok (Some v, g) => Some (v, g)
    | _ => None
    end.
Proof.
  intros Hm. unfold shownPanel, renderSteadyApp, renderExchange. rewrite Hm.
  by destruct (renderPanel _ _ _) as [[[v|] g]|].
Qed.

Lemma shownPanel_render (a : App) (v : View) (g : Globals) :
  shownPanel a = Some (v, g) ->
  renderPanel (app_globals a) (dwMapStateToProps (app_store a)) (app_panel a) = Ok (Some v, g).
Proof.
  unfold shownPanel, renderSteadyApp, renderExchange.
  destruct (matchExact _ _); simpl; [|discriminate].
  by destruct (renderPanel _ _ _) as [[[v'|] g']|]; simpl; [intros [= -> ->]| |].
Qed.

(** The panel's render leaves the globals, or those [getKnownTokens()]
    returns. *)
Lemma renderPanel_globals (g0 g : Globals) (p : StateProps) (st : Panel.State) (x : option View) :
  renderPanel g0 p st = Ok (x, g) ->
  g = g0 \/ exists kt, getKnownTokens KNOWN_TOKENS_META_DATA g0 = Ok (kt, g).
Proof.
  unfold renderPanel. destruct (DepositWithdraw.render _ _ _); [|discriminate]. intros [= _ <-].
  repeat case_match; eauto.
Qed.

Lemma renderPanel_view (g0 g : Globals) (p : StateProps) (st : Panel.State) (v : View) :
  renderPanel g0 p st = Ok (Some v, g) ->
  DepositWithdraw.render (panelKnownTokens g0) p st = Ok (Some v).
Proof. unfold renderPanel. destruct (DepositWithdraw.render _ _ _); [|discriminate]. by intros [= -> _]. Qed.

(** A deposit tab with a token selected renders and keeps the globals. *)
Lemma renderPanel_deposit (g : Globals) (p : StateProps) (st : Panel.State) (ct : Token) :
  props_currentToken p = Some ct -> Panel.tab st = Deposit ->
  exists v, renderPanel g p st = Ok (Some v, g).
Proof.
  intros Hct Ht. unfold renderPanel, DepositWithdraw.render. rewrite Hct, Ht. simpl. eauto.
Qed.

(** The button is disabled exactly while the wallet is not [Done]. *)
Lemma render_disabled (kts : result KnownTokens) (p : StateProps) (st : Panel.State) (v : View) :
  DepositWithdraw.render kts p st = Ok (Some v) ->
  disabled (button v) = bool_decide (web3State p <> W3Done).
Proof.
  unfold DepositWithdraw.render. destruct (props_currentToken p) as [ct|]; [|discriminate].
  case_decide; [|destruct kts as [kt|]; [destruct (getTokenBySymbol kt _)|]];
    simpl; intros; inv_result; subst; done.
Qed.

(** The app throws what the panel throws. *)
Lemma renderSteadyApp_throws (path : string) (g : Globals) (st : StoreState)
    (panel : Panel.State) (e : exn) :
  renderSteadyApp path g st panel = Throw e ->
  DepositWithdraw.render (panelKnownTokens g) (dwMapStateToProps st) panel = Throw e.
Proof.
  unfold renderSteadyApp. destruct (matchExact _ _); simpl; [|discriminate].
  destruct (renderExchange g st panel) as [[]|e'] eqn:He; simpl; [discriminate|].
  intros [= ->]. by apply renderPanel_throws, renderExchange_throws.
Qed.

Lemma renderSteadyApp_throws_withdraw (path : string) (g : Globals) (st : StoreState)
    (panel : Panel.State) (ct : Token) (e : exn) :
  matchExact (STEADY_APP_BASE_PATH +:+ "/") path = true -> Panel.tab panel = Withdraw ->
  getSteadyCurrentToken st = Some ct ->
  (kt <- panelKnownTokens g ;; getTokenBySymbol kt (symbol ct)) = Throw e ->
  renderSteadyApp path g st panel = Throw e.
Proof.
  intros Hm Ht Hct He. unfold renderSteadyApp. rewrite Hm.
  assert (Hx : renderExchange g st panel = Throw e).
  { apply renderExchange_throws, renderPanel_throws, render_throws_iff. eauto. }
  by rewrite Hx.
Qed.

Lemma shownPanel_deposit (a : App) (ct : Token) :
  matchExact (STEADY_APP_BASE_PATH +:+ "/") (location a) = true ->
  getSteadyCurrentToken (app_store a) = Some ct -> Panel.tab (app_panel a) = Deposit ->
  exists v, shownPanel a = Some (v, app_globals a).
Proof.
  intros Hm Hct Ht. rewrite shownPanel_route by done.
  destruct (renderPanel_deposit (app_globals a) (dwMapStateToProps (app_store a)) (app_panel a) ct)
    as [v ->]; eauto.
Qed.

(** The globals a step leaves, when the trading registry is created from
    [g0] as [g1]. *)
Lemma app_handle_globals (a a' : App) (ev : app_event) (effs : list Effect) (g0 g1 : Globals)
    (kt' : KnownTokens) :
  getKnownTokens KNOWN_TOKENS_META_DATA g0 = Ok (kt', g1) ->
  (app_globals a = g0 \/ app_globals a = g1) -> app_handle a ev = Some (a', effs) ->
  app_globals a' = g0 \/ app_globals a' = g1.
Proof.
  intros Hg0 Ha. destruct (getKnownTokens_cached _ KNOWN_TOKENS_META_DATA _ _ _ Hg0) as [Hg1 _].
  assert (Hg : forall x, getKnownTokens KNOWN_TOKENS_META_DATA (app_globals a) = Ok x -> x.2 = g1).
  { intros x Hx. destruct Ha as [Ha | Ha]; rewrite Ha in Hx;
      [rewrite Hg0 in Hx | rewrite Hg1 in Hx]; by injection Hx as <-. }
  unfold app_handle. destruct (shownPanel a) as [[v g]|] eqn:Hs; [|discriminate].
  apply shownPanel_render, renderPanel_globals in Hs as [-> | [kt Hk]]; [|apply Hg in Hk; simpl in Hk; subst];
    destruct ev; repeat case_match; intros; inv_result; subst; simpl; auto.
Qed.

Lemma app_inv_step (path : string) (kt kt' : KnownTokens) (g0 g1 : Globals) (a a' : App)
    (ev : app_event) (effs : list Effect) :
  getKnownTokens KNOWN_TOKENS_META_DATA g0 = Ok (kt', g1) ->
  app_inv path kt g0 g1 a -> app_handle a ev = Some (a', effs) -> app_inv path kt g0 g1 a'.
Proof.
  intros Hg0 (Hl & Hr & Ht & Hga) Hh.
  pose proof (app_handle_globals _ _ _ _ _ _ _ Hg0 Hga Hh) as Hga'.
  revert Hh. unfold app_handle. destruct (shownPanel a) as [[v g]|]; [|discriminate].
  destruct ev as [e| | | |]; simpl; [|intros; inv_result; subst; by repeat split
    | repeat case_match; intros; inv_result; subst; by repeat split ..].
  destruct (page_handle _ _ _) as [[pg acts]|] eqn:Hp; [|discriminate]. intros [= <- _].
  destruct (page_step_store tdProps kt (tdPage a) pg) as [Htk (acts' & Hacts' & Hst)];
    [done|by exists e, acts|].
  repeat split; [done| |done|done]. cbn [app_store].
  rewrite (proj1 (dispatchAll_steady _ _)).
  change (steadyState (root (app_store a))) with (store (tdPage a)).
  rewrite <- (page_handle_store _ _ _ _ _ Hp), Hst. by apply reachable_dispatch_all.
Qed.

(** C16: Whatever the rest of the store holds, the app as first shown
    can be brought down by the user: if the trading registry (or
    [getKnownTokens()] itself) cannot resolve the symbol of a token of the
    steady registry, opening the token dropdown, picking that token and
    clicking the withdraw tab makes no wallet call and leaves a state in
    which the app throws, and so unmounts. *)
Theorem app_crash_reachable (path : string) (kt : KnownTokens) (st : StoreState) (g : Globals)
    (i : nat) (t : Token) (e : exn) :
  matchExact (STEADY_APP_BASE_PATH +:+ "/") path = true ->
  steadyState (root st) = initialSteadyState kt ->
  getSteadyTokens kt !! i = Some t ->
  (kt' <- panelKnownTokens g ;; getTokenBySymbol kt' (symbol t)) = Throw e ->
  exists a, app_run (initialApp path kt st g)
      [TokenDropdownEvent HeaderClicked; TokenDropdownEvent (RowClick i); TabClicked Withdraw] [] a /\
    getSteadyCurrentToken (app_store a) = Some t /\
    renderSteadyApp (location a) (app_globals a) (app_store a) (app_panel a) = Throw e.
Proof.
  intros Hm Hst Hi He.
  assert (Ht0 : exists t0, getSteadyCurrentToken st = Some t0).
  { unfold getSteadyCurrentToken. rewrite Hst. unfold initialSteadyState, getSteadyDefaultToken.
    unfold getSteadyTokens in Hi. simpl. destruct (_steadyTokens kt); [done|eauto]. }
  destruct Ht0 as [t0 Ht0].
  change (@nil Effect) with (app (@nil Effect) (app [] (app [] []))). eexists. split.
  { destruct (shownPanel_deposit (initialApp path kt st g) t0) as [v0 Hv0]; [done..|].
    eapply run_cons; [unfold app_handle; rewrite Hv0; reflexivity|].
    match goal with |- app_run ?x _ _ _ => destruct (shownPanel_deposit x t0) as [v1 Hv1] end;
      [done..|].
    eapply run_cons.
    { unfold app_handle. rewrite Hv1. cbn -[dispatchAll]. unfold clickRow. simpl.
      rewrite Hi. reflexivity. }
    match goal with |- app_run ?x _ _ _ => destruct (shownPanel_deposit x t) as [v2 Hv2] end;
      [done..|].
    eapply run_cons; [unfold app_handle; rewrite Hv2; reflexivity|]. apply run_nil. }
  split; [done|]. by apply (renderSteadyApp_throws_withdraw _ _ _ _ t).
Qed.

(** C17: When [getKnownTokens()] succeeds and the trading registry
    resolves the symbol of every steady token, no sequence of user events
    brings the app down: in every state reachable from the page as first
    shown, on a store reachable by the application's actions, the app
    renders. *)
Theorem app_never_unmounts (path : string) (kt kt' : KnownTokens) (st : StoreState)
    (g0 g1 : Globals) (evs : list app_event) (effs : list Effect) (a : App) :
  getKnownTokens KNOWN_TOKENS_META_DATA g0 = Ok (kt', g1) ->
  (forall t, In t (getSteadyTokens kt) -> exists t', getTokenBySymbol kt' (symbol t) = Ok t') ->
  reachable kt (steadyState (root st)) ->
  app_run (initialApp path kt st g0) evs effs a ->
  exists el g, renderSteadyApp (location a) (app_globals a) (app_store a) (app_panel a) = Ok (el, g).
Proof.
  intros Hg0 Hres Hr Hrun.
  assert (Hinv : app_inv path kt g0 g1 a).
  { assert (Hi0 : app_inv path kt g0 g1 (initialApp path kt st g0)) by (repeat split; auto).
    revert Hi0. clear Hr. induction Hrun; [done|]. eauto using app_inv_step. }
  destruct Hinv as (_ & Hra & _ & Hga).
  destruct (renderSteadyApp _ _ _ _) as [[el g]|e] eqn:Hren; [eauto|exfalso].
  apply renderSteadyApp_throws, render_throws_iff in Hren as (_ & ct & Hct & He).
  assert (Hin : In ct (getSteadyTokens kt)).
  { pose proof (token_inv_rtc kt _ _ Hra (token_inv_init kt)) as Hti.
    unfold token_inv in Hti. simpl in Hct. unfold getSteadyCurrentToken in Hct.
    by rewrite Hct in Hti. }
  destruct (Hres ct Hin) as [t' Ht'].
  destruct (getKnownTokens_cached _ KNOWN_TOKENS_META_DATA _ _ _ Hg0) as [Hg1 _].
  unfold panelKnownTokens in He. destruct Hga as [Hga | Hga]; rewrite Hga in He;
    [rewrite Hg0 in He | rewrite Hg1 in He]; simpl in He; congruence.
Qed.

(** C18: Along any run of user events the wallet state does not
    change; when it is not [Done] no wallet call is made at all, and every
    call that is made is one of those [submit] makes, on a click of the
    enabled button in a state whose wallet is [Done]. *)
Theorem app_run_wallet_calls (a : App) (evs : list app_event) (effs : list Effect) (a' : App) :
  app_run a evs effs a' ->
  web3 (app_store a') = web3 (app_store a) /\
  (web3 (app_store a) <> W3Done -> effs = []) /\
  Forall (fun eff => exists a1, web3 (app_store a1) = W3Done /\
            In eff (DepositWithdraw.submit (dwMapStateToProps (app_store a1)) (app_panel a1))) effs.
Proof.
  induction 1 as [a|a ev effs a1 evs effs' a2 Hh _ (IHw & IHd & IHf)]; [by repeat split|].
  assert (Hstep : web3 (app_store a1) = web3 (app_store a) /\
    (effs = [] \/ web3 (app_store a) = W3Done /\
                  effs = DepositWithdraw.submit (dwMapStateToProps (app_store a)) (app_panel a))).
  { revert Hh. unfold app_handle. destruct (shownPanel a) as [[v g]|] eqn:Hs; [|discriminate].
    destruct ev as [e| | | |]; simpl.
    - destruct (page_handle _ _ _) as [[pg acts]|]; [|discriminate].
      intros [= <- <-]. split; [apply dispatchAll_steady|auto].
    - intros [= <- <-]. auto.
    - destruct (input v); [|discriminate]. intros [= <- <-]. auto.
    - destruct (input v); [|discriminate]. intros [= <- <-]. auto.
    - destruct (disabled (button v)) eqn:Hd; [discriminate|]. intros [= <- <-].
      split; [done|]. right. split; [|done].
      apply shownPanel_render, renderPanel_view, render_disabled in Hs.
      rewrite Hd in Hs. simpl in Hs. symmetry in Hs. apply bool_decide_eq_false in Hs.
      destruct (web3 (app_store a)); naive_solver. }
  destruct Hstep as [Hw [-> | [Hd ->]]]; simpl;
    rewrite Hw in IHw, IHd; (split; [done|]).
  - by split.
  - split; [by intros []|]. apply Forall_app. split; [|done]. apply List.Forall_forall. eauto.
Qed.

(** C19: A click on the button leaves the panel's state as it was
    (the [_reset] in the transfer's callback is commented out), so a
    second click makes the same wallet calls again: the same transfer is
    sent twice. *)
Theorem app_submit_repeats (a a' : App) (effs : list Effect) :
  app_handle a SubmitClicked = Some (a', effs) ->
  app_panel a' = app_panel a /\ app_handle a' SubmitClicked = Some (a', effs).
Proof.
  unfold app_handle. destruct (shownPanel a) as [[v g]|] eqn:Hs; [|discriminate].
  destruct (disabled (button v)) eqn:Hd; [discriminate|]. intros [= <- <-].
  split; [done|].
  assert (Hs' : shownPanel (withClick a (app_panel a) g) = Some (v, g)).
  { pose proof Hs as Hr. apply shownPanel_render, renderPanel_stable in Hr as [Hst _].
    revert Hs. unfold shownPanel, renderSteadyApp, renderExchange. simpl.
    destruct (matchExact _ _); simpl; [|discriminate]. rewrite Hst.
    by destruct (renderPanel (app_globals a) _ _) as [[[]]|]. }
  rewrite Hs', Hd. do 2 f_equal. unfold withClick. cbn [td_dd app_panel location app_store td_tokens app_globals]. by rewrite outside_mousedown_idem.
Qed.

(** C20: With an empty steady registry no token is ever selected: on
    the exchange route the app renders, without a throw and without
    touching the globals, with the panel rendering [null] (its
    [!currentToken] guard) whatever the panel's state, so the token
    dropdown is not mounted; the page as first shown accepts no event,
    and its only run is the empty one. *)
Theorem app_empty_registry_inert (path : string) (kt : KnownTokens) (st : StoreState) (g : Globals)
    (panel : Panel.State) (evs : list app_event) (effs : list Effect) (a : App) :
  matchExact (STEADY_APP_BASE_PATH +:+ "/") path = true ->
  getSteadyTokens kt = [] -> steadyState (root st) = initialSteadyState kt ->
  (exists el, renderSteadyApp path g st panel = Ok (el, g) /\ panels el = [None]) /\
  (app_run (initialApp path kt st g) evs effs a -> evs = [] /\ effs = [] /\ a = initialApp path kt st g).
Proof.
  intros Hm Hk Hst.
  assert (Hct : getSteadyCurrentToken st = None).
  { unfold getSteadyCurrentToken. rewrite Hst.
    unfold initialSteadyState, getSteadyDefaultToken. unfold getSteadyTokens in Hk. by rewrite Hk. }
  split.
  { unfold renderSteadyApp, renderExchange, renderPanel, DepositWithdraw.render. rewrite Hm.
    simpl. rewrite Hct. eexists. split; reflexivity. }
  intros Hr. assert (Hnone : shownPanel (initialApp path kt st g) = None) by (by apply shownPanel_no_token).
  inversion Hr as [|a0 ev effs0 a1 evs' effs' a2 Hh]; subst; [done|].
  unfold app_handle in Hh. by rewrite Hnone in Hh.
Qed.

End AppMachineFacts.

Section Witnesses.
#[local] Existing Instance demo_constants.
#[local] Existing Instance demo_panel_constants.
#[local] Existing Instance demo_validator.
#[local] Existing Instance demo_router_constants.
#[local] Existing Instance demo_router.

(** Picking [usdt] (the second steady token) and clicking withdraw
    unmounts the app: the trading registry has no ["USDT"]. *)
Lemma app_crash_reachable_witness :
  exists a, app_run (initialApp "/steady/" demo_steady_registry (demo_app_store demo_steady_registry)
                       globals_init)
      [TokenDropdownEvent HeaderClicked; TokenDropdownEvent (RowClick 1); TabClicked Withdraw] [] a /\
    getSteadyCurrentToken (app_store a) = Some demo_usdt_token /\
    renderSteadyApp (location a) (app_globals a) (app_store a) (app_panel a) =
      Throw (JsError (symbolNotFound "USDT")).
Proof. apply (app_crash_reachable _ _ _ _ 1 demo_usdt_token); vm_compute; reflexivity. Defined.

(** With [dai] only, the withdrawal goes through and the app stays up. *)
Lemma app_never_unmounts_witness :
  exists a, app_run (initialApp "/steady/" demo_dai_registry (demo_app_store demo_dai_registry)
                       globals_init) demo_withdraw_events
      [ContractSend ERC_777_ADDRESS WITHDRAW_ADDRESS 5 "0x1111111111111111111111111111111111111111"] a /\
    exists el g, renderSteadyApp (location a) (app_globals a) (app_store a) (app_panel a) = Ok (el, g).
Proof.
  eexists. split; [apply app_exec_run; vm_compute; reflexivity|].
  eapply (app_never_unmounts "/steady/" demo_dai_registry demo_registry
            (demo_app_store demo_dai_registry) globals_init _ demo_withdraw_events
            [ContractSend ERC_777_ADDRESS WITHDRAW_ADDRESS 5
               "0x1111111111111111111111111111111111111111"]).
  - vm_compute. reflexivity.
  - intros t [<-|[]]. eexists. vm_compute. reflexivity.
  - apply rtc_refl.
  - apply app_exec_run. vm_compute. reflexivity.
Defined.

Lemma app_run_wallet_calls_witness :
  exists a, app_run (initialApp "/steady/" demo_dai_registry (demo_app_store demo_dai_registry)
                       globals_init) demo_withdraw_events
      [ContractSend ERC_777_ADDRESS WITHDRAW_ADDRESS 5 "0x1111111111111111111111111111111111111111"] a /\
    web3 (app_store a) = W3Done /\
    (W3Done <> W3Done -> [ContractSend ERC_777_ADDRESS WITHDRAW_ADDRESS 5
                           "0x1111111111111111111111111111111111111111"] = []) /\
    Forall (fun eff => exists a1, web3 (app_store a1) = W3Done /\
              In eff (DepositWithdraw.submit (dwMapStateToProps (app_store a1)) (app_panel a1)))
      [ContractSend ERC_777_ADDRESS WITHDRAW_ADDRESS 5 "0x1111111111111111111111111111111111111111"].
Proof.
  eexists. split; [apply app_exec_run; vm_compute; reflexivity|].
  apply (app_run_wallet_calls (initialApp "/steady/" demo_dai_registry
                                 (demo_app_store demo_dai_registry) globals_init) demo_withdraw_events).
  apply app_exec_run. vm_compute. reflexivity.
Defined.

(** After entering the withdrawal, two clicks send it twice. *)
Lemma app_submit_repeats_witness :
  exists a a' effs,
    app_exec (initialApp "/steady/" demo_dai_registry (demo_app_store demo_dai_registry) globals_init)
      (List.removelast demo_withdraw_events) = Some ([], a) /\
    app_handle a SubmitClicked = Some (a', effs) /\
    effs = [ContractSend ERC_777_ADDRESS WITHDRAW_ADDRESS 5 "0x1111111111111111111111111111111111111111"] /\
    app_panel a' = app_panel a /\ app_handle a' SubmitClicked = Some (a', effs).
Proof.
  do 3 eexists. split; [vm_compute; reflexivity|]. split; [vm_compute; reflexivity|].
  split; [reflexivity|]. apply app_submit_repeats. vm_compute. reflexivity.
Defined.


(** A registry with no steady token: the page takes no click. *)
Lemma app_empty_registry_inert_witness :
  app_exec (initialApp "/steady/" demo_registry (demo_app_store demo_registry) globals_init)
    [TokenDropdownEvent HeaderClicked] = None /\
  ((exists el, renderSteadyApp "/steady/" globals_init (demo_app_store demo_registry)
                 (DepositWithdraw.changeTab Withdraw DepositWithdraw.initialState) = Ok (el, globals_init) /\
               panels el = [None]) /\
   (app_run (initialApp "/steady/" demo_registry (demo_app_store demo_registry) globals_init) [] []
      (initialApp "/steady/" demo_registry (demo_app_store demo_registry) globals_init) ->
    ([] : list app_event) = [] /\ ([] : list Effect) = [] /\
    initialApp "/steady/" demo_registry (demo_app_store demo_registry) globals_init =
    initialApp "/steady/" demo_registry (demo_app_store demo_registry) globals_init)).
Proof.
  split; [vm_compute; reflexivity|].
  apply (app_empty_registry_inert "/steady/" demo_registry (demo_app_store demo_registry) globals_init
           (DepositWithdraw.changeTab Withdraw DepositWithdraw.initialState) [] []
           (initialApp "/steady/" demo_registry (demo_app_store demo_registry) globals_init));
    vm_compute; reflexivity.
Defined.

End Witnesses.
